(** * Systematic Review Screening Tool: a shallow embedding of [main.py]

    The development follows the class [SystematicReviewTool]:
    - [Py]: the Python built-ins the program calls ([str.strip],
      [str.lower], [int], list indexing, [str.join]);
    - [Re]: the fragment of [re] the highlighter uses, [re.split] on one
      capture group around an alternation of escaped literals, with
      [re.IGNORECASE];
    - the record normalizers ([parse_pubmed_record], [parse_pubmed_xml],
      [load_cochrane_csv]) and the retrieval ([search_pubmed],
      [search_pubmed_direct], [perform_search]);
    - the application object as a record [App], its methods as
      computations in a state-and-exception monad [M];
    - the theorems, one section per property.

    Strings are [Stdlib.Strings.String.string] and stand for ASCII text,
    character for character: on a [str] for which [isascii()] holds the
    functions of [Py] and [Re] compute what [str.strip], [str.lower],
    [str.split], [int] and [re.split] compute.  On other text Python
    also strips, folds and reads characters these functions leave alone
    (U+00A0 is white space, [É] has a lower case, [re.IGNORECASE] lets
    [s] match U+017F); a theorem that depends on it assumes
    [Py.isascii] of the text.  Python integers are [Z].  The clock, the provider, the CSV file and
    the file sink are inputs of the functions that consult them. *)

From Stdlib Require Import List ZArith Bool Ascii String Lia Arith.
From Equations Require Import Equations.
From Equations.Prop Require Import Logic.
Import ListNotations.
Open Scope string_scope.
Open Scope Z_scope.

Set Implicit Arguments.
Set Warnings "-register-all".

(* ===================================================================== *)
(** * Python built-ins *)
(* ===================================================================== *)

Module Py.

(** The line feed character, written [\n] in the source. *)
Definition nl : string := String (ascii_of_nat 10) EmptyString.

(** [s.isascii()]: every character is below 128. *)
Fixpoint isascii (s : string) : bool :=
  match s with
  | EmptyString => true
  | String c t => (Nat.ltb (nat_of_ascii c) 128 && isascii t)%bool
  end.

(** [str.lower] on one character of ASCII text: [A]..[Z] go to
    [a]..[z]. *)
Definition lower_char (c : ascii) : ascii :=
  let n := nat_of_ascii c in
  if (Nat.leb 65 n && Nat.leb n 90)%bool then ascii_of_nat (n + 32) else c.

(** [s.lower()]. *)
Fixpoint lower (s : string) : string :=
  match s with
  | EmptyString => EmptyString
  | String c t => String (lower_char c) (lower t)
  end.

(** The characters of ASCII text that [str.strip] treats as white
    space: tab, line feed, vertical tab, form feed, carriage return, the
    four separators 0x1c..0x1f and the space. *)
Definition is_space (c : ascii) : bool :=
  let n := nat_of_ascii c in
  ((Nat.leb 9 n && Nat.leb n 13) || (Nat.leb 28 n && Nat.leb n 32))%bool.

(** [s.lstrip()]. *)
Fixpoint lstrip (s : string) : string :=
  match s with
  | EmptyString => EmptyString
  | String c t => if is_space c then lstrip t else s
  end.

(** [s.rstrip()]: a character is kept when something that is not white
    space follows it, or when it is not white space itself. *)
Fixpoint rstrip (s : string) : string :=
  match s with
  | EmptyString => EmptyString
  | String c t =>
      match rstrip t with
      | EmptyString => if is_space c then EmptyString else String c EmptyString
      | t' => String c t'
      end
  end.

(** [s.strip()]. *)
Definition strip (s : string) : string := rstrip (lstrip s).

(** Truth value of a string: [if s] and [not s]. *)
Definition truthy (s : string) : bool :=
  match s with EmptyString => false | _ => true end.

(** [sep.join(parts)]. *)
Definition join (sep : string) (parts : list string) : string :=
  String.concat sep parts.










(** [l[i]] for a Python list: a negative index counts from the end;
    [None] stands for [IndexError]. *)
Definition getitem {A : Type} (l : list A) (i : Z) : option A :=
  let n := Z.of_nat (List.length l) in
  if i <? 0 then
    if 0 <=? n + i then nth_error l (Z.to_nat (n + i)) else None
  else nth_error l (Z.to_nat i).

(** [l[i] = v] for an index in range that is not negative. *)
Fixpoint setitem {A : Type} (l : list A) (i : nat) (v : A) : list A :=
  match l, i with
  | [], _ => []
  | _ :: t, O => v :: t
  | x :: t, S j => x :: setitem t j v
  end.

(** [s.split(sep)] for a separator of one character: [cur] is the piece
    being read. *)
Fixpoint split_on (sep : ascii) (cur : string) (s : string) : list string :=
  match s with
  | EmptyString => [cur]
  | String c t =>
      if Ascii.eqb c sep then cur :: split_on sep EmptyString t
      else split_on sep (cur ++ String c EmptyString) t
  end.

Definition split (sep : ascii) (s : string) : list string :=
  split_on sep EmptyString s.

(** [len(l)]. *)
Definition len {A : Type} (l : list A) : Z := Z.of_nat (List.length l).

End Py.

(* ===================================================================== *)
(** * The regular expressions of the highlighter *)
(* ===================================================================== *)

Module Re.

(** [re.escape(keyword)] yields a pattern that matches the keyword
    literally; [Lit k] is that pattern. *)
Inductive literal : Type := Lit (k : string).

Definition escape (keyword : string) : literal := Lit keyword.

(** ['|'.join(patterns)] wrapped in one capture group: an alternation
    whose branches are tried from left to right. *)
Definition alternation := list literal.

(** Matching one literal at the start of [t], ignoring case: the matched
    text (in the casing of [t]) and what follows it.  On ASCII text two
    characters match under [re.IGNORECASE] exactly when their lower
    cases are equal. *)
Fixpoint match_literal (k t : string) : option (string * string) :=
  match k with
  | EmptyString => Some (EmptyString, t)
  | String a k' =>
      match t with
      | EmptyString => None
      | String b t' =>
          if Ascii.eqb (Py.lower_char a) (Py.lower_char b) then
            match match_literal k' t' with
            | Some (m, r) => Some (String b m, r)
            | None => None
            end
          else None
      end
  end.

(** Matching the alternation at the start of [t]: the first branch that
    matches wins.  When [must_advance] is set an empty match is refused
    and the next branch is tried (the engine does this right after an
    empty match, so that the scan makes progress). *)
Fixpoint match_here (p : alternation) (must_advance : bool) (t : string)
  : option (string * string) :=
  match p with
  | [] => None
  | Lit k :: p' =>
      match match_literal k t with
      | Some (EmptyString, r) =>
          if must_advance then match_here p' must_advance t
          else Some (EmptyString, r)
      | Some (m, r) => Some (m, r)
      | None => match_here p' must_advance t
      end
  end.

(** The leftmost match in [t]: the text before it, the match and the
    rest.  [must_advance] only constrains a match at the first position. *)
Fixpoint search (p : alternation) (must_advance : bool) (t : string)
  : option (string * string * string) :=
  match match_here p must_advance t with
  | Some (m, r) => Some (EmptyString, m, r)
  | None =>
      match t with
      | EmptyString => None
      | String c t' =>
          match search p false t' with
          | Some (b, m, r) => Some (String c b, m, r)
          | None => None
          end
      end
  end.

(** Measure of the split loop: the text left, and whether an empty match
    was just taken at this position. *)
Definition split_measure (must_advance : bool) (t : string) : nat :=
  (2 * String.length t + (if must_advance then 0 else 1))%nat.

(** The loop of [re.split(pattern, text)] for a pattern with one capture
    group: each match contributes the text since the previous match and
    the matched text; what follows the last match closes the list.  After
    an empty match the next one must advance. *)
Equations? split_from (p : alternation) (must_advance : bool) (t : string)
  : list string by wf (split_measure must_advance t) lt :=
  split_from p must_advance t with inspect (search p must_advance t) := {
    | exist _ None _ => [t]
    | exist _ (Some (b, m, r)) _ =>
        b :: m :: split_from p (negb (Py.truthy m)) r }.
Proof.
  assert (Hlit : forall k u m' r', match_literal k u = Some (m', r') ->
            String.length u = (String.length m' + String.length r')%nat).
  { induction k as [|a k IH]; intros u m' r' H; simpl in H.
    - inversion H; reflexivity.
    - destruct u as [|c u]; [discriminate|].
      destruct (Ascii.eqb _ _); [|discriminate].
      destruct (match_literal k u) as [[m1 r1]|] eqn:E; [|discriminate].
      inversion H; subst. simpl. rewrite (IH _ _ _ E). reflexivity. }
  assert (Hhere : forall q ma u m' r', match_here q ma u = Some (m', r') ->
            String.length u = (String.length m' + String.length r')%nat /\
            (ma = true -> m' <> EmptyString)).
  { induction q as [|[k] q IH]; intros ma u m' r' H; simpl in H; [discriminate|].
    destruct (match_literal k u) as [[m1 r1]|] eqn:E; [|eauto].
    destruct m1 as [|c1 m1].
    - destruct ma; [eauto|]. inversion H; subst.
      split; [apply (Hlit _ _ _ _ E)|discriminate].
    - inversion H; subst. split; [apply (Hlit _ _ _ _ E)|discriminate]. }
  assert (Hsearch : forall u ma b' m' r', search p ma u = Some (b', m', r') ->
            String.length u
            = (String.length b' + String.length m' + String.length r')%nat /\
            (ma = true -> b' = EmptyString -> m' <> EmptyString)).
  { induction u as [|c u IH]; intros ma b' m' r' H; simpl in H.
    - destruct (match_here p ma EmptyString) as [[m1 r1]|] eqn:E; [|discriminate].
      inversion H; subst. destruct (Hhere _ _ _ _ _ E); auto.
    - destruct (match_here p ma (String c u)) as [[m1 r1]|] eqn:E.
      + inversion H; subst. destruct (Hhere _ _ _ _ _ E); auto.
      + destruct (search p false u) as [[[b1 m1] r1]|] eqn:E1; [|discriminate].
        inversion H; subst. destruct (IH _ _ _ _ E1) as [Hl _].
        split; [simpl; lia|discriminate]. }
  match goal with H : search _ _ _ = Some _ |- _ =>
    destruct (Hsearch _ _ _ _ _ H) as [Hl Hadv] end.
  unfold split_measure. rewrite Hl.
  destruct m as [|c m]; simpl.
  - destruct must_advance; [|lia].
    destruct b as [|c b]; [exfalso; apply Hadv; reflexivity|simpl; lia].
  - lia.
Qed.

(** [re.split('(' + '|'.join(patterns) + ')', text, flags=re.IGNORECASE)]. *)
Definition split (p : alternation) (text : string) : list string :=
  split_from p false text.

End Re.

(* ===================================================================== *)
(** * Data model *)
(* ===================================================================== *)

(** The exceptions that occur in the modelled code. *)
Inductive exn : Type :=
  | KeyError | TypeError | AttributeError | IndexError | ValueError | OSError.

(** Outcome of a call: it returns a value or raises. *)
Inductive result (A : Type) : Type :=
  | Ok (a : A)
  | Raise (e : exn).
Arguments Ok {A} a.
Arguments Raise {A} e.

(** Values of the key ['Source']. *)
Inductive source : Type := PubMed | Cochrane.

(** Values of the key ['Status']. *)
Inductive status : Type := Pending | Included | Excluded.

(** The dictionary the normalizers build for one article.  The key
    ['Decision_Date'] is absent until a decision is taken.  ['Title'] is
    [None] when the XML title element has no text. *)
Record Article : Type := mkArticle {
  Sr_No : Z;
  Title : option string;
  ID_Link : string;
  Abstract : string;
  Authors : string;
  Source : source;
  Status : status;
  Decision_Date : option string
}.

(** [article['Status'] = st]. *)
Definition set_Status (st : status) (a : Article) : Article :=
  mkArticle (Sr_No a) (Title a) (ID_Link a) (Abstract a) (Authors a)
            (Source a) st (Decision_Date a).

(** [article['Decision_Date'] = d]. *)
Definition set_Decision_Date (d : string) (a : Article) : Article :=
  mkArticle (Sr_No a) (Title a) (ID_Link a) (Abstract a) (Authors a)
            (Source a) (Status a) (Some d).

(** An element of [all_articles]: a dictionary, or Python's [None]. *)
Definition entry : Type := option Article.

(** What an f-string prints for a value that is a string or [None]. *)
Definition fmt (v : option string) : string :=
  match v with Some s => s | None => "None" end.

(** The label of a row of a data frame, which [df.iterrows()] yields
    with the row: an integer, or a label that is not a number (a string,
    a tuple), given by what it prints as.  Adding a label of the second
    kind to an integer raises [TypeError].  An index of floats is not
    represented. *)
Inductive row_label : Type :=
  | IntLabel (i : Z)
  | TextLabel (printed_as : string).

(** Lines the program prints on the console. *)
Inductive printed : Type :=
  | ErrorParsingBiopythonRecord (e : exn)
  | ErrorParsingXML (e : exn)
  | ErrorParsingRecord (i : Z) (e : exn)
  | ErrorParsingXMLRecord (j : Z) (e : exn)
  | BiopythonSearchFailed (e : exn)
  | DirectPubMedSearchFailed (e : exn)
  | ErrorProcessingCochraneRow (i : row_label) (e : exn).

(* ===================================================================== *)
(** * Record normalizer, structured client path *)
(* ===================================================================== *)

Module Bio.

(** One entry of ['AuthorList']. *)
Record author : Type := mkAuthor {
  LastName : option string;
  ForeName : option string;
  CollectiveName : option string
}.

(** The value of ['AbstractText']: a list of segments or one string. *)
Inductive abstract_text : Type :=
  | Segments (l : list string)
  | Single (s : string).

(** The dictionary under ['Article']; [None] is an absent key. *)
Record article : Type := mkArticle {
  ArticleTitle : option string;
  AbstractText : option (option abstract_text);
  AuthorList : option (list author)
}.

(** The dictionary under ['MedlineCitation']. *)
Record citation : Type := mkCitation {
  Article_ : option article;
  PMID : option string
}.

(** One element of [records['PubmedArticle']]. *)
Record record : Type := mkRecord {
  MedlineCitation : option citation
}.

End Bio.

(** [d[key]] on a dictionary: [KeyError] when the key is absent. *)
Definition subscript {A : Type} (v : option A) : result A :=
  match v with Some a => Ok a | None => Raise KeyError end.

(** The author loop of [parse_pubmed_record]. *)
Fixpoint bio_authors (l : list Bio.author) : list string :=
  match l with
  | [] => []
  | a :: t =>
      match Bio.LastName a, Bio.ForeName a with
      | Some ln, Some fn => (ln ++ " " ++ fn) :: bio_authors t
      | _, _ =>
          match Bio.CollectiveName a with
          | Some cn => cn :: bio_authors t
          | None => bio_authors t
          end
      end
  end.

(** [article.get('Abstract', {}).get('AbstractText', [])] followed by the
    conversion to one string. *)
Definition bio_abstract (a : Bio.article) : string :=
  let abstract_list :=
    match Bio.AbstractText a with
    | Some (Some v) => v
    | _ => Bio.Segments []
    end in
  match abstract_list with
  | Bio.Segments [] => EmptyString
  | Bio.Segments l => Py.join " " l
  | Bio.Single s => s
  end.

(** ['; '.join(authors) if authors else 'No authors listed']. *)
Definition authors_str (authors : list string) : string :=
  match authors with
  | [] => "No authors listed"
  | _ => Py.join "; " authors
  end.

(** The [try] block of [parse_pubmed_record]. *)
Definition parse_pubmed_record_body (record : Bio.record) (sr_no : Z)
  : result Article :=
  match subscript (Bio.MedlineCitation record) with
  | Raise e => Raise e
  | Ok medline_citation =>
      match subscript (Bio.Article_ medline_citation) with
      | Raise e => Raise e
      | Ok article =>
          let title :=
            match Bio.ArticleTitle article with
            | Some t => t | None => "No title" end in
          let pmid :=
            match Bio.PMID medline_citation with
            | Some p => p | None => EmptyString end in
          let abstract := bio_abstract article in
          let author_list :=
            match Bio.AuthorList article with
            | Some l => l | None => [] end in
          let authors := bio_authors author_list in
          Ok (mkArticle sr_no (Some title) ("PMID: " ++ pmid) abstract
                        (authors_str authors) PubMed Pending None)
      end
  end.

(** [parse_pubmed_record(record, sr_no)]: the value returned and what is
    printed.  The [except] clause prints and returns [None]; the call
    itself never raises. *)
Definition parse_pubmed_record (record : Bio.record) (sr_no : Z)
  : entry * list printed :=
  match parse_pubmed_record_body record sr_no with
  | Ok a => (Some a, [])
  | Raise e => (None, [ErrorParsingBiopythonRecord e])
  end.

(** The loop of [search_pubmed] over [records['PubmedArticle']], from
    index [i] on, appending to [articles].  The call to
    [parse_pubmed_record] always returns, so its value is appended each
    time and the [except] branch of the loop is never entered. *)
Fixpoint search_pubmed_loop (records : list Bio.record) (i : Z)
         (articles : list entry) : list entry * list printed :=
  match records with
  | [] => (articles, [])
  | record :: rest =>
      let '(article, out) := parse_pubmed_record record (i + 1) in
      let '(articles', out') :=
        search_pubmed_loop rest (i + 1) (articles ++ [article])%list in
      (articles', (out ++ out')%list)
  end.

(* ===================================================================== *)
(** * Record normalizer, raw XML path *)
(* ===================================================================== *)

Module Xml.

(** An [ElementTree] element: tag, [.text] (which may be [None]) and
    children. *)
Inductive elem : Type :=
  | Elem (tag : string) (text : option string) (children : list elem).

Definition tag (e : elem) : string := match e with Elem t _ _ => t end.
Definition text (e : elem) : option string := match e with Elem _ x _ => x end.
Definition children (e : elem) : list elem := match e with Elem _ _ c => c end.

(** The elements below [e] in document order. *)
Fixpoint descendants (e : elem) : list elem :=
  match e with
  | Elem _ _ cs => flat_map (fun c => c :: descendants c) cs
  end.

Definition has_tag (t : string) (e : elem) : bool := String.eqb (tag e) t.

(** [e.findall(t)]: the children with tag [t]. *)
Definition findall (t : string) (e : elem) : list elem :=
  filter (has_tag t) (children e).

(** [e.findall('.//' + t)]: the descendants with tag [t]. *)
Definition findall_deep (t : string) (e : elem) : list elem :=
  filter (has_tag t) (descendants e).

(** [e.find(t)]: the first child with tag [t], or [None]. *)
Definition find (t : string) (e : elem) : option elem :=
  List.find (has_tag t) (children e).

(** [e.find('.//' + t)]: the first descendant with tag [t], or [None]. *)
Definition find_deep (t : string) (e : elem) : option elem :=
  List.find (has_tag t) (descendants e).

End Xml.

(** Attribute access or method call on a value that may be [None]:
    [AttributeError] on [None]. *)
Definition attr {A : Type} (v : option A) : result A :=
  match v with Some a => Ok a | None => Raise AttributeError end.

(** The texts kept by [if text_elem.text]: neither [None] nor empty. *)
Fixpoint xml_abstract_parts (l : list Xml.elem) : list string :=
  match l with
  | [] => []
  | e :: t =>
      match Xml.text e with
      | Some s => if Py.truthy s then s :: xml_abstract_parts t
                  else xml_abstract_parts t
      | None => xml_abstract_parts t
      end
  end.

(** The author loop of [parse_pubmed_xml]; a collective name without
    text puts [None] in the list. *)
Fixpoint xml_authors (l : list Xml.elem) : list (option string) :=
  match l with
  | [] => []
  | author :: t =>
      match Xml.find "LastName" author, Xml.find "ForeName" author with
      | Some last_name, Some fore_name =>
          Some (fmt (Xml.text last_name) ++ " " ++ fmt (Xml.text fore_name))
          :: xml_authors t
      | _, _ =>
          match Xml.find "CollectiveName" author with
          | Some collective_name => Xml.text collective_name :: xml_authors t
          | None => xml_authors t
          end
      end
  end.

(** The strings of a list that holds no [None]; [TypeError] otherwise, as
    [str.join] raises on a list with a [None]. *)
Fixpoint all_str (l : list (option string)) : result (list string) :=
  match l with
  | [] => Ok []
  | None :: _ => Raise TypeError
  | Some s :: t =>
      match all_str t with
      | Ok t' => Ok (s :: t')
      | Raise e => Raise e
      end
  end.

(** The [try] block of [parse_pubmed_xml] (the second definition in the
    class, which is the one in force). *)
Definition parse_pubmed_xml_body (pubmed_article : Xml.elem) (sr_no : Z)
  : result Article :=
  match attr (Xml.find_deep "Article" pubmed_article) with
  | Raise e => Raise e
  | Ok article =>
      let title :=
        match Xml.find "ArticleTitle" article with
        | Some title_elem => Xml.text title_elem
        | None => Some "No title"
        end in
      let pmid :=
        match Xml.find_deep "PMID" pubmed_article with
        | Some pmid_elem => Xml.text pmid_elem
        | None => Some EmptyString
        end in
      let abstract_text :=
        match Xml.find_deep "Abstract" article with
        | Some abstract_elem =>
            Py.join " "
              (xml_abstract_parts (Xml.findall_deep "AbstractText" abstract_elem))
        | None => EmptyString
        end in
      let authors :=
        match Xml.find_deep "AuthorList" article with
        | Some author_list => xml_authors (Xml.findall "Author" author_list)
        | None => []
        end in
      match authors with
      | [] =>
          Ok (mkArticle sr_no title ("PMID: " ++ fmt pmid) abstract_text
                        "No authors listed" PubMed Pending None)
      | _ =>
          match all_str authors with
          | Raise e => Raise e
          | Ok l =>
              Ok (mkArticle sr_no title ("PMID: " ++ fmt pmid) abstract_text
                            (Py.join "; " l) PubMed Pending None)
          end
      end
  end.

(** [parse_pubmed_xml(pubmed_article, sr_no)]: prints and returns [None]
    when the block raises. *)
Definition parse_pubmed_xml (pubmed_article : Xml.elem) (sr_no : Z)
  : entry * list printed :=
  match parse_pubmed_xml_body pubmed_article sr_no with
  | Ok a => (Some a, [])
  | Raise e => (None, [ErrorParsingXML e])
  end.

(** The inner loop of [search_pubmed_direct] over the [PubmedArticle]
    elements of one response; the number passed is [len(articles) + 1]. *)
Fixpoint direct_inner_loop (elems : list Xml.elem) (articles : list entry)
  : list entry * list printed :=
  match elems with
  | [] => (articles, [])
  | pubmed_article :: rest =>
      let '(article, out) :=
        parse_pubmed_xml pubmed_article (Py.len articles + 1) in
      let '(articles', out') := direct_inner_loop rest (articles ++ [article])%list in
      (articles', (out ++ out')%list)
  end.

(** [pmids[i:i + batch_size]] for [i] in [range(0, len(pmids), batch_size)]:
    [room] is what the batch being filled can still take, [cur] holds it
    in reverse. *)
Fixpoint batches (batch_size room : nat) (cur pmids : list string)
  : list (list string) :=
  match pmids with
  | [] => match cur with [] => [] | _ => [rev cur] end
  | x :: t =>
      match room with
      | O => rev cur :: batches batch_size (batch_size - 1) [x] t
      | S r => batches batch_size r (x :: cur) t
      end
  end.

(** What a search sends to the provider: the terms, the cap [retmax] and
    the contact address. *)
Record Query : Type := mkQuery {
  term : string;
  retmax : Z;
  contact : string
}.

(** The search provider as the program sees it. *)
Record Provider : Type := mkProvider {
  (** the flag set by the import of the client library *)
  BIOPYTHON_AVAILABLE : bool;
  (** [esearch], then [efetch] and [Entrez.read] when ids were found: the
      list [records['PubmedArticle']] (empty when no id was found), or
      the exception one of the calls raised *)
  entrez : Query -> result (list Bio.record);
  (** the HTTP search request, [raise_for_status] and the id list of the
      JSON answer *)
  esearch : Query -> result (list string);
  (** the HTTP fetch request for a contact address and one batch of ids,
      [raise_for_status] and [ET.fromstring] *)
  efetch : string -> list string -> result Xml.elem
}.

(** The batch loop of [search_pubmed_direct]: an exception leaves the
    loop with the articles collected so far. *)
Fixpoint direct_batch_loop (pv : Provider) (email : string)
         (bs : list (list string)) (articles : list entry)
  : list entry * list printed :=
  match bs with
  | [] => (articles, [])
  | batch_pmids :: rest =>
      match efetch pv email batch_pmids with
      | Raise e => (articles, [DirectPubMedSearchFailed e])
      | Ok root =>
          let '(articles1, out1) :=
            direct_inner_loop (Xml.findall_deep "PubmedArticle" root) articles in
          let '(articles2, out2) := direct_batch_loop pv email rest articles1 in
          (articles2, (out1 ++ out2)%list)
      end
  end.

(** [search_pubmed_direct(search_terms, max_results)], with [self.email]. *)
Definition search_pubmed_direct (pv : Provider) (email search_terms : string)
           (max_results : Z) : list entry * list printed :=
  match esearch pv (mkQuery search_terms max_results email) with
  | Raise e => ([], [DirectPubMedSearchFailed e])
  | Ok pmids => direct_batch_loop pv email (batches 100 100 [] pmids) []
  end.

(** [search_pubmed(search_terms, max_results)], with [self.email]. *)
Definition search_pubmed (pv : Provider) (email search_terms : string)
           (max_results : Z) : list entry * list printed :=
  if BIOPYTHON_AVAILABLE pv then
    match entrez pv (mkQuery search_terms max_results email) with
    | Ok records => search_pubmed_loop records 0 []
    | Raise e =>
        let '(articles, out) :=
          search_pubmed_direct pv email search_terms max_results in
        (articles, BiopythonSearchFailed e :: out)
    end
  else search_pubmed_direct pv email search_terms max_results.

(* ===================================================================== *)
(** * Manual import *)
(* ===================================================================== *)

Module Csv.

(** A value of a data frame: a string, or another value (a number, a
    missing value) given by what [str] prints for it and by its truth
    value, the two things [load_cochrane_csv] reads from it. *)
Inductive cell : Type :=
  | Str (s : string)
  | Other (printed_as : string) (truth : bool).

Definition str (c : cell) : string :=
  match c with Str s => s | Other s _ => s end.

Definition truthy (c : cell) : bool :=
  match c with Str s => Py.truthy s | Other _ b => b end.

(** The frame [pd.read_csv] returns: the column labels and what
    [df.iterrows()] yields, each row with its label and its values in
    column order.  When the data lines of the file have as many fields
    as the header line, the labels are 0, 1, 2, ...; when they have one
    field more, [read_csv] takes the first field of each line as the
    label of the row. *)
Record DataFrame : Type := mkDataFrame {
  columns : list string;
  iterrows : list (row_label * list cell)
}.

(** [name in df.columns]. *)
Definition has_column (df : DataFrame) (name : string) : bool :=
  existsb (String.eqb name) (columns df).

(** Value of a row under a label, over the labels [cols]. *)
Fixpoint lookup (cols : list string) (row : list cell) (key : string)
  : option cell :=
  match cols, row with
  | c :: cols', v :: row' =>
      if String.eqb c key then Some v else lookup cols' row' key
  | _, _ => None
  end.

(** [row.get(key, default)]. *)
Definition get (df : DataFrame) (row : list cell) (key : string)
           (default : cell) : cell :=
  match lookup (columns df) row key with
  | Some v => v
  | None => default
  end.

End Csv.

(** The inner loop over [possible_names] that fills [actual_columns]:
    the first synonym that is a column, if any. *)
Definition resolve_column (df : Csv.DataFrame) (possible_names : list string)
  : option string :=
  List.find (Csv.has_column df) possible_names.

(** [actual_columns.get(key, '')]. *)
Definition actual_column (df : Csv.DataFrame) (possible_names : list string)
  : string :=
  match resolve_column df possible_names with
  | Some name => name
  | None => EmptyString
  end.

(** The dictionary built for the row labelled [i], when [all_articles]
    holds [already] elements. *)
Definition cochrane_article (df : Csv.DataFrame) (already : Z) (i : Z)
           (row : list Csv.cell) : Article :=
  let title :=
    Csv.get df row (actual_column df ["Title"; "title"; "TITLE"])
            (Csv.Str "No title") in
  let authors :=
    Csv.get df row (actual_column df ["Authors"; "authors"; "AUTHORS"; "Author"])
            (Csv.Str "No authors listed") in
  let abstract :=
    Csv.get df row (actual_column df ["Abstract"; "abstract"; "ABSTRACT"])
            (Csv.Str EmptyString) in
  let doi :=
    Csv.get df row (actual_column df ["DOI"; "doi"; "ID"; "id"]) (Csv.Str EmptyString) in
  mkArticle (already + i + 1)
            (Some (Csv.str title))
            (if Csv.truthy doi then "DOI: " ++ Csv.str doi else "No ID")
            (Csv.str abstract)
            (Csv.str authors)
            Cochrane Pending None.

(** The [try] block of the loop body for the row labelled [i]: the sum
    [len(self.all_articles) + i + 1] raises [TypeError] when the label
    is not a number; no other statement raises on the values of
    [Csv.cell]. *)
Definition cochrane_row (df : Csv.DataFrame) (already : Z) (i : row_label)
           (row : list Csv.cell) : result Article :=
  match i with
  | IntLabel z => Ok (cochrane_article df already z row)
  | TextLabel _ => Raise TypeError
  end.

(** The loop [for i, row in df.iterrows()]: a row whose body raises is
    reported on the console and skipped. *)
Fixpoint cochrane_loop (df : Csv.DataFrame) (already : Z)
         (rows : list (row_label * list Csv.cell))
  : list entry * list printed :=
  match rows with
  | [] => ([], [])
  | (i, row) :: rest =>
      let '(articles, out) := cochrane_loop df already rest in
      match cochrane_row df already i row with
      | Ok article => (Some article :: articles, out)
      | Raise e => (articles, ErrorProcessingCochraneRow i e :: out)
      end
  end.

(* ===================================================================== *)
(** * The application object *)
(* ===================================================================== *)

(** Text of a dialog or of a status line, with the value formatted into
    it kept apart. *)
Inductive message : Type :=
  | Text (s : string)
  | TextExn (s : string) (e : exn)
  | TextNum (s : string) (n : Z)
  | TextFile (s : string) (filename : string).

Inductive dialog_kind : Type := showerror | showinfo | showwarning.

(** One call to [messagebox]. *)
Record dialog : Type := mkDialog {
  kind : dialog_kind;
  title : string;
  body : message
}.

(** Values of [progress_var]. *)
Inductive progress : Type :=
  | ReadyToSearch
  | Searching
  | SearchingPubMed
  | FoundPubMed (n : Z)
  | LoadingCochrane
  | LoadedCochrane (n : Z)
  | SearchCompleted (n : Z)
  | NoArticlesFound
  | SearchError (e : exn).

(** Values of [screening_progress_var]. *)
Inductive screening_progress : Type :=
  | NoArticlesLoaded
  | ArticleOf (current total included excluded : Z).

(** Values of [stats_var]. *)
Inductive stats : Type :=
  | NoScreeningYet
  | Summary (total included excluded pending : Z).

(** A piece of text in a text widget with the tag it was inserted with. *)
Definition span : Type := (string * option string)%type.

(** Content of [results_text], as [display_search_results] fills it. *)
Record search_preview : Type := mkSearchPreview {
  sp_total : Z;
  sp_pubmed : Z;
  sp_cochrane : Z;
  sp_first : list Article;
  sp_more : option Z
}.

(** Content of [results_preview], as [update_results_preview] fills it. *)
Record results_preview_text : Type := mkResultsPreview {
  rp_total : Z;
  rp_included : Z;
  rp_excluded : Z;
  rp_pending : Z;
  rp_included_list : list Article;
  rp_excluded_first : list Article;
  rp_excluded_more : option Z
}.

(** The Tk variables the user fills in. *)
Record Inputs : Type := mkInputs {
  email_var : string;
  search_var : string;
  max_results_var : string;
  pubmed_var : bool;
  cochrane_var : bool;
  cochrane_file_var : string;
  keywords_var : string
}.

(** The widgets the program writes to. *)
Record Widgets : Type := mkWidgets {
  progress_var : progress;
  screening_progress_var : screening_progress;
  stats_var : stats;
  search_button_enabled : bool;
  results_text : option search_preview;
  article_display : list span;
  results_preview : option results_preview_text
}.

(** A file written by [to_csv]: its name and one row per element. *)
Record csv_file : Type := mkCsvFile {
  filename : string;
  file_rows : list entry
}.

(** The object [self] together with what the program has shown, printed
    and written so far (oldest first). *)
Record App : Type := mkApp {
  all_articles : list entry;
  current_index : Z;
  included_articles : list Article;
  excluded_articles : list Article;
  inclusion_keywords : list string;
  email : string;
  inputs : Inputs;
  widgets : Widgets;
  dialogs : list dialog;
  console : list printed;
  files : list csv_file
}.

(** What the program reaches outside itself: the search provider, the
    CSV reader and the CSV writer ([pd.DataFrame(rows).to_csv(name)]). *)
Record Env : Type := mkEnv {
  provider : Provider;
  read_csv : string -> result Csv.DataFrame;
  to_csv : string -> list entry -> result unit
}.

(** [SystematicReviewTool.__init__] and the initial values that
    [setup_ui] gives the variables. *)
Definition init : App :=
  mkApp [] 0 [] [] [] "your.email@example.com"
        (mkInputs "your.email@example.com" EmptyString "100" true true EmptyString EmptyString)
        (mkWidgets ReadyToSearch NoArticlesLoaded NoScreeningYet true None [] None)
        [] [] [].

(** Assignment to one attribute of [self]. *)
Definition set_all_articles (v : list entry) (s : App) : App :=
  mkApp v (current_index s) (included_articles s) (excluded_articles s)
        (inclusion_keywords s) (email s) (inputs s) (widgets s) (dialogs s)
        (console s) (files s).
Definition set_current_index (v : Z) (s : App) : App :=
  mkApp (all_articles s) v (included_articles s) (excluded_articles s)
        (inclusion_keywords s) (email s) (inputs s) (widgets s) (dialogs s)
        (console s) (files s).
Definition set_included_articles (v : list Article) (s : App) : App :=
  mkApp (all_articles s) (current_index s) v (excluded_articles s)
        (inclusion_keywords s) (email s) (inputs s) (widgets s) (dialogs s)
        (console s) (files s).
Definition set_excluded_articles (v : list Article) (s : App) : App :=
  mkApp (all_articles s) (current_index s) (included_articles s) v
        (inclusion_keywords s) (email s) (inputs s) (widgets s) (dialogs s)
        (console s) (files s).
Definition set_inclusion_keywords (v : list string) (s : App) : App :=
  mkApp (all_articles s) (current_index s) (included_articles s)
        (excluded_articles s) v (email s) (inputs s) (widgets s) (dialogs s)
        (console s) (files s).
Definition set_widgets (v : Widgets) (s : App) : App :=
  mkApp (all_articles s) (current_index s) (included_articles s)
        (excluded_articles s) (inclusion_keywords s) (email s) (inputs s) v
        (dialogs s) (console s) (files s).
Definition set_dialogs (v : list dialog) (s : App) : App :=
  mkApp (all_articles s) (current_index s) (included_articles s)
        (excluded_articles s) (inclusion_keywords s) (email s) (inputs s)
        (widgets s) v (console s) (files s).
Definition set_console (v : list printed) (s : App) : App :=
  mkApp (all_articles s) (current_index s) (included_articles s)
        (excluded_articles s) (inclusion_keywords s) (email s) (inputs s)
        (widgets s) (dialogs s) v (files s).
Definition set_files (v : list csv_file) (s : App) : App :=
  mkApp (all_articles s) (current_index s) (included_articles s)
        (excluded_articles s) (inclusion_keywords s) (email s) (inputs s)
        (widgets s) (dialogs s) (console s) v.

(** Assignment to one widget. *)
Definition set_progress_var (v : progress) (w : Widgets) : Widgets :=
  mkWidgets v (screening_progress_var w) (stats_var w)
            (search_button_enabled w) (results_text w) (article_display w)
            (results_preview w).
Definition set_screening_progress_var (v : screening_progress) (w : Widgets) : Widgets :=
  mkWidgets (progress_var w) v (stats_var w) (search_button_enabled w)
            (results_text w) (article_display w) (results_preview w).
Definition set_stats_var (v : stats) (w : Widgets) : Widgets :=
  mkWidgets (progress_var w) (screening_progress_var w) v
            (search_button_enabled w) (results_text w) (article_display w)
            (results_preview w).
Definition set_search_button_enabled (v : bool) (w : Widgets) : Widgets :=
  mkWidgets (progress_var w) (screening_progress_var w) (stats_var w) v
            (results_text w) (article_display w) (results_preview w).
Definition set_results_text (v : option search_preview) (w : Widgets) : Widgets :=
  mkWidgets (progress_var w) (screening_progress_var w) (stats_var w)
            (search_button_enabled w) v (article_display w)
            (results_preview w).
Definition set_article_display (v : list span) (w : Widgets) : Widgets :=
  mkWidgets (progress_var w) (screening_progress_var w) (stats_var w)
            (search_button_enabled w) (results_text w) v (results_preview w).
Definition set_results_preview (v : option results_preview_text) (w : Widgets) : Widgets :=
  mkWidgets (progress_var w) (screening_progress_var w) (stats_var w)
            (search_button_enabled w) (results_text w) (article_display w) v.

(** ** Computations on the object

    A method takes the object and gives back the object as it has left
    it, with the value returned or the exception that escaped.  What a
    method changed before raising stays changed. *)
Definition M (A : Type) : Type := App -> App * result A.

Definition ret {A : Type} (a : A) : M A := fun s => (s, Ok a).

Definition bind {A B : Type} (c : M A) (k : A -> M B) : M B :=
  fun s =>
    match c s with
    | (s', Ok a) => k a s'
    | (s', Raise e) => (s', Raise e)
    end.

Notation "x <- c ;; k" := (bind c (fun x => k))
  (at level 61, c at next level, right associativity).
Notation "c ;; k" := (bind c (fun _ => k))
  (at level 61, right associativity).

Definition raise {A : Type} (e : exn) : M A := fun s => (s, Raise e).

(** Reading an attribute. *)
Definition gets {A : Type} (f : App -> A) : M A := fun s => (s, Ok (f s)).

(** Changing the object. *)
Definition modify (f : App -> App) : M unit := fun s => (f s, Ok tt).

(** Lifting the outcome of a call that does not touch the object. *)
Definition lift {A : Type} (r : result A) : M A := fun s => (s, r).

(** [try: c  except Exception as e: h e]. *)
Definition try_except {A : Type} (c : M A) (h : exn -> M A) : M A :=
  fun s =>
    match c s with
    | (s', Ok a) => (s', Ok a)
    | (s', Raise e) => h e s'
    end.

(** [try: c  finally: f]. *)
Definition try_finally {A : Type} (c : M A) (f : M unit) : M A :=
  fun s =>
    match c s with
    | (s', r) =>
        match f s' with
        | (s'', Ok _) => (s'', r)
        | (s'', Raise e) => (s'', Raise e)
        end
    end.

(** Changing a widget. *)
Definition widget (f : Widgets -> Widgets) : M unit :=
  modify (fun s => set_widgets (f (widgets s)) s).

(** [messagebox.showerror], [showinfo], [showwarning]. *)
Definition messagebox (k : dialog_kind) (t : string) (b : message) : M unit :=
  modify (fun s => set_dialogs (dialogs s ++ [mkDialog k t b]) s).

(** [print]. *)
Definition print (out : list printed) : M unit :=
  modify (fun s => set_console (console s ++ out) s).

(** [widget.delete(1.0, tk.END)] and [widget.insert(tk.END, text, tag)]
    on [article_display]. *)
Definition article_display_delete : M unit :=
  widget (set_article_display []).

Definition article_display_insert (text : string) (tag : option string)
  : M unit :=
  widget (fun w => set_article_display (article_display w ++ [(text, tag)]) w).

(* ===================================================================== *)
(** * Highlighter *)
(* ===================================================================== *)

(** [part.lower() in [kw.lower() for kw in self.inclusion_keywords]]. *)
Definition is_keyword (keywords : list string) (part : string) : bool :=
  existsb (String.eqb (Py.lower part)) (map Py.lower keywords).

(** The pieces [insert_text_with_highlights(text, tag)] inserts, in
    order, each with the tag it gets. *)
Definition highlight_spans (keywords : list string) (text tag : string)
  : list span :=
  match keywords with
  | [] => [(text, Some tag)]
  | _ =>
      let patterns := map Re.escape keywords in
      match patterns with
      | [] => [(text, Some tag)]
      | _ =>
          let parts := Re.split patterns text in
          map (fun part =>
                 if is_keyword keywords part then (part, Some "highlight")
                 else (part, Some tag)) parts
      end
  end.

(** A sequence of [article_display.insert] calls. *)
Fixpoint insert_all (spans : list span) : M unit :=
  match spans with
  | [] => ret tt
  | (text, tag) :: rest => article_display_insert text tag ;; insert_all rest
  end.

(** [insert_text_with_highlights(text, tag)]. *)
Definition insert_text_with_highlights (text tag : string) : M unit :=
  keywords <- gets inclusion_keywords ;;
  insert_all (highlight_spans keywords text tag).

(* ===================================================================== *)
(** * Review session *)
(* ===================================================================== *)

(** [total - included - excluded] as the summaries compute it. *)
Definition pending_count (s : App) : Z :=
  Py.len (all_articles s) - Py.len (included_articles s)
  - Py.len (excluded_articles s).

(** [update_results_preview()]. *)
Definition update_results_preview : M unit :=
  s <- gets (fun s => s) ;;
  let excluded := Py.len (excluded_articles s) in
  widget (set_results_preview (Some
    (mkResultsPreview
       (Py.len (all_articles s)) (Py.len (included_articles s)) excluded
       (pending_count s)
       (included_articles s)
       (firstn 5 (excluded_articles s))
       (if excluded >? 5 then Some (excluded - 5) else None)))).

(** [update_results_summary()]. *)
Definition update_results_summary : M unit :=
  s <- gets (fun s => s) ;;
  widget (set_stats_var
            (Summary (Py.len (all_articles s)) (Py.len (included_articles s))
                     (Py.len (excluded_articles s)) (pending_count s))) ;;
  update_results_preview.

(** [str(article['Source'])]. *)
Definition source_name (src : source) : string :=
  match src with PubMed => "PubMed" | Cochrane => "Cochrane" end.

(** [x[key]] where [x] is a dictionary or [None]: [TypeError] on [None]. *)
Definition item (e : entry) : result Article :=
  match e with Some a => Ok a | None => Raise TypeError end.

(** [l[i]]: [IndexError] when out of range. *)
Definition index {A : Type} (l : list A) (i : Z) : result A :=
  match Py.getitem l i with Some x => Ok x | None => Raise IndexError end.

(** [not l] for a list. *)
Definition is_empty {A : Type} (l : list A) : bool :=
  match l with [] => true | _ => false end.

(** [display_current_article()]. *)
Definition display_current_article : M unit :=
  s <- gets (fun s => s) ;;
  if (is_empty (all_articles s)
      || (current_index s >=? Py.len (all_articles s)))%bool
  then
    article_display_delete ;;
    article_display_insert "No more articles to review" None
  else
    article <- lift (index (all_articles s) (current_index s)) ;;
    article_display_delete ;;
    a <- lift (item article) ;;
    article_display_insert ("TITLE: " ++ fmt (Title a) ++ Py.nl ++ Py.nl)
                           (Some "title") ;;
    article_display_insert ("AUTHORS: " ++ Authors a ++ Py.nl ++ Py.nl)
                           (Some "authors") ;;
    article_display_insert ("ID: " ++ ID_Link a ++ Py.nl ++ Py.nl) None ;;
    insert_text_with_highlights
      ("ABSTRACT:" ++ Py.nl ++ Abstract a ++ Py.nl ++ Py.nl) "abstract" ;;
    article_display_insert ("SOURCE: " ++ source_name (Source a) ++ Py.nl) None.

(** [update_screening_display()]. *)
Definition update_screening_display : M unit :=
  s <- gets (fun s => s) ;;
  if is_empty (all_articles s) then
    widget (set_screening_progress_var NoArticlesLoaded)
  else
    widget (set_screening_progress_var
              (ArticleOf (current_index s + 1) (Py.len (all_articles s))
                         (Py.len (included_articles s))
                         (Py.len (excluded_articles s)))) ;;
    display_current_article ;;
    update_results_summary.

(** [next_article()]. *)
Definition next_article : M unit :=
  s <- gets (fun s => s) ;;
  if current_index s <? Py.len (all_articles s) - 1 then
    modify (set_current_index (current_index s + 1)) ;;
    update_screening_display
  else
    messagebox showinfo "Screening Complete"
      (Text "You have reviewed all articles! Check the Results tab.").

(** [previous_article()]. *)
Definition previous_article : M unit :=
  s <- gets (fun s => s) ;;
  if current_index s >? 0 then
    modify (set_current_index (current_index s - 1)) ;;
    update_screening_display
  else ret tt.

(** The guard of [include_article], [exclude_article] and the one that
    ends [update_keywords]:
    [self.all_articles and 0 <= self.current_index < len(self.all_articles)]. *)
Definition cursor_on_article (s : App) : bool :=
  (negb (is_empty (all_articles s))
   && (0 <=? current_index s)
   && (current_index s <? Py.len (all_articles s)))%bool.

(** [include_article()]; [now] is what
    [datetime.now().strftime('%Y-%m-%d %H:%M:%S')] gives. *)
Definition include_article (now : string) : M unit :=
  s <- gets (fun s => s) ;;
  if cursor_on_article s then
    current <- lift (index (all_articles s) (current_index s)) ;;
    live <- lift (attr current) ;;
    let article := set_Decision_Date now (set_Status Included live) in
    modify (fun s => set_included_articles (included_articles s ++ [article]) s) ;;
    modify (fun s =>
              set_all_articles
                (Py.setitem (all_articles s) (Z.to_nat (current_index s))
                            (Some (set_Status Included live))) s) ;;
    next_article
  else ret tt.

(** [exclude_article()]. *)
Definition exclude_article (now : string) : M unit :=
  s <- gets (fun s => s) ;;
  if cursor_on_article s then
    current <- lift (index (all_articles s) (current_index s)) ;;
    live <- lift (attr current) ;;
    let article := set_Decision_Date now (set_Status Excluded live) in
    modify (fun s => set_excluded_articles (excluded_articles s ++ [article]) s) ;;
    modify (fun s =>
              set_all_articles
                (Py.setitem (all_articles s) (Z.to_nat (current_index s))
                            (Some (set_Status Excluded live))) s) ;;
    next_article
  else ret tt.

(** [update_keywords()]. *)
Definition update_keywords : M unit :=
  s <- gets (fun s => s) ;;
  let keywords_text := Py.strip (keywords_var (inputs s)) in
  (if Py.truthy keywords_text then
     let keywords :=
       map (fun kw => Py.lower (Py.strip kw))
           (filter (fun kw => Py.truthy (Py.strip kw))
                   (Py.split "," keywords_text)) in
     modify (set_inclusion_keywords keywords) ;;
     messagebox showinfo "Keywords Updated"
       (TextNum "Updated inclusion keywords" (Py.len keywords))
   else modify (set_inclusion_keywords [])) ;;
  s <- gets (fun s => s) ;;
  if cursor_on_article s then display_current_article else ret tt.

(* ===================================================================== *)
(** * Retrieval *)
(* ===================================================================== *)

(** [load_cochrane_csv(filename)]: a file that cannot be read is reported
    once and gives no article. *)
Definition load_cochrane_csv (env : Env) (file : string) : M (list entry) :=
  match read_csv env file with
  | Raise e =>
      messagebox showerror "Error" (TextExn "Error loading Cochrane CSV" e) ;;
      ret []
  | Ok df =>
      already <- gets (fun s => Py.len (all_articles s)) ;;
      let '(articles, out) := cochrane_loop df already (Csv.iterrows df) in
      print out ;;
      ret articles
  end.

(** [save_search_results()]. *)
Definition save_search_results (env : Env) : M unit :=
  s <- gets (fun s => s) ;;
  if is_empty (all_articles s) then ret tt
  else
    lift (to_csv env "search_results.csv" (all_articles s)) ;;
    modify (fun s' =>
              set_files (files s' ++ [mkCsvFile "search_results.csv"
                                                (all_articles s)]) s').

(** The dictionaries of a list none of whose elements is [None];
    [TypeError] otherwise, as subscripting [None] raises. *)
Fixpoint items (l : list entry) : result (list Article) :=
  match l with
  | [] => Ok []
  | e :: t =>
      match item e with
      | Raise x => Raise x
      | Ok a =>
          match items t with
          | Ok t' => Ok (a :: t')
          | Raise x => Raise x
          end
      end
  end.

(** [sum(1 for article in l if article['Source'] == src)]. *)
Definition count_source (src : source) (l : list Article) : Z :=
  Py.len (filter (fun a => match Source a, src with
                           | PubMed, PubMed | Cochrane, Cochrane => true
                           | _, _ => false
                           end) l).

(** [display_search_results()]: the widget is emptied first; counting the
    sources subscripts every element. *)
Definition display_search_results : M unit :=
  widget (set_results_text None) ;;
  s <- gets (fun s => s) ;;
  l <- lift (items (all_articles s)) ;;
  let total := Py.len (all_articles s) in
  widget (set_results_text (Some
    (mkSearchPreview total (count_source PubMed l) (count_source Cochrane l)
                     (firstn 5 l)
                     (if total >? 5 then Some (total - 5) else None)))).

(** Setting [progress_var]. *)
Definition progress_set (p : progress) : M unit := widget (set_progress_var p).

(** [self.all_articles.extend(l)]. *)
Definition extend_all_articles (l : list entry) : M unit :=
  modify (fun s => set_all_articles (all_articles s ++ l) s).

(** The first block of [perform_search]: [if self.pubmed_var.get(): ...]. *)
Definition search_provider (env : Env) (search_terms : string)
           (max_results : Z) : M unit :=
  inp <- gets inputs ;;
  if pubmed_var inp then
    progress_set SearchingPubMed ;;
    email <- gets email ;;
    let '(pubmed_articles, out) :=
      search_pubmed (provider env) email search_terms max_results in
    print out ;;
    extend_all_articles pubmed_articles ;;
    progress_set (FoundPubMed (Py.len pubmed_articles))
  else ret tt.

(** The second block:
    [if self.cochrane_var.get() and self.cochrane_file_var.get(): ...]. *)
Definition load_import (env : Env) : M unit :=
  inp <- gets inputs ;;
  if (cochrane_var inp && Py.truthy (cochrane_file_var inp))%bool then
    progress_set LoadingCochrane ;;
    cochrane_articles <- load_cochrane_csv env (cochrane_file_var inp) ;;
    extend_all_articles cochrane_articles ;;
    progress_set (LoadedCochrane (Py.len cochrane_articles))
  else ret tt.

(** The third block: [if self.all_articles: ... else: ...]. *)
Definition finish_search (env : Env) : M unit :=
  s <- gets (fun s => s) ;;
  if is_empty (all_articles s) then progress_set NoArticlesFound
  else
    save_search_results env ;;
    display_search_results ;;
    progress_set (SearchCompleted (Py.len (all_articles s))) ;;
    modify (set_current_index 0) ;;
    update_screening_display.

(** The [try] block of [perform_search]. *)
Definition perform_search_body (env : Env) (search_terms : string)
           (max_results : Z) : M unit :=
  modify (set_all_articles []) ;;
  search_provider env search_terms max_results ;;
  load_import env ;;
  finish_search env.

(** [perform_search(search_terms, max_results)]. *)
Definition perform_search (env : Env) (search_terms : string)
           (max_results : Z) : M unit :=
  try_finally
    (try_except
       (perform_search_body env search_terms max_results)
       (fun e =>
          progress_set (SearchError e) ;;
          messagebox showerror "Search Error"
            (TextExn "An error occurred during search" e)))
    (widget (set_search_button_enabled true)).


(* ===================================================================== *)
(** * Export *)
(* ===================================================================== *)

(** The inner loops of [export_all_results]: the date of the first
    snapshot with the number [sr_no], [''] when that snapshot has none;
    [None] when no snapshot has the number. *)
Fixpoint find_date (sr_no : Z) (decided : list Article) : option string :=
  match decided with
  | [] => None
  | d :: t =>
      if Sr_No d =? sr_no then
        Some (match Decision_Date d with Some x => x | None => EmptyString end)
      else find_date sr_no t
  end.

(** What the outer loop does to one article. *)
Definition backfill_one (included excluded : list Article) (a : Article)
  : Article :=
  match Status a with
  | Included =>
      match find_date (Sr_No a) included with
      | Some d => set_Decision_Date d a
      | None => a
      end
  | Excluded =>
      match find_date (Sr_No a) excluded with
      | Some d => set_Decision_Date d a
      | None => a
      end
  | Pending => a
  end.

(** The outer loop of [export_all_results]: the list as the loop leaves
    it, and whether it ran to the end or raised on a [None]. *)
Fixpoint backfill (included excluded : list Article) (l : list entry)
  : list entry * result unit :=
  match l with
  | [] => ([], Ok tt)
  | None :: t => (None :: t, Raise TypeError)
  | Some a :: t =>
      let '(t', r) := backfill included excluded t in
      (Some (backfill_one included excluded a) :: t', r)
  end.

(** [export_all_results()]; [stamp] is what
    [datetime.now().strftime('%Y%m%d_%H%M%S')] gives. *)
Definition export_all_results (env : Env) (stamp : string) : M unit :=
  s <- gets (fun s => s) ;;
  if is_empty (all_articles s) then
    messagebox showwarning "No Data" (Text "No articles to export")
  else
    try_except
      (let '(l, r) :=
         backfill (included_articles s) (excluded_articles s) (all_articles s) in
       modify (set_all_articles l) ;;
       lift r ;;
       let name := "all_results_" ++ stamp ++ ".csv" in
       lift (to_csv env name l) ;;
       modify (fun s' => set_files (files s' ++ [mkCsvFile name l]) s') ;;
       messagebox showinfo "Export Successful"
         (TextFile "All results exported to" name))
      (fun e =>
         messagebox showerror "Export Error"
           (TextExn "Error exporting results" e)).

(** [export_included()]. *)
Definition export_included (env : Env) (stamp : string) : M unit :=
  s <- gets (fun s => s) ;;
  if is_empty (included_articles s) then
    messagebox showwarning "No Data" (Text "No included articles to export")
  else
    try_except
      (let name := "included_" ++ stamp ++ ".csv" in
       let l := map Some (included_articles s) in
       lift (to_csv env name l) ;;
       modify (fun s' => set_files (files s' ++ [mkCsvFile name l]) s') ;;
       messagebox showinfo "Export Successful"
         (TextFile "Included articles exported to" name))
      (fun e =>
         messagebox showerror "Export Error"
           (TextExn "Error exporting included articles" e)).

(** [export_excluded()]. *)
Definition export_excluded (env : Env) (stamp : string) : M unit :=
  s <- gets (fun s => s) ;;
  if is_empty (excluded_articles s) then
    messagebox showwarning "No Data" (Text "No excluded articles to export")
  else
    try_except
      (let name := "excluded_" ++ stamp ++ ".csv" in
       let l := map Some (excluded_articles s) in
       lift (to_csv env name l) ;;
       modify (fun s' => set_files (files s' ++ [mkCsvFile name l]) s') ;;
       messagebox showinfo "Export Successful"
         (TextFile "Excluded articles exported to" name))
      (fun e =>
         messagebox showerror "Export Error"
           (TextExn "Error exporting excluded articles" e)).

(* ===================================================================== *)
(** * Vocabulary of the properties *)
(* ===================================================================== *)

(** The object after a call, and the outcome of the call. *)
Definition exec {A : Type} (c : M A) (s : App) : App := fst (c s).
Definition outcome {A : Type} (c : M A) (s : App) : result A := snd (c s).

(** The review session held by the object: article list, cursor and the
    two decision lists. *)
Definition session (s : App)
  : list entry * Z * list Article * list Article :=
  (all_articles s, current_index s, included_articles s, excluded_articles s).

(** The three states of a review session: no article loaded; cursor
    before the end of the list; cursor past the last article.  The test
    is the one [display_current_article] makes before it shows
    ["No more articles to review"]. *)
Inductive session_state : Type := Empty | Reviewing | Complete.

Definition state_of (s : App) : session_state :=
  if is_empty (all_articles s) then Empty
  else if current_index s >=? Py.len (all_articles s) then Complete
  else Reviewing.

(** The session operations a reviewer triggers with the four buttons. *)
Inductive op : Type :=
  | Include (now : string)
  | Exclude (now : string)
  | Next
  | Previous.

Definition run_op (o : op) : M unit :=
  match o with
  | Include now => include_article now
  | Exclude now => exclude_article now
  | Next => next_article
  | Previous => previous_article
  end.

(** The object after a sequence of operations, whatever their outcomes
    (an exception raised by a button handler is reported and the
    interface goes on). *)
Fixpoint run_ops (ops : list op) (s : App) : App :=
  match ops with
  | [] => s
  | o :: rest => run_ops rest (exec (run_op o) s)
  end.

(** The snapshot a decision stores. *)
Definition snapshot (st : status) (now : string) (live : Article) : Article :=
  set_Decision_Date now (set_Status st live).

(** The provider part of the batch a retrieval aggregates. *)
Definition provider_part (env : Env) (search_terms : string) (max_results : Z)
           (s : App) : list entry :=
  if pubmed_var (inputs s) then
    fst (search_pubmed (provider env) (email s) search_terms max_results)
  else [].

(** The import part of the batch, when [already] elements precede it. *)
Definition import_part (env : Env) (s : App) (already : Z) : list entry :=
  if (cochrane_var (inputs s) && Py.truthy (cochrane_file_var (inputs s)))%bool
  then
    match read_csv env (cochrane_file_var (inputs s)) with
    | Ok df => fst (cochrane_loop df already (Csv.iterrows df))
    | Raise _ => []
    end
  else [].

(** The batch a retrieval aggregates. *)
Definition aggregate (env : Env) (search_terms : string) (max_results : Z)
           (s : App) : list entry :=
  let p := provider_part env search_terms max_results s in
  (p ++ import_part env s (Py.len p))%list.

(** The values [search_pubmed_loop] appends for [records], the first of
    which has index [i]. *)
Fixpoint parsed_from (i : Z) (records : list Bio.record) : list entry :=
  match records with
  | [] => []
  | record :: rest =>
      fst (parse_pubmed_record record (i + 1)) :: parsed_from (i + 1) rest
  end.

(** The values [direct_inner_loop] appends for [elems] to a list of [n]
    elements. *)
Fixpoint xml_parsed_from (n : Z) (elems : list Xml.elem) : list entry :=
  match elems with
  | [] => []
  | e :: rest =>
      fst (parse_pubmed_xml e (n + 1)) :: xml_parsed_from (n + 1) rest
  end.

(** The articles of [l] come from [src], and the one at position [k] has
    the sequence number [n + k + 1]. *)
Definition tagged_from (src : source) (n : Z) (l : list entry) : Prop :=
  forall k a, nth_error l k = Some (Some a) ->
              Source a = src /\ Sr_No a = n + Z.of_nat k + 1.

(** What a retrieval leaves alone whatever happens: cursor apart, the
    decision lists, the input fields, the contact address. *)
Definition kept (s : App)
  : list Article * list Article * Inputs * string :=
  (included_articles s, excluded_articles s, inputs s, email s).

(** A computation that touches nothing but the widgets. *)
Definition widgets_only {A : Type} (c : M A) : Prop :=
  forall s, exists w, exec c s = set_widgets w s.

(** The notice [next_article] shows when the cursor cannot advance. *)
Definition screening_complete_notice : dialog :=
  mkDialog showinfo "Screening Complete"
           (Text "You have reviewed all articles! Check the Results tab.").

(** The object once a decision on the article [live] under the cursor is
    recorded, before the cursor moves: the snapshot is appended and the
    live article's status is overwritten. *)
Definition with_inclusion (now : string) (live : Article) (s : App) : App :=
  set_all_articles
    (Py.setitem (all_articles s) (Z.to_nat (current_index s))
                (Some (set_Status Included live)))
    (set_included_articles
       (included_articles s ++ [snapshot Included now live]) s).

Definition with_exclusion (now : string) (live : Article) (s : App) : App :=
  set_all_articles
    (Py.setitem (all_articles s) (Z.to_nat (current_index s))
                (Some (set_Status Excluded live)))
    (set_excluded_articles
       (excluded_articles s ++ [snapshot Excluded now live]) s).

(** Where the cursor is after [next_article] and after
    [previous_article]. *)
Definition cursor_after_next (s : App) : Z :=
  if current_index s <? Py.len (all_articles s) - 1 then current_index s + 1
  else current_index s.

Definition cursor_after_previous (s : App) : Z :=
  if current_index s >? 0 then current_index s - 1 else current_index s.

(** ** Sample data *)

Definition sample_author : Bio.author :=
  Bio.mkAuthor (Some "Doe") (Some "Jane") None.

(** A well-formed provider record. *)
Definition sample_record (title pmid : string) : Bio.record :=
  Bio.mkRecord (Some (Bio.mkCitation
    (Some (Bio.mkArticle (Some title)
                         (Some (Some (Bio.Segments ["Background."; "Results."])))
                         (Some [sample_author])))
    (Some pmid))).

(** A provider record without the key ['MedlineCitation']. *)
Definition malformed_record : Bio.record := Bio.mkRecord None.

(** A provider whose structured client answers with [records]. *)
Definition sample_provider (records : list Bio.record) : Provider :=
  mkProvider true (fun _ => Ok records) (fun _ => Ok []) (fun _ _ => Raise OSError).

(** An environment with that provider, no readable CSV file and a sink
    that accepts every write. *)
Definition sample_env (records : list Bio.record) : Env :=
  mkEnv (sample_provider records) (fun _ => Raise OSError) (fun _ _ => Ok tt).

(** A manual-import frame with two rows. *)
Definition sample_frame : Csv.DataFrame :=
  Csv.mkDataFrame ["Title"; "Author"; "DOI"]
    [(IntLabel 0, [Csv.Str "Trial A"; Csv.Str "Roe R"; Csv.Str "10.1/a"]);
     (IntLabel 1,
      [Csv.Str "Trial B"; Csv.Other "nan" true; Csv.Str EmptyString])].

(** An environment with both sources. *)
Definition sample_env_both (records : list Bio.record) : Env :=
  mkEnv (sample_provider records) (fun _ => Ok sample_frame) (fun _ _ => Ok tt).

(** The object once the user has picked a CSV file. *)
Definition with_csv_file (file : string) (s : App) : App :=
  mkApp (all_articles s) (current_index s) (included_articles s)
        (excluded_articles s) (inclusion_keywords s) (email s)
        (mkInputs (email_var (inputs s)) (search_var (inputs s))
                  (max_results_var (inputs s)) (pubmed_var (inputs s))
                  (cochrane_var (inputs s)) file (keywords_var (inputs s)))
        (widgets s) (dialogs s) (console s) (files s).

(** Going back to the index [i] after a decision: one step back when
    the decision has moved the cursor, none when it has not. *)
Definition back_to (i : Z) (s : App) : App :=
  if current_index s =? i then s else exec previous_article s.

(** A cursor that stays on the last article after a call, with the
    completion notice shown. *)
Definition stays_at_last (s s' : App) : Prop :=
  current_index s' = current_index s
  /\ state_of s' = Reviewing
  /\ dialogs s' = (dialogs s ++ [screening_complete_notice])%list.


(** One article retrieved into a fresh object. *)
Definition one_loaded : App :=
  exec (perform_search (sample_env [sample_record "Only" "7"]) "cancer" 100)
       init.

(** Two articles retrieved into a fresh object. *)
Definition two_loaded : App :=
  exec (perform_search (sample_env [sample_record "First" "1";
                                    sample_record "Second" "2"])
                       "cancer" 100) init.



(** The warning of [export_included] on an empty included list. *)
Definition no_included_warning : dialog :=
  mkDialog showwarning "No Data" (Text "No included articles to export").

(** A session with one decision taken, before a new retrieval. *)
Definition one_decided : App :=
  run_ops [Include "2024-05-01 10:00:00"] two_loaded.

(** An empty session left by a retrieval that found nothing, started
    while the cursor was on the second of two articles. *)
Definition stale_empty : App :=
  exec (perform_search (sample_env []) "no such thing" 100)
       (run_ops [Next] two_loaded).


(** ** Further vocabulary *)

(** The number of decisions among a sequence of operations. *)
Fixpoint decisions_in (ops : list op) : nat :=
  match ops with
  | [] => O
  | Include _ :: rest => S (decisions_in rest)
  | Exclude _ :: rest => S (decisions_in rest)
  | _ :: rest => decisions_in rest
  end.

(** Two dictionaries that agree on every key but ['Status'] and
    ['Decision_Date']. *)
Definition same_record (a b : Article) : Prop :=
  Sr_No a = Sr_No b /\ Title a = Title b /\ ID_Link a = ID_Link b
  /\ Abstract a = Abstract b /\ Authors a = Authors b /\ Source a = Source b.

(** An element of the article list before and after some operations:
    [None] stays [None]; a dictionary keeps every key but ['Status'],
    and a status other than ['Pending'] does not go back to it. *)
Definition same_but_status (e e' : entry) : Prop :=
  match e, e' with
  | None, None => True
  | Some a, Some b =>
      same_record a b /\ Decision_Date a = Decision_Date b
      /\ (Status a <> Pending -> Status b <> Pending)
  | _, _ => False
  end.

(** A snapshot of the verdict [st]: it carries the verdict, a date, and
    the keys of some dictionary of the list [l]. *)
Definition snapshot_of (st : status) (l : list entry) (a : Article) : Prop :=
  Status a = st /\ Decision_Date a <> None
  /\ exists k live, nth_error l k = Some (Some live) /\ same_record live a.


(** The spans [display_current_article] puts in the widget for the
    article [a]. *)
Definition article_spans (keywords : list string) (a : Article) : list span :=
  ("TITLE: " ++ fmt (Title a) ++ Py.nl ++ Py.nl, Some "title")
  :: ("AUTHORS: " ++ Authors a ++ Py.nl ++ Py.nl, Some "authors")
  :: ("ID: " ++ ID_Link a ++ Py.nl ++ Py.nl, None)
  :: app (highlight_spans keywords
             ("ABSTRACT:" ++ Py.nl ++ Abstract a ++ Py.nl ++ Py.nl) "abstract")
         [("SOURCE: " ++ source_name (Source a) ++ Py.nl, None)].

(** The text a reviewer reads for the article [a]. *)
Definition article_text (a : Article) : string :=
  ("TITLE: " ++ fmt (Title a) ++ Py.nl ++ Py.nl)
  ++ ("AUTHORS: " ++ Authors a ++ Py.nl ++ Py.nl)
  ++ ("ID: " ++ ID_Link a ++ Py.nl ++ Py.nl)
  ++ ("ABSTRACT:" ++ Py.nl ++ Abstract a ++ Py.nl ++ Py.nl)
  ++ ("SOURCE: " ++ source_name (Source a) ++ Py.nl).

(** The object with another content of [article_display]. *)
Definition showing (spans : list span) (s : App) : App :=
  set_widgets (set_article_display spans (widgets s)) s.


(** The object once [update_results_summary] has refreshed the summary
    line and the results preview. *)
Definition summarised (s : App) : App :=
  set_widgets
    (set_results_preview
       (Some (mkResultsPreview
                (Py.len (all_articles s)) (Py.len (included_articles s))
                (Py.len (excluded_articles s)) (pending_count s)
                (included_articles s) (firstn 5 (excluded_articles s))
                (if Py.len (excluded_articles s) >? 5
                 then Some (Py.len (excluded_articles s) - 5) else None)))
       (set_stats_var
          (Summary (Py.len (all_articles s)) (Py.len (included_articles s))
                   (Py.len (excluded_articles s)) (pending_count s))
          (widgets s)))
    s.

(** The object once [update_screening_display] has refreshed the
    progress line. *)
Definition announcing (s : App) : App :=
  set_widgets
    (set_screening_progress_var
       (ArticleOf (current_index s + 1) (Py.len (all_articles s))
                  (Py.len (included_articles s)) (Py.len (excluded_articles s)))
       (widgets s))
    s.

(** A batch whose second record could not be parsed, as a retrieval
    leaves it in the session. *)
Definition loaded_with_None : App :=
  exec (perform_search
          (sample_env [sample_record "First" "1"; malformed_record;
                       sample_record "Third" "3"]) "cancer" 100) init.


(** An author entry of the structured client that gives no name: it
    lacks one of the two personal names and has no collective name. *)
Definition nameless (a : Bio.author) : Prop :=
  (Bio.LastName a = None \/ Bio.ForeName a = None)
  /\ Bio.CollectiveName a = None.

(** An author element whose name is a collective-name element without
    text, the two personal names not being both there. *)
Definition textless_collective (author : Xml.elem) : Prop :=
  (Xml.find "LastName" author = None \/ Xml.find "ForeName" author = None)
  /\ exists cn, Xml.find "CollectiveName" author = Some cn
                /\ Xml.text cn = None.

(** The author elements [parse_pubmed_xml] goes through. *)
Definition xml_author_elems (article : Xml.elem) : list Xml.elem :=
  match Xml.find_deep "AuthorList" article with
  | Some author_list => Xml.findall "Author" author_list
  | None => []
  end.


(** An XML record without an [Article] element. *)
Definition xml_without_article : Xml.elem :=
  Xml.Elem "PubmedArticle" None [Xml.Elem "PMID" (Some "5") []].

(** A provider without the client library whose first fetch succeeds
    and whose later fetches fail. *)
Definition flaky_provider : Provider :=
  mkProvider false (fun _ => Raise OSError)
    (fun _ => Ok ["11"; "12"])
    (fun _ batch =>
       match batch with
       | "11" :: _ =>
           Ok (Xml.Elem "PubmedArticleSet" None
                 [Xml.Elem "PubmedArticle" None
                    [Xml.Elem "PMID" (Some "11") [];
                     Xml.Elem "Article" None
                       [Xml.Elem "ArticleTitle" (Some "Eleven") []]]])
       | _ => Raise OSError
       end).


(** The dialog [load_cochrane_csv] shows for a file it cannot read. *)
Definition import_error_dialog (e : exn) : dialog :=
  mkDialog showerror "Error" (TextExn "Error loading Cochrane CSV" e).

(** A frame none of whose column labels is one the import looks for. *)
Definition foreign_frame : Csv.DataFrame :=
  Csv.mkDataFrame ["Heading"; "Year"]
    [(IntLabel 0, [Csv.Str "A study"; Csv.Other "2020" true])].


(** An element of the article list before and after an export: [None]
    stays [None]; a dictionary keeps every key but ['Decision_Date']. *)
Definition dated (e e' : entry) : Prop :=
  match e, e' with
  | None, None => True
  | Some a, Some b => same_record a b /\ Status a = Status b
  | _, _ => False
  end.

(** The dialog an export shows when writing fails. *)
Definition export_error_dialog (what : string) (e : exn) : dialog :=
  mkDialog showerror "Export Error" (TextExn what e).

(** An environment whose sink refuses every write. *)
Definition read_only_env : Env :=
  mkEnv (sample_provider []) (fun _ => Raise OSError) (fun _ _ => Raise OSError).

(** The first article of two included twice, at two different times. *)
Definition twice_included : App :=
  run_ops [Include "2024-05-01 10:00:00"; Previous;
           Include "2024-05-02 09:00:00"] two_loaded.


(** The dialog [perform_search] shows when the search fails. *)
Definition search_error_dialog (e : exn) : dialog :=
  mkDialog showerror "Search Error"
           (TextExn "An error occurred during search" e).

(** The snapshot file of a batch. *)
Definition snapshot_file (batch : list entry) : csv_file :=
  mkCsvFile "search_results.csv" batch.


(** [c in s] for a character [c]. *)
Fixpoint contains (c : ascii) (s : string) : bool :=
  match s with
  | EmptyString => false
  | String x t => (Ascii.eqb x c || contains c t)%bool
  end.

(** A keyword in the form the highlighter expects: not empty, in lower
    case, without white space at either end, without a comma. *)
Definition normal_keyword (k : string) : Prop :=
  k <> EmptyString /\ Py.lower k = k /\ Py.strip k = k
  /\ contains "," k = false.

(** The object once the user has typed into the keyword field. *)
Definition with_keywords_field (text : string) (s : App) : App :=
  mkApp (all_articles s) (current_index s) (included_articles s)
        (excluded_articles s) (inclusion_keywords s) (email s)
        (mkInputs (email_var (inputs s)) (search_var (inputs s))
                  (max_results_var (inputs s)) (pubmed_var (inputs s))
                  (cochrane_var (inputs s)) (cochrane_file_var (inputs s))
                  text)
        (widgets s) (dialogs s) (console s) (files s).


(** A string that does not begin with white space. *)
Definition clean (s : string) : Prop :=
  match s with
  | EmptyString => True
  | String c _ => Py.is_space c = false
  end.

(** Spans that alternate between a gap, which carries the caller's tag
    and is no keyword, and a match, which carries the tag [highlight],
    is not empty and is a keyword up to case; the first and the last
    span are gaps. *)
Fixpoint alternating (keywords : list string) (tag : string)
         (spans : list span) : Prop :=
  match spans with
  | [(gap, t)] => t = Some tag /\ is_keyword keywords gap = false
  | (gap, t) :: (m, h) :: rest =>
      t = Some tag /\ is_keyword keywords gap = false
      /\ h = Some "highlight" /\ m <> EmptyString
      /\ is_keyword keywords m = true
      /\ alternating keywords tag rest
  | _ => False
  end.


(** A list whose articles are all undecided. *)
Definition undecided (l : list entry) : Prop :=
  forall a, In (Some a) l -> Status a = Pending /\ Decision_Date a = None.


(** Rows labelled [i], [i + 1], [i + 2], ... in order. *)
Definition labelled_from (i : Z) (rows : list (row_label * list Csv.cell))
  : Prop :=
  forall k l row, nth_error rows k = Some (l, row) ->
                  l = IntLabel (i + Z.of_nat k).

(** A frame with the default index: the rows are labelled 0, 1, 2, ...,
    as [read_csv] labels them when the data lines have as many fields
    as the header line. *)
Definition default_index (df : Csv.DataFrame) : Prop :=
  labelled_from 0 (Csv.iterrows df).

(** The file the import would read gives a frame with the default
    index. *)
Definition default_import (env : Env) (s : App) : Prop :=
  forall df, read_csv env (cochrane_file_var (inputs s)) = Ok df ->
             default_index df.

(** The test that guards the second block of [perform_search]. *)
Definition import_enabled (s : App) : bool :=
  (cochrane_var (inputs s) && Py.truthy (cochrane_file_var (inputs s)))%bool.

(** The frame [read_csv] gives for a file whose header line is
    [Title,DOI] and whose two data lines, [7,Trial A,10.1/a] and
    [7,Trial B,10.1/b], have one field more: the first field labels the
    row. *)
Definition repeated_labels_frame : Csv.DataFrame :=
  Csv.mkDataFrame ["Title"; "DOI"]
    [(IntLabel 7, [Csv.Str "Trial A"; Csv.Str "10.1/a"]);
     (IntLabel 7, [Csv.Str "Trial B"; Csv.Str "10.1/b"])].

(** The frame for a file whose data lines end in a comma: header
    [Title,Author,DOI], lines [Trial A,Roe R,10.1/a,] and
    [Trial B,Poe P,10.1/b,].  The titles label the rows and the other
    fields move one column to the left; the last column has no value. *)
Definition text_labels_frame : Csv.DataFrame :=
  Csv.mkDataFrame ["Title"; "Author"; "DOI"]
    [(TextLabel "Trial A",
      [Csv.Str "Roe R"; Csv.Str "10.1/a"; Csv.Other "nan" true]);
     (TextLabel "Trial B",
      [Csv.Str "Poe P"; Csv.Str "10.1/b"; Csv.Other "nan" true])].



(* ===================================================================== *)
(** * Properties of the highlighter *)
(* ===================================================================== *)

Section Highlighter.

Lemma match_literal_app k : forall t m r,
  Re.match_literal k t = Some (m, r) -> t = m ++ r.
Proof.
  induction k as [|a k IH]; intros t m r H; simpl in H.
  - inversion H; reflexivity.
  - destruct t as [|b t]; [discriminate|].
    destruct (Ascii.eqb _ _); [|discriminate].
    destruct (Re.match_literal k t) as [[m1 r1]|] eqn:E; [|discriminate].
    inversion H; subst; simpl. f_equal. apply IH; assumption.
Qed.

Lemma match_here_app p : forall ma t m r,
  Re.match_here p ma t = Some (m, r) -> t = m ++ r.
Proof.
  induction p as [|[k] p IH]; intros ma t m r H; simpl in H; [discriminate|].
  destruct (Re.match_literal k t) as [[m1 r1]|] eqn:E; [|eauto].
  destruct m1 as [|c m1].
  - destruct ma; [eauto|]. inversion H; subst. apply (match_literal_app _ _ E).
  - inversion H; subst. apply (match_literal_app _ _ E).
Qed.

Lemma search_app p : forall t ma b m r,
  Re.search p ma t = Some (b, m, r) -> t = b ++ m ++ r.
Proof.
  induction t as [|c t IH]; intros ma b m r H; simpl in H.
  - destruct (Re.match_here p ma EmptyString) as [[m1 r1]|] eqn:E; [|discriminate].
    inversion H; subst. apply (match_here_app _ _ _ E).
  - destruct (Re.match_here p ma (String c t)) as [[m1 r1]|] eqn:E.
    + inversion H; subst. apply (match_here_app _ _ _ E).
    + destruct (Re.search p false t) as [[[b1 m1] r1]|] eqn:E1; [|discriminate].
      inversion H; subst. simpl. f_equal. apply (IH _ _ _ _ E1).
Qed.

Lemma append_empty_r (x : string) : x ++ EmptyString = x.
Proof. induction x as [|c x IH]; simpl; [|rewrite IH]; reflexivity. Qed.

Lemma concat_empty_cons (x : string) (l : list string) :
  String.concat EmptyString (x :: l) = x ++ String.concat EmptyString l.
Proof. destruct l; simpl; [rewrite append_empty_r|]; reflexivity. Qed.

(** The pieces of [re.split] put together give the text back. *)
Lemma split_from_concat p ma t :
  String.concat EmptyString (Re.split_from p ma t) = t.
Proof.
  funelim (Re.split_from p ma t).
  - match goal with E : Re.search _ _ _ = Some _ |- _ =>
      rewrite (search_app _ _ _ E) end.
    rewrite !concat_empty_cons.
    match goal with IH : String.concat _ _ = _ |- _ => rewrite IH end.
    reflexivity.
  - reflexivity.
Qed.

Lemma map_fst_tagged (f : string -> bool) (a b : option string)
      (parts : list string) :
  map fst (map (fun part => if f part then (part, a) else (part, b)) parts)
  = parts.
Proof.
  induction parts as [|x l IH]; simpl; [reflexivity|].
  rewrite IH. destruct (f x); reflexivity.
Qed.

(** C5, as the code has it.  Whatever the text and the keywords, the
    texts of the spans the highlighter inserts, joined in order, are the
    input text; with no keyword the whole text is one span with the
    caller's tag; and for the keyword [cancer] and the text
    [Cancer treatment options] the spans are an empty span with the
    caller's tag, then [Cancer] tagged as a match, then
    [ treatment options] with the caller's tag, so that the spans with
    some text are exactly the last two.  The widget receives those spans
    in that order. *)
Theorem highlighter_spans :
  (forall keywords text tag,
      String.concat EmptyString (map fst (highlight_spans keywords text tag)) = text)
  /\ (forall text tag, highlight_spans [] text tag = [(text, Some tag)])
  /\ highlight_spans ["cancer"] "Cancer treatment options" "abstract"
     = [(EmptyString, Some "abstract"); ("Cancer", Some "highlight");
        (" treatment options", Some "abstract")]
  /\ filter (fun sp => Py.truthy (fst sp))
            (highlight_spans ["cancer"] "Cancer treatment options" "abstract")
     = [("Cancer", Some "highlight"); (" treatment options", Some "abstract")]
  /\ (forall text tag s,
        article_display (widgets (exec (insert_text_with_highlights text tag) s))
        = (article_display (widgets s)
           ++ highlight_spans (inclusion_keywords s) text tag)%list).
Proof.
  split; [|split; [|split; [|split]]].
  - intros keywords text tag. unfold highlight_spans.
    destruct keywords as [|k ks]; [reflexivity|].
    cbn [map]. rewrite map_fst_tagged. apply split_from_concat.
  - reflexivity.
  - reflexivity.
  - reflexivity.
  - intros text tag s.
    unfold insert_text_with_highlights, exec, bind, gets. cbn [fst].
    generalize (highlight_spans (inclusion_keywords s) text tag) as spans.
    intro spans. revert s.
    induction spans as [|[x g] l IH]; intro s.
    + simpl. rewrite app_nil_r. reflexivity.
    + cbn [insert_all]. unfold bind at 1.
      cbn [article_display_insert widget modify].
      rewrite IH. cbn. rewrite <- app_assoc. reflexivity.
Qed.

(** The claim C5 as the specification words its example: for the keyword
    [cancer] and the text [Cancer treatment options] the highlighter
    would give exactly two spans.  It gives three. *)
Lemma highlighter_example_counterexample :
  highlight_spans ["cancer"] "Cancer treatment options" "abstract"
  <> [("Cancer", Some "highlight"); (" treatment options", Some "abstract")].
Proof. vm_compute. discriminate. Qed.

End Highlighter.

(* ===================================================================== *)
(** * Properties of the review session *)
(* ===================================================================== *)

Section ReviewSession.

(** ** Computations that only touch the widgets *)

Lemma wo_ret {A} (a : A) : widgets_only (ret a).
Proof. intro s; exists (widgets s); destruct s; reflexivity. Qed.

Lemma wo_gets {A} (f : App -> A) : widgets_only (gets f).
Proof. intro s; exists (widgets s); destruct s; reflexivity. Qed.

Lemma wo_lift {A} (r : result A) : widgets_only (lift r).
Proof. intro s; exists (widgets s); destruct s; reflexivity. Qed.

Lemma wo_widget f : widgets_only (widget f).
Proof. intro s; exists (f (widgets s)); reflexivity. Qed.

Lemma wo_bind {A B} (c : M A) (k : A -> M B) :
  widgets_only c -> (forall a, widgets_only (k a)) -> widgets_only (bind c k).
Proof.
  intros Hc Hk s. destruct (Hc s) as [w Hw].
  unfold exec, bind in *. destruct (c s) as [s' [a|e]]; simpl in Hw; subst s'.
  - destruct (Hk a (set_widgets w s)) as [w' Hw'].
    exists w'. unfold exec in Hw'. rewrite Hw'. reflexivity.
  - exists w. reflexivity.
Qed.

Lemma wo_if {A} (b : bool) (c1 c2 : M A) :
  widgets_only c1 -> widgets_only c2 -> widgets_only (if b then c1 else c2).
Proof. destruct b; auto. Qed.

Create HintDb wo.
#[local] Hint Resolve wo_ret wo_gets wo_lift wo_widget wo_if : wo.
#[local] Hint Extern 2 (widgets_only (bind _ _)) =>
  apply wo_bind; [|intro] : wo.
#[local] Hint Extern 1 (widgets_only (let '(_, _) := ?p in _)) =>
  destruct p : wo.

Lemma wo_insert_all spans : widgets_only (insert_all spans).
Proof.
  induction spans as [|[x g] l IH]; cbn [insert_all]; auto with wo.
  apply wo_bind; [apply wo_widget|auto].
Qed.
#[local] Hint Resolve wo_insert_all : wo.

Lemma wo_insert_text_with_highlights text tag :
  widgets_only (insert_text_with_highlights text tag).
Proof. unfold insert_text_with_highlights; auto with wo. Qed.
#[local] Hint Resolve wo_insert_text_with_highlights : wo.

Lemma wo_update_results_summary : widgets_only update_results_summary.
Proof.
  unfold update_results_summary, update_results_preview; auto 10 with wo.
Qed.
#[local] Hint Resolve wo_update_results_summary : wo.

Lemma wo_display_current_article : widgets_only display_current_article.
Proof.
  unfold display_current_article, article_display_delete,
    article_display_insert.
  apply wo_bind; [auto with wo|intro s].
  apply wo_if; auto 20 with wo.
Qed.
#[local] Hint Resolve wo_display_current_article : wo.

Lemma wo_update_screening_display : widgets_only update_screening_display.
Proof. unfold update_screening_display; auto 10 with wo. Qed.

(** ** Lists *)

Lemma length_setitem {A} (l : list A) : forall i v,
  List.length (Py.setitem l i v) = List.length l.
Proof.
  induction l as [|x l IH]; intros [|i] v; simpl; auto.
Qed.

Lemma nth_error_setitem_same {A} (l : list A) : forall i v,
  (i < List.length l)%nat -> nth_error (Py.setitem l i v) i = Some v.
Proof.
  induction l as [|x l IH]; intros [|i] v H; simpl in *; try lia; auto.
  apply IH; lia.
Qed.

Lemma is_empty_setitem {A} (l : list A) i v :
  is_empty (Py.setitem l i v) = is_empty l.
Proof. destruct l, i; reflexivity. Qed.

Lemma getitem_in_range {A} (l : list A) (i : Z) :
  0 <= i < Py.len l -> Py.getitem l i = nth_error l (Z.to_nat i).
Proof.
  intros H. unfold Py.getitem.
  destruct (i <? 0) eqn:E; [apply Z.ltb_lt in E; lia|reflexivity].
Qed.

Lemma getitem_some_in_range {A} (l : list A) (i : Z) :
  0 <= i < Py.len l -> exists x, Py.getitem l i = Some x.
Proof.
  intros H. rewrite getitem_in_range by assumption.
  destruct (nth_error l (Z.to_nat i)) as [x|] eqn:E; [eauto|].
  apply nth_error_None in E. unfold Py.len in H. lia.
Qed.

Lemma cursor_on_article_iff s :
  cursor_on_article s = true <->
  0 <= current_index s < Py.len (all_articles s).
Proof.
  unfold cursor_on_article, Py.len.
  rewrite !andb_true_iff, Z.leb_le, Z.ltb_lt, negb_true_iff.
  split; [tauto|]. intros H. repeat split; try lia.
  destruct (all_articles s); [simpl in H; lia|reflexivity].
Qed.

(** ** What each operation does to the session *)

Lemma next_article_fields s :
  let s' := exec next_article s in
  all_articles s' = all_articles s
  /\ included_articles s' = included_articles s
  /\ excluded_articles s' = excluded_articles s
  /\ current_index s' = cursor_after_next s.
Proof.
  unfold next_article, exec, bind, gets, cursor_after_next. cbn [fst snd].
  destruct (current_index s <? Py.len (all_articles s) - 1).
  - cbn [modify].
    destruct (wo_update_screening_display
                (set_current_index (current_index s + 1) s)) as [w Hw].
    unfold exec in Hw. rewrite Hw. cbn. auto.
  - cbn. auto.
Qed.

Lemma next_article_at_end s :
  (current_index s <? Py.len (all_articles s) - 1) = false ->
  next_article s = (set_dialogs (dialogs s ++ [screening_complete_notice]) s, Ok tt).
Proof.
  intros H. unfold next_article, bind, gets. rewrite H. reflexivity.
Qed.

Lemma previous_article_fields s :
  let s' := exec previous_article s in
  all_articles s' = all_articles s
  /\ included_articles s' = included_articles s
  /\ excluded_articles s' = excluded_articles s
  /\ current_index s' = cursor_after_previous s.
Proof.
  unfold previous_article, exec, bind, gets, cursor_after_previous. cbn [fst snd].
  destruct (current_index s >? 0).
  - cbn [modify].
    destruct (wo_update_screening_display
                (set_current_index (current_index s - 1) s)) as [w Hw].
    unfold exec in Hw. rewrite Hw. cbn. auto.
  - cbn. auto.
Qed.

Lemma previous_article_at_start s :
  (current_index s >? 0) = false -> previous_article s = (s, Ok tt).
Proof.
  intros H. unfold previous_article, bind, gets. rewrite H. reflexivity.
Qed.

Lemma include_article_on s now live :
  cursor_on_article s = true ->
  Py.getitem (all_articles s) (current_index s) = Some (Some live) ->
  include_article now s = next_article (with_inclusion now live s).
Proof.
  intros Hg Hi. unfold include_article, bind, gets, lift, index.
  rewrite Hg, Hi. reflexivity.
Qed.

Lemma exclude_article_on s now live :
  cursor_on_article s = true ->
  Py.getitem (all_articles s) (current_index s) = Some (Some live) ->
  exclude_article now s = next_article (with_exclusion now live s).
Proof.
  intros Hg Hi. unfold exclude_article, bind, gets, lift, index.
  rewrite Hg, Hi. reflexivity.
Qed.

Lemma include_article_on_None s now :
  cursor_on_article s = true ->
  Py.getitem (all_articles s) (current_index s) = Some None ->
  include_article now s = (s, Raise AttributeError).
Proof.
  intros Hg Hi. unfold include_article, bind, gets, lift, index.
  rewrite Hg, Hi. reflexivity.
Qed.

Lemma exclude_article_on_None s now :
  cursor_on_article s = true ->
  Py.getitem (all_articles s) (current_index s) = Some None ->
  exclude_article now s = (s, Raise AttributeError).
Proof.
  intros Hg Hi. unfold exclude_article, bind, gets, lift, index.
  rewrite Hg, Hi. reflexivity.
Qed.

Lemma include_article_off s now :
  cursor_on_article s = false -> include_article now s = (s, Ok tt).
Proof.
  intros Hg. unfold include_article, bind, gets. rewrite Hg. reflexivity.
Qed.

Lemma exclude_article_off s now :
  cursor_on_article s = false -> exclude_article now s = (s, Ok tt).
Proof.
  intros Hg. unfold exclude_article, bind, gets. rewrite Hg. reflexivity.
Qed.

Lemma len_with_inclusion now live s :
  Py.len (all_articles (with_inclusion now live s)) = Py.len (all_articles s).
Proof. unfold Py.len. cbn. rewrite length_setitem. reflexivity. Qed.

Lemma len_with_exclusion now live s :
  Py.len (all_articles (with_exclusion now live s)) = Py.len (all_articles s).
Proof. unfold Py.len. cbn. rewrite length_setitem. reflexivity. Qed.

(** ** Decisions at the last index *)

(** C3, as the code has it.  In a session whose cursor is on the last
    article, [include_article] and [exclude_article] return normally
    after they have appended the time-stamped snapshot to their list and
    overwritten the status of the live article; [next_article] then
    leaves the cursor where it is and shows the completion notice, so
    the session stays in Reviewing on the last article.  [next_article]
    called directly does the same and changes nothing in the session. *)
Theorem decision_at_last_index s now live :
  current_index s = Py.len (all_articles s) - 1 ->
  Py.getitem (all_articles s) (current_index s) = Some (Some live) ->
  (let s' := exec (include_article now) s in
   outcome (include_article now) s = Ok tt
   /\ included_articles s'
      = (included_articles s ++ [snapshot Included now live])%list
   /\ excluded_articles s' = excluded_articles s
   /\ all_articles s'
      = Py.setitem (all_articles s) (Z.to_nat (current_index s))
                   (Some (set_Status Included live))
   /\ stays_at_last s s')
  /\ (let s' := exec (exclude_article now) s in
      outcome (exclude_article now) s = Ok tt
      /\ excluded_articles s'
         = (excluded_articles s ++ [snapshot Excluded now live])%list
      /\ included_articles s' = included_articles s
      /\ all_articles s'
         = Py.setitem (all_articles s) (Z.to_nat (current_index s))
                      (Some (set_Status Excluded live))
      /\ stays_at_last s s')
  /\ (let s' := exec next_article s in
      outcome next_article s = Ok tt
      /\ session s' = session s
      /\ stays_at_last s s').
Proof.
  intros Hlast Hitem.
  assert (Hlen : 0 < Py.len (all_articles s)).
  { unfold Py.getitem in Hitem. unfold Py.len in *.
    destruct (all_articles s) as [|x l] eqn:El; [|simpl; lia].
    simpl in Hlast. rewrite Hlast in Hitem. simpl in Hitem. discriminate. }
  assert (Hg : cursor_on_article s = true)
    by (apply cursor_on_article_iff; lia).
  assert (Hne : is_empty (all_articles s) = false).
  { destruct (all_articles s); [unfold Py.len in Hlen; simpl in Hlen; lia|reflexivity]. }
  assert (Hge : (current_index s >=? Py.len (all_articles s)) = false).
  { rewrite Z.geb_leb. apply Z.leb_gt. lia. }
  split; [|split].
  - unfold exec, outcome.
    rewrite (include_article_on _ _ Hg Hitem), next_article_at_end.
    2:{ rewrite len_with_inclusion. cbn. apply Z.ltb_ge. lia. }
    cbn -[Py.setitem]. repeat split.
    unfold state_of. cbn -[Py.setitem Py.len].
    rewrite is_empty_setitem, Hne.
    unfold Py.len. rewrite length_setitem. fold (Py.len (all_articles s)).
    rewrite Hge. reflexivity.
  - unfold exec, outcome.
    rewrite (exclude_article_on _ _ Hg Hitem), next_article_at_end.
    2:{ rewrite len_with_exclusion. cbn. apply Z.ltb_ge. lia. }
    cbn -[Py.setitem]. repeat split.
    unfold state_of. cbn -[Py.setitem Py.len].
    rewrite is_empty_setitem, Hne.
    unfold Py.len. rewrite length_setitem. fold (Py.len (all_articles s)).
    rewrite Hge. reflexivity.
  - unfold exec, outcome. rewrite next_article_at_end by (apply Z.ltb_ge; lia).
    cbn. repeat split. unfold state_of. cbn. rewrite Hne, Hge. reflexivity.
Qed.

(** The theorem at the one-article session. *)
Lemma decision_at_last_index_witness :
  let live := mkArticle 1 (Some "Only") "PMID: 7" "Background. Results."
                        "Doe Jane" PubMed Pending None in
  current_index one_loaded = Py.len (all_articles one_loaded) - 1
  /\ Py.getitem (all_articles one_loaded) (current_index one_loaded)
     = Some (Some live)
  /\ included_articles
       (exec (include_article "2024-05-01 10:00:00") one_loaded)
     = [snapshot Included "2024-05-01 10:00:00" live].
Proof.
  intro live. split; [reflexivity|split; [reflexivity|]].
  destruct (@decision_at_last_index one_loaded "2024-05-01 10:00:00" live
              eq_refl eq_refl) as [[_ [H _]] _].
  exact H.
Defined.

(** The claim C3 as the specification words it: a decision on the last
    article would move the cursor past the end and make the session
    Complete.  On the one-article session the cursor is on the last
    index; after [include_article], [exclude_article] or [next_article]
    it has not moved and the session is not Complete. *)
Lemma decision_at_last_index_counterexample :
  let s := one_loaded in
  state_of s = Reviewing
  /\ current_index s = Py.len (all_articles s) - 1
  /\ ~ (current_index (exec (include_article "2024-05-01 10:00:00") s)
        = current_index s + 1
        \/ state_of (exec (include_article "2024-05-01 10:00:00") s) = Complete)
  /\ ~ (current_index (exec (exclude_article "2024-05-01 10:00:00") s)
        = current_index s + 1
        \/ state_of (exec (exclude_article "2024-05-01 10:00:00") s) = Complete)
  /\ state_of (exec next_article s) <> Complete.
Proof.
  vm_compute. repeat split; try discriminate; intros [H|H]; discriminate.
Qed.

(** ** Deciding twice *)

Lemma include_article_fields s now live :
  cursor_on_article s = true ->
  Py.getitem (all_articles s) (current_index s) = Some (Some live) ->
  let s' := exec (include_article now) s in
  all_articles s'
  = Py.setitem (all_articles s) (Z.to_nat (current_index s))
               (Some (set_Status Included live))
  /\ included_articles s'
     = (included_articles s ++ [snapshot Included now live])%list
  /\ excluded_articles s' = excluded_articles s
  /\ current_index s' = cursor_after_next s.
Proof.
  intros Hg Hi. unfold exec. rewrite (include_article_on _ _ Hg Hi).
  destruct (next_article_fields (with_inclusion now live s))
    as (Ha & Hinc & Hexc & Hc).
  unfold exec in *. rewrite Ha, Hinc, Hexc, Hc.
  unfold cursor_after_next. rewrite len_with_inclusion. auto.
Qed.

Lemma exclude_article_fields s now live :
  cursor_on_article s = true ->
  Py.getitem (all_articles s) (current_index s) = Some (Some live) ->
  let s' := exec (exclude_article now) s in
  all_articles s'
  = Py.setitem (all_articles s) (Z.to_nat (current_index s))
               (Some (set_Status Excluded live))
  /\ excluded_articles s'
     = (excluded_articles s ++ [snapshot Excluded now live])%list
  /\ included_articles s' = included_articles s
  /\ current_index s' = cursor_after_next s.
Proof.
  intros Hg Hi. unfold exec. rewrite (exclude_article_on _ _ Hg Hi).
  destruct (next_article_fields (with_exclusion now live s))
    as (Ha & Hinc & Hexc & Hc).
  unfold exec in *. rewrite Ha, Hinc, Hexc, Hc.
  unfold cursor_after_next. rewrite len_with_exclusion. auto.
Qed.

(** After a decision on the article at [i] and the way back, the cursor
    is on [i] again and the lists are as the decision left them. *)
Lemma back_to_fields s s' :
  0 <= current_index s < Py.len (all_articles s) ->
  current_index s' = cursor_after_next s ->
  let s'' := back_to (current_index s) s' in
  current_index s'' = current_index s
  /\ all_articles s'' = all_articles s'
  /\ included_articles s'' = included_articles s'
  /\ excluded_articles s'' = excluded_articles s'.
Proof.
  intros Hr Hc. unfold back_to.
  destruct (current_index s' =? current_index s) eqn:E.
  - apply Z.eqb_eq in E. auto.
  - apply Z.eqb_neq in E.
    destruct (previous_article_fields s') as (Ha & Hi & He & Hp).
    repeat split; try assumption.
    rewrite Hp. unfold cursor_after_previous, cursor_after_next in *.
    destruct (current_index s <? Py.len (all_articles s) - 1); [|lia].
    rewrite Hc. destruct (current_index s + 1 >? 0) eqn:E1; [lia|].
    rewrite Z.gtb_ltb in E1. apply Z.ltb_ge in E1. lia.
Qed.

(** C4.  A decision appends its snapshot to its own list and leaves the
    other list as it was.  So when an article under the cursor is
    included, the reviewer goes back to it and excludes it, the first
    snapshot is still in the included list, the second one is in the
    excluded list, and both carry the sequence number of the article; the
    same holds with the two verdicts exchanged. *)
Theorem redecision_keeps_both_snapshots s t1 t2 live :
  cursor_on_article s = true ->
  Py.getitem (all_articles s) (current_index s) = Some (Some live) ->
  (let s1 := exec (include_article t1) s in
   let s3 := exec (exclude_article t2) (back_to (current_index s) s1) in
   let first := snapshot Included t1 live in
   let second := snapshot Excluded t2 (set_Status Included live) in
   included_articles s3 = (included_articles s ++ [first])%list
   /\ excluded_articles s3 = (excluded_articles s ++ [second])%list
   /\ In first (included_articles s3) /\ In second (excluded_articles s3)
   /\ Sr_No first = Sr_No live /\ Sr_No second = Sr_No live)
  /\ (let s1 := exec (exclude_article t1) s in
      let s3 := exec (include_article t2) (back_to (current_index s) s1) in
      let first := snapshot Excluded t1 live in
      let second := snapshot Included t2 (set_Status Excluded live) in
      excluded_articles s3 = (excluded_articles s ++ [first])%list
      /\ included_articles s3 = (included_articles s ++ [second])%list
      /\ In first (excluded_articles s3) /\ In second (included_articles s3)
      /\ Sr_No first = Sr_No live /\ Sr_No second = Sr_No live).
Proof.
  intros Hg Hi.
  pose proof (proj1 (cursor_on_article_iff s) Hg) as Hr.
  assert (Hn : (Z.to_nat (current_index s) < List.length (all_articles s))%nat)
    by (unfold Py.len in Hr; lia).
  split; cbv zeta.
  - destruct (@include_article_fields s t1 live Hg Hi) as (Ha & Hinc & Hexc & Hc).
    destruct (@back_to_fields s (exec (include_article t1) s) Hr Hc)
      as (Bc & Ba & Binc & Bexc).
    set (s2 := back_to (current_index s) (exec (include_article t1) s)) in *.
    assert (Hg2 : cursor_on_article s2 = true).
    { apply cursor_on_article_iff. rewrite Bc, Ba, Ha.
      unfold Py.len. rewrite length_setitem. exact Hr. }
    assert (Hi2 : Py.getitem (all_articles s2) (current_index s2)
                  = Some (Some (set_Status Included live))).
    { rewrite getitem_in_range
        by (apply cursor_on_article_iff; exact Hg2).
      rewrite Bc, Ba, Ha. apply nth_error_setitem_same. exact Hn. }
    destruct (@exclude_article_fields s2 t2 _ Hg2 Hi2) as (_ & Hexc3 & Hinc3 & _).
    rewrite Hexc3, Hinc3, Binc, Bexc, Hinc, Hexc.
    repeat split; try (apply in_or_app; right; left; reflexivity).
  - destruct (@exclude_article_fields s t1 live Hg Hi) as (Ha & Hexc & Hinc & Hc).
    destruct (@back_to_fields s (exec (exclude_article t1) s) Hr Hc)
      as (Bc & Ba & Binc & Bexc).
    set (s2 := back_to (current_index s) (exec (exclude_article t1) s)) in *.
    assert (Hg2 : cursor_on_article s2 = true).
    { apply cursor_on_article_iff. rewrite Bc, Ba, Ha.
      unfold Py.len. rewrite length_setitem. exact Hr. }
    assert (Hi2 : Py.getitem (all_articles s2) (current_index s2)
                  = Some (Some (set_Status Excluded live))).
    { rewrite getitem_in_range
        by (apply cursor_on_article_iff; exact Hg2).
      rewrite Bc, Ba, Ha. apply nth_error_setitem_same. exact Hn. }
    destruct (@include_article_fields s2 t2 _ Hg2 Hi2) as (_ & Hinc3 & Hexc3 & _).
    rewrite Hexc3, Hinc3, Binc, Bexc, Hinc, Hexc.
    repeat split; try (apply in_or_app; right; left; reflexivity).
Qed.

(** The theorem on the first of two loaded articles. *)
Lemma redecision_keeps_both_snapshots_witness :
  let live := mkArticle 1 (Some "First") "PMID: 1" "Background. Results."
                        "Doe Jane" PubMed Pending None in
  let s3 := exec (exclude_article "2024-05-01 10:05:00")
                 (back_to 0 (exec (include_article "2024-05-01 10:00:00")
                                  two_loaded)) in
  cursor_on_article two_loaded = true
  /\ Py.getitem (all_articles two_loaded) (current_index two_loaded)
     = Some (Some live)
  /\ In (snapshot Included "2024-05-01 10:00:00" live) (included_articles s3)
  /\ In (snapshot Excluded "2024-05-01 10:05:00" (set_Status Included live))
        (excluded_articles s3).
Proof.
  intros live s3. split; [reflexivity|split; [reflexivity|]].
  destruct (@redecision_keeps_both_snapshots two_loaded
              "2024-05-01 10:00:00" "2024-05-01 10:05:00" live
              eq_refl eq_refl) as [(_ & _ & H1 & H2 & _) _].
  split; [exact H1|exact H2].
Defined.

(** ** Empty sessions and the range of the cursor *)

Lemma update_screening_display_empty s :
  all_articles s = [] ->
  outcome update_screening_display s = Ok tt.
Proof.
  intros H. unfold outcome, update_screening_display, bind, gets.
  cbn [fst snd]. rewrite H. reflexivity.
Qed.

Lemma run_op_keeps_cursor_on_article s o :
  cursor_on_article s = true ->
  cursor_on_article (exec (run_op o) s) = true.
Proof.
  intros Hg. pose proof (proj1 (cursor_on_article_iff s) Hg) as Hr.
  apply cursor_on_article_iff.
  destruct o as [now|now| |]; cbn [run_op].
  - destruct (getitem_some_in_range (all_articles s) Hr) as [[live|] Hi].
    + destruct (@include_article_fields s now live Hg Hi) as (Ha & _ & _ & Hc).
      rewrite Ha, Hc. unfold cursor_after_next, Py.len in *.
      rewrite length_setitem.
      destruct (current_index s <? _) eqn:E;
        [apply Z.ltb_lt in E|apply Z.ltb_ge in E]; lia.
    + unfold exec. rewrite (@include_article_on_None s now Hg Hi). exact Hr.
  - destruct (getitem_some_in_range (all_articles s) Hr) as [[live|] Hi].
    + destruct (@exclude_article_fields s now live Hg Hi) as (Ha & _ & _ & Hc).
      rewrite Ha, Hc. unfold cursor_after_next, Py.len in *.
      rewrite length_setitem.
      destruct (current_index s <? _) eqn:E;
        [apply Z.ltb_lt in E|apply Z.ltb_ge in E]; lia.
    + unfold exec. rewrite (@exclude_article_on_None s now Hg Hi). exact Hr.
  - destruct (next_article_fields s) as (Ha & _ & _ & Hc).
    rewrite Ha, Hc. unfold cursor_after_next, Py.len in *.
    destruct (current_index s <? _) eqn:E;
        [apply Z.ltb_lt in E|apply Z.ltb_ge in E]; lia.
  - destruct (previous_article_fields s) as (Ha & _ & _ & Hc).
    rewrite Ha, Hc. unfold cursor_after_previous.
    destruct (current_index s >? 0) eqn:E; [|lia].
    rewrite Z.gtb_ltb in E. apply Z.ltb_lt in E. lia.
Qed.

Lemma run_op_keeps_cursor_nonneg s o :
  0 <= current_index s -> 0 <= current_index (exec (run_op o) s).
Proof.
  intros H0.
  assert (Hn : 0 <= cursor_after_next s).
  { unfold cursor_after_next. destruct (current_index s <? _); lia. }
  destruct o as [now|now| |]; cbn [run_op].
  - destruct (cursor_on_article s) eqn:Hg.
    + pose proof (proj1 (cursor_on_article_iff s) Hg) as Hr.
      destruct (getitem_some_in_range (all_articles s) Hr) as [[live|] Hi].
      * destruct (@include_article_fields s now live Hg Hi) as (_ & _ & _ & Hc).
        rewrite Hc. exact Hn.
      * unfold exec. rewrite (@include_article_on_None s now Hg Hi). exact H0.
    + unfold exec. rewrite (@include_article_off s now Hg). exact H0.
  - destruct (cursor_on_article s) eqn:Hg.
    + pose proof (proj1 (cursor_on_article_iff s) Hg) as Hr.
      destruct (getitem_some_in_range (all_articles s) Hr) as [[live|] Hi].
      * destruct (@exclude_article_fields s now live Hg Hi) as (_ & _ & _ & Hc).
        rewrite Hc. exact Hn.
      * unfold exec. rewrite (@exclude_article_on_None s now Hg Hi). exact H0.
    + unfold exec. rewrite (@exclude_article_off s now Hg). exact H0.
  - destruct (next_article_fields s) as (_ & _ & _ & Hc). rewrite Hc. exact Hn.
  - destruct (previous_article_fields s) as (_ & _ & _ & Hc). rewrite Hc.
    unfold cursor_after_previous.
    destruct (current_index s >? 0) eqn:E; [|exact H0].
    rewrite Z.gtb_ltb in E. apply Z.ltb_lt in E. lia.
Qed.

(** C9, as the code has it.  The four operations never make the cursor
    negative.  On a session without articles whose cursor
    is not negative, [include_article], [exclude_article] and
    [next_article] return normally and leave the session as it was
    ([next_article] shows its notice); [previous_article] returns
    normally and leaves the three lists as they were, and it takes one
    from the cursor when the cursor is positive.  With the cursor at 0
    [previous_article] changes nothing at all, so repeating it changes
    nothing either.  And a cursor that is on an article is still on an
    article after any of the four operations. *)
Theorem session_operations_keep_bounds :
  (forall s, all_articles s = [] -> 0 <= current_index s ->
     (forall now, include_article now s = (s, Ok tt)
                  /\ exclude_article now s = (s, Ok tt))
     /\ outcome next_article s = Ok tt
     /\ session (exec next_article s) = session s
     /\ outcome previous_article s = Ok tt
     /\ all_articles (exec previous_article s) = []
     /\ included_articles (exec previous_article s) = included_articles s
     /\ excluded_articles (exec previous_article s) = excluded_articles s
     /\ current_index (exec previous_article s)
        = Z.max 0 (current_index s - 1))
  /\ (forall s, current_index s = 0 ->
        previous_article s = (s, Ok tt)
        /\ exec previous_article (exec previous_article s) = s)
  /\ (forall s o, cursor_on_article s = true ->
        cursor_on_article (exec (run_op o) s) = true)
  /\ (forall s o, 0 <= current_index s ->
        0 <= current_index (exec (run_op o) s)).
Proof.
  split; [|split; [|split]]; [| | |apply run_op_keeps_cursor_nonneg].
  - intros s He Hc.
    assert (Hoff : cursor_on_article s = false)
      by (unfold cursor_on_article; rewrite He; reflexivity).
    split; [|split; [|split; [|split; [|split; [|split; [|split]]]]]].
    + intro now. rewrite include_article_off, exclude_article_off by assumption.
      auto.
    + unfold outcome. rewrite next_article_at_end; [reflexivity|].
      rewrite He. cbn. apply Z.ltb_ge. lia.
    + unfold exec. rewrite next_article_at_end; [reflexivity|].
      rewrite He. cbn. apply Z.ltb_ge. lia.
    + unfold outcome, previous_article, bind, gets. cbn [fst snd].
      destruct (current_index s >? 0); [|reflexivity].
      cbn [modify].
      apply (@update_screening_display_empty
               (set_current_index (current_index s - 1) s)).
      exact He.
    + destruct (previous_article_fields s) as (Ha & _). rewrite Ha. exact He.
    + destruct (previous_article_fields s) as (_ & Hi & _). exact Hi.
    + destruct (previous_article_fields s) as (_ & _ & Hx & _). exact Hx.
    + destruct (previous_article_fields s) as (_ & _ & _ & Hp). rewrite Hp.
      unfold cursor_after_previous.
      destruct (current_index s >? 0) eqn:E.
      * rewrite Z.gtb_ltb in E. apply Z.ltb_lt in E. lia.
      * rewrite Z.gtb_ltb in E. apply Z.ltb_ge in E. lia.
  - intros s H0.
    assert (E : (current_index s >? 0) = false) by (rewrite H0; reflexivity).
    split; [apply previous_article_at_start; exact E|].
    unfold exec. rewrite (@previous_article_at_start s E). cbn [fst].
    rewrite (@previous_article_at_start s E). reflexivity.
  - intros s o. apply run_op_keeps_cursor_on_article.
Qed.

(** The theorem on the fresh object, which holds no article. *)
Lemma session_operations_keep_bounds_witness :
  all_articles init = [] /\ 0 <= current_index init
  /\ include_article "2024-05-01 10:00:00" init = (init, Ok tt)
  /\ current_index init = 0
  /\ previous_article init = (init, Ok tt)
  /\ cursor_on_article two_loaded = true
  /\ cursor_on_article (exec (run_op Next) two_loaded) = true.
Proof.
  destruct session_operations_keep_bounds as (H1 & H2 & H3 & _).
  split; [reflexivity|split; [discriminate|]].
  split; [apply (H1 init eq_refl); discriminate|].
  split; [reflexivity|].
  split; [apply (H2 init eq_refl)|].
  split; [reflexivity|].
  apply (H3 two_loaded Next eq_refl).
Defined.

(** The claim C9 as the specification words it: every operation on a
    session without articles would leave the session unchanged.  After a
    retrieval that finds nothing, started with the cursor on the second
    of two articles, no article is loaded and the cursor is still 1;
    [previous_article] then moves it to 0. *)
Lemma empty_session_counterexample :
  all_articles stale_empty = []
  /\ state_of stale_empty = Empty
  /\ current_index stale_empty = 1
  /\ current_index (exec previous_article stale_empty) = 0
  /\ session (exec previous_article stale_empty) <> session stale_empty.
Proof. vm_compute. repeat split. discriminate. Qed.

(** ** The pending count *)

(** C10.  There is a sequence of session operations, going back to an
    article already decided and deciding it again, after which the two
    decision lists together are longer than the article list and the
    summary shows a negative pending count: on two loaded articles,
    include the first, go back, include it again, go back, exclude it;
    the summary then reads total 2, included 2, excluded 1, pending -1.
    Whenever the decision lists together are longer than the article
    list, the pending count that [update_results_summary] writes is
    negative. *)
Theorem pending_count_goes_negative :
  (exists ops : list op,
     let s := run_ops ops two_loaded in
     Py.len (included_articles s) + Py.len (excluded_articles s)
     > Py.len (all_articles s)
     /\ stats_var (widgets s) = Summary 2 2 1 (-1))
  /\ (forall s,
        let s' := exec update_results_summary s in
        exists pending,
          stats_var (widgets s')
          = Summary (Py.len (all_articles s)) (Py.len (included_articles s))
                    (Py.len (excluded_articles s)) pending
          /\ pending
             = Py.len (all_articles s) - Py.len (included_articles s)
               - Py.len (excluded_articles s)
          /\ (Py.len (included_articles s) + Py.len (excluded_articles s)
              > Py.len (all_articles s) -> pending < 0)).
Proof.
  split.
  - exists [Include "2024-05-01 10:00:00"; Previous;
            Include "2024-05-01 10:01:00"; Previous;
            Exclude "2024-05-01 10:02:00"].
    vm_compute. split; reflexivity.
  - intros s s'. exists (pending_count s). subst s'.
    split; [reflexivity|]. unfold pending_count. split; [reflexivity|lia].
Qed.

(** The theorem on the session the five operations leave. *)
Lemma pending_count_goes_negative_witness :
  let s := run_ops [Include "2024-05-01 10:00:00"; Previous;
                    Include "2024-05-01 10:01:00"; Previous;
                    Exclude "2024-05-01 10:02:00"] two_loaded in
  Py.len (included_articles s) + Py.len (excluded_articles s)
  > Py.len (all_articles s)
  /\ pending_count s < 0.
Proof.
  intro s.
  assert (H : Py.len (included_articles s) + Py.len (excluded_articles s)
              > Py.len (all_articles s)) by reflexivity.
  split; [exact H|].
  destruct (proj2 pending_count_goes_negative s) as (p & _ & Hp & Hneg).
  unfold pending_count. rewrite <- Hp. exact (Hneg H).
Defined.

End ReviewSession.

(* ===================================================================== *)
(** * Properties of the retrieval *)
(* ===================================================================== *)

Section Retrieval.

(** ** Sequence numbers of the normalizers *)

Lemma parse_pubmed_record_tag record sr_no a :
  fst (parse_pubmed_record record sr_no) = Some a ->
  Source a = PubMed /\ Sr_No a = sr_no.
Proof.
  unfold parse_pubmed_record, parse_pubmed_record_body.
  destruct (subscript (Bio.MedlineCitation record)) as [c|e]; [|discriminate].
  destruct (subscript (Bio.Article_ c)) as [x|e]; [|discriminate].
  cbn. intros H. inversion H. auto.
Qed.

Lemma parse_pubmed_xml_tag elem sr_no a :
  fst (parse_pubmed_xml elem sr_no) = Some a ->
  Source a = PubMed /\ Sr_No a = sr_no.
Proof.
  unfold parse_pubmed_xml, parse_pubmed_xml_body.
  destruct (attr (Xml.find_deep "Article" elem)) as [x|e]; [|discriminate].
  cbv zeta.
  destruct (match Xml.find_deep "AuthorList" x with
            | Some author_list => xml_authors (Xml.findall "Author" author_list)
            | None => []
            end) as [|o l].
  - cbn. intros H. inversion H. auto.
  - destruct (all_str (o :: l)); [|discriminate].
    cbn. intros H. inversion H. auto.
Qed.

Lemma search_pubmed_loop_parsed records : forall i articles,
  fst (search_pubmed_loop records i articles)
  = (articles ++ parsed_from i records)%list.
Proof.
  induction records as [|r t IH]; intros i articles; simpl.
  - rewrite app_nil_r. reflexivity.
  - destruct (parse_pubmed_record r (i + 1)) as [article out] eqn:E.
    specialize (IH (i + 1) (articles ++ [article])%list).
    destruct (search_pubmed_loop t (i + 1) (articles ++ [article])%list).
    simpl in *. rewrite IH, <- app_assoc. reflexivity.
Qed.

Lemma direct_inner_loop_parsed elems : forall articles,
  fst (direct_inner_loop elems articles)
  = (articles ++ xml_parsed_from (Py.len articles) elems)%list.
Proof.
  induction elems as [|e t IH]; intros articles; simpl.
  - rewrite app_nil_r. reflexivity.
  - destruct (parse_pubmed_xml e (Py.len articles + 1)) as [article out] eqn:E.
    specialize (IH (articles ++ [article])%list).
    destruct (direct_inner_loop t (articles ++ [article])%list).
    simpl in *. rewrite IH, <- app_assoc.
    replace (Py.len (articles ++ [article])%list) with (Py.len articles + 1).
    + reflexivity.
    + unfold Py.len. rewrite length_app. simpl. lia.
Qed.

Lemma tagged_from_nil src n : tagged_from src n [].
Proof. intros [|k] a H; discriminate. Qed.

Lemma tagged_from_cons src n e l :
  (forall a, e = Some a -> Source a = src /\ Sr_No a = n + 1) ->
  tagged_from src (n + 1) l -> tagged_from src n (e :: l).
Proof.
  intros He Hl [|k] a H; simpl in H.
  - inversion H; subst. destruct (He a eq_refl). split; [assumption|lia].
  - destruct (Hl k a H). split; [assumption|lia].
Qed.

Lemma tagged_from_app src n l1 l2 :
  tagged_from src n l1 -> tagged_from src (n + Py.len l1) l2 ->
  tagged_from src n (l1 ++ l2).
Proof.
  intros H1 H2 k a H.
  destruct (Nat.lt_ge_cases k (List.length l1)) as [Hk|Hk].
  - rewrite nth_error_app1 in H by assumption. apply H1; assumption.
  - rewrite nth_error_app2 in H by assumption.
    destruct (H2 _ _ H). split; [assumption|]. unfold Py.len in *. lia.
Qed.

Lemma parsed_from_tagged records : forall i,
  tagged_from PubMed i (parsed_from i records).
Proof.
  induction records as [|r t IH]; intro i; simpl.
  - apply tagged_from_nil.
  - apply tagged_from_cons; [|apply IH].
    intros a H. apply (parse_pubmed_record_tag _ _ H).
Qed.

Lemma xml_parsed_from_tagged elems : forall n,
  tagged_from PubMed n (xml_parsed_from n elems).
Proof.
  induction elems as [|e t IH]; intro n; simpl.
  - apply tagged_from_nil.
  - apply tagged_from_cons; [|apply IH].
    intros a H. apply (parse_pubmed_xml_tag _ _ H).
Qed.

Lemma direct_batch_loop_tagged pv email bs : forall articles,
  tagged_from PubMed 0 articles ->
  tagged_from PubMed 0 (fst (direct_batch_loop pv email bs articles)).
Proof.
  induction bs as [|b t IH]; intros articles H; simpl; [assumption|].
  destruct (efetch pv email b) as [root|e]; [|assumption].
  pose proof (direct_inner_loop_parsed
                (Xml.findall_deep "PubmedArticle" root) articles) as Hp.
  destruct (direct_inner_loop (Xml.findall_deep "PubmedArticle" root) articles)
    as [articles1 out1].
  specialize (IH articles1).
  destruct (direct_batch_loop pv email t articles1) as [articles2 out2].
  simpl in *. apply IH. rewrite Hp.
  apply tagged_from_app; [assumption|apply xml_parsed_from_tagged].
Qed.

Lemma search_pubmed_direct_tagged pv email terms cap :
  tagged_from PubMed 0 (fst (search_pubmed_direct pv email terms cap)).
Proof.
  unfold search_pubmed_direct.
  destruct (esearch pv _); [|apply tagged_from_nil].
  apply direct_batch_loop_tagged, tagged_from_nil.
Qed.

Lemma search_pubmed_tagged pv email terms cap :
  tagged_from PubMed 0 (fst (search_pubmed pv email terms cap)).
Proof.
  unfold search_pubmed.
  destruct (BIOPYTHON_AVAILABLE pv); [|apply search_pubmed_direct_tagged].
  destruct (entrez pv _).
  - rewrite search_pubmed_loop_parsed. apply parsed_from_tagged.
  - pose proof (search_pubmed_direct_tagged pv email terms cap) as H.
    destruct (search_pubmed_direct pv email terms cap). exact H.
Qed.

Lemma cochrane_loop_cons_int df already z row rest :
  cochrane_loop df already ((IntLabel z, row) :: rest)
  = (Some (cochrane_article df already z row)
       :: fst (cochrane_loop df already rest),
     snd (cochrane_loop df already rest)).
Proof. simpl. destruct (cochrane_loop df already rest). reflexivity. Qed.

Lemma cochrane_loop_cons_text df already t row rest :
  cochrane_loop df already ((TextLabel t, row) :: rest)
  = (fst (cochrane_loop df already rest),
     ErrorProcessingCochraneRow (TextLabel t) TypeError
       :: snd (cochrane_loop df already rest)).
Proof. simpl. destruct (cochrane_loop df already rest). reflexivity. Qed.

Lemma cochrane_loop_app df already r1 r2 :
  fst (cochrane_loop df already (r1 ++ r2))
  = (fst (cochrane_loop df already r1)
     ++ fst (cochrane_loop df already r2))%list.
Proof.
  induction r1 as [|[[z|t] row] r1 IH]; [reflexivity| |];
    rewrite <- app_comm_cons.
  - rewrite !cochrane_loop_cons_int. cbn [fst]. rewrite IH. reflexivity.
  - rewrite !cochrane_loop_cons_text. cbn [fst]. exact IH.
Qed.

Lemma cochrane_loop_text df already rows :
  Forall (fun r => exists t, fst r = TextLabel t) rows ->
  fst (cochrane_loop df already rows) = [].
Proof.
  induction 1 as [|[l row] rows [t Ht] _ IH]; [reflexivity|].
  cbn [fst] in Ht. subst l. rewrite cochrane_loop_cons_text. exact IH.
Qed.

Lemma cochrane_loop_labelled df already rows : forall i,
  labelled_from i rows ->
  tagged_from Cochrane (already + i) (fst (cochrane_loop df already rows))
  /\ List.length (fst (cochrane_loop df already rows)) = List.length rows
  /\ snd (cochrane_loop df already rows) = [].
Proof.
  induction rows as [|[l row] t IH]; intros i H.
  - simpl. split; [apply tagged_from_nil|auto].
  - assert (Hl : l = IntLabel i).
    { rewrite (H O l row eq_refl). f_equal. simpl. lia. }
    assert (Ht : labelled_from (i + 1) t).
    { intros k l' row' Hk. rewrite (H (S k) l' row' Hk). f_equal. lia. }
    subst l. rewrite cochrane_loop_cons_int. cbn [fst snd].
    destruct (IH (i + 1) Ht) as (T & L & O). split; [|split].
    + apply tagged_from_cons.
      * intros a Ha. inversion Ha; subst. cbn. split; [reflexivity|lia].
      * replace (already + i + 1) with (already + (i + 1)) by lia. exact T.
    + simpl. rewrite L. reflexivity.
    + exact O.
Qed.

Lemma nth_error_middle {A} (l1 : list A) x l2 :
  nth_error (l1 ++ x :: l2) (List.length l1) = Some x.
Proof. induction l1 as [|y l1 IH]; [reflexivity|exact IH]. Qed.

Lemma provider_part_tagged env terms cap s :
  tagged_from PubMed 0 (provider_part env terms cap s).
Proof.
  unfold provider_part. destruct (pubmed_var (inputs s)).
  - apply search_pubmed_tagged.
  - apply tagged_from_nil.
Qed.

Lemma import_part_tagged env s already :
  default_import env s ->
  tagged_from Cochrane already (import_part env s already).
Proof.
  unfold import_part, default_import, default_index. intros Hd.
  destruct (_ && _)%bool; [|apply tagged_from_nil].
  destruct (read_csv env _) as [df|e]; [|apply tagged_from_nil].
  replace already with (already + 0) at 1 by lia.
  apply cochrane_loop_labelled. apply Hd. reflexivity.
Qed.

Lemma import_part_read env s already df :
  import_enabled s = true ->
  read_csv env (cochrane_file_var (inputs s)) = Ok df ->
  import_part env s already
  = fst (cochrane_loop df already (Csv.iterrows df)).
Proof.
  unfold import_part, import_enabled. intros -> ->. reflexivity.
Qed.

(** ** The three blocks of [perform_search] *)

Lemma search_provider_run env terms cap s :
  exists s',
    search_provider env terms cap s = (s', Ok tt)
    /\ all_articles s'
       = (all_articles s ++ provider_part env terms cap s)%list
    /\ current_index s' = current_index s
    /\ kept s' = kept s /\ files s' = files s /\ dialogs s' = dialogs s.
Proof.
  unfold search_provider, provider_part, bind, gets. cbn [fst snd].
  destruct (pubmed_var (inputs s)).
  - cbn [progress_set widget modify email set_widgets].
    destruct (search_pubmed (provider env) (email s) terms cap) as [p out].
    eexists. split; [reflexivity|]. cbn. auto.
  - eexists. split; [reflexivity|]. cbn. rewrite app_nil_r. auto.
Qed.

Lemma load_import_run env s :
  exists s',
    load_import env s = (s', Ok tt)
    /\ all_articles s'
       = (all_articles s ++ import_part env s (Py.len (all_articles s)))%list
    /\ current_index s' = current_index s
    /\ kept s' = kept s /\ files s' = files s.
Proof.
  unfold load_import, import_part, load_cochrane_csv, bind, gets.
  cbn [fst snd].
  destruct (cochrane_var (inputs s)
            && Py.truthy (cochrane_file_var (inputs s)))%bool.
  - cbn [progress_set widget modify].
    destruct (read_csv env (cochrane_file_var (inputs s))) as [df|e].
    + unfold bind, gets. cbn [fst snd].
      destruct (cochrane_loop df _ (Csv.iterrows df)) as [l out].
      eexists. split; [reflexivity|]. cbn. auto.
    + eexists. split; [reflexivity|]. cbn. auto.
  - eexists. split; [reflexivity|]. cbn. rewrite app_nil_r. auto.
Qed.

Lemma finish_search_run env s :
  let s' := exec (finish_search env) s in
  all_articles s' = all_articles s
  /\ (current_index s' = current_index s \/ current_index s' = 0)
  /\ kept s' = kept s
  /\ (all_articles s = [] -> current_index s' = current_index s)
  /\ (all_articles s <> [] ->
      to_csv env "search_results.csv" (all_articles s) = Ok tt ->
      (exists l, items (all_articles s) = Ok l) ->
      current_index s' = 0).
Proof.
  unfold finish_search, exec, bind, gets. cbn [fst snd].
  destruct (is_empty (all_articles s)) eqn:Ee.
  - cbn. repeat split; auto. intros Hne.
    destruct (all_articles s); [congruence|discriminate].
  - unfold save_search_results, bind, gets, lift. cbn [fst snd]. rewrite Ee.
    destruct (to_csv env "search_results.csv" (all_articles s)) as [[]|e].
    + cbn [modify].
      unfold display_search_results, bind, gets, lift, widget, modify.
      cbn [fst snd all_articles set_widgets set_files].
      destruct (items (all_articles s)) as [l|e].
      * cbn [progress_set widget modify].
        match goal with |- context [update_screening_display ?x] =>
          destruct (wo_update_screening_display x) as [w Hw];
          unfold exec in Hw; rewrite Hw end.
        cbn. repeat split; auto.
        intros He. rewrite He in Ee. discriminate.
      * cbn. repeat split; auto.
        intros _ _ [l Hl]. discriminate.
    + cbn. repeat split; auto.
      intros _ H. discriminate.
Qed.

Lemma perform_search_body_run env terms cap s :
  let s' := exec (perform_search_body env terms cap) s in
  let batch := aggregate env terms cap s in
  all_articles s' = batch
  /\ (current_index s' = current_index s \/ current_index s' = 0)
  /\ kept s' = kept s
  /\ (batch = [] -> current_index s' = current_index s)
  /\ (batch <> [] ->
      to_csv env "search_results.csv" batch = Ok tt ->
      (exists l, items batch = Ok l) ->
      current_index s' = 0).
Proof.
  destruct (search_provider_run env terms cap (set_all_articles [] s))
    as (s1 & R1 & A1 & C1 & K1 & F1 & _).
  destruct (load_import_run env s1) as (s2 & R2 & A2 & C2 & K2 & F2).
  destruct (finish_search_run env s2) as (A3 & D3 & K3 & E3 & N3).
  assert (Hb : all_articles s2 = aggregate env terms cap s).
  { rewrite A2, A1. cbn [all_articles set_all_articles app].
    unfold aggregate, import_part, provider_part.
    assert (Hi : inputs s1 = inputs s) by (inversion K1; reflexivity).
    rewrite Hi. reflexivity. }
  unfold exec, perform_search_body, bind in *. cbn [modify].
  rewrite R1, R2. cbv zeta. rewrite A3, K3, K2, K1, Hb in *.
  rewrite C2, C1 in D3. cbn [current_index set_all_articles] in D3.
  repeat split; auto.
  - intros H. rewrite (E3 H), C2, C1. reflexivity.
Qed.

Lemma perform_search_run env terms cap s :
  outcome (perform_search env terms cap) s = Ok tt
  /\ all_articles (exec (perform_search env terms cap) s)
     = all_articles (exec (perform_search_body env terms cap) s)
  /\ current_index (exec (perform_search env terms cap) s)
     = current_index (exec (perform_search_body env terms cap) s)
  /\ kept (exec (perform_search env terms cap) s)
     = kept (exec (perform_search_body env terms cap) s).
Proof.
  unfold perform_search, try_finally, try_except, exec, outcome.
  destruct (perform_search_body env terms cap s) as [s1 [[]|e]]; cbn; auto.
Qed.

(** ** Loading a batch *)

Lemma kept_fields s s' :
  kept s' = kept s ->
  included_articles s' = included_articles s
  /\ excluded_articles s' = excluded_articles s
  /\ inputs s' = inputs s /\ email s' = email s.
Proof. unfold kept. intros H. inversion H. auto. Qed.

(** C1, as the code has it.  A retrieval never raises.  It replaces the
    article list by the batch it aggregates and leaves the included and
    the excluded lists as they were; the cursor is left where it was or
    put at 0.  When the batch is empty the session
    is Empty and the cursor is left where it was.  When the batch is not
    empty, holds no [None], and the snapshot file is written, the cursor
    is 0 and the session is Reviewing. *)
Theorem perform_search_load env terms cap s :
  let batch := aggregate env terms cap s in
  let s' := exec (perform_search env terms cap) s in
  outcome (perform_search env terms cap) s = Ok tt
  /\ all_articles s' = batch
  /\ included_articles s' = included_articles s
  /\ excluded_articles s' = excluded_articles s
  /\ (current_index s' = current_index s \/ current_index s' = 0)
  /\ (batch = [] ->
      state_of s' = Empty /\ current_index s' = current_index s)
  /\ (batch <> [] ->
      to_csv env "search_results.csv" batch = Ok tt ->
      (exists l, items batch = Ok l) ->
      current_index s' = 0 /\ state_of s' = Reviewing).
Proof.
  cbv zeta.
  destruct (perform_search_run env terms cap s) as (Ho & Ha & Hc & Hk).
  destruct (perform_search_body_run env terms cap s) as (Ba & Bd & Bk & Be & Bn).
  cbv zeta in *. rewrite Ha, Hc. rewrite Bk in Hk.
  destruct (kept_fields Hk) as (Hinc & Hexc & _).
  split; [exact Ho|]. split; [exact Ba|]. split; [exact Hinc|].
  split; [exact Hexc|]. split; [exact Bd|]. split.
  - intros H. split; [|apply Be; exact H].
    unfold state_of. rewrite Ha, Ba, H. reflexivity.
  - intros Hne Hs Hi. pose proof (Bn Hne Hs Hi) as H0.
    split; [exact H0|].
    unfold state_of. rewrite Ha, Hc, Ba, H0.
    destruct (aggregate env terms cap s) as [|x l]; [congruence|].
    reflexivity.
Qed.

(** The theorem on a fresh object and a provider with one record. *)
Lemma perform_search_load_witness :
  let env := sample_env [sample_record "Only" "7"] in
  aggregate env "cancer" 100 init <> []
  /\ to_csv env "search_results.csv" (aggregate env "cancer" 100 init) = Ok tt
  /\ (exists l, items (aggregate env "cancer" 100 init) = Ok l)
  /\ current_index one_loaded = 0 /\ state_of one_loaded = Reviewing.
Proof.
  intro env.
  assert (H1 : aggregate env "cancer" 100 init <> []) by discriminate.
  assert (H3 : exists l, items (aggregate env "cancer" 100 init) = Ok l)
    by (eexists; reflexivity).
  split; [exact H1|split; [reflexivity|split; [exact H3|]]].
  destruct (perform_search_load env "cancer" 100 init)
    as (_ & _ & _ & _ & _ & _ & H).
  exact (H H1 eq_refl H3).
Defined.

(** The claim C1 as the specification words it: a retrieval would empty
    the two decision lists and always put the cursor at 0.  A retrieval
    started after one article was included loads its batch and the
    included list still holds the old snapshot; a retrieval that finds
    nothing, started with the cursor at 1, leaves the cursor at 1. *)
Lemma perform_search_load_counterexample :
  let s' := exec (perform_search (sample_env [sample_record "Fresh" "9"])
                                 "cancer" 100) one_decided in
  List.length (all_articles s') = 1%nat
  /\ included_articles s' <> []
  /\ all_articles stale_empty = []
  /\ current_index stale_empty <> 0.
Proof. vm_compute. repeat split; discriminate. Qed.

(** ** Records the normalizer cannot parse *)

Lemma length_parsed_from records : forall i,
  List.length (parsed_from i records) = List.length records.
Proof. induction records as [|r t IH]; intro i; simpl; auto. Qed.

Lemma nth_error_parsed_from records : forall i k record,
  nth_error records k = Some record ->
  nth_error (parsed_from i records) k
  = Some (fst (parse_pubmed_record record (i + Z.of_nat k + 1))).
Proof.
  induction records as [|r t IH]; intros i [|k] record H; simpl in H;
    try discriminate.
  - inversion H; subst. cbn [parsed_from nth_error].
    replace (i + Z.of_nat 0 + 1) with (i + 1) by lia. reflexivity.
  - cbn [parsed_from nth_error]. rewrite (IH (i + 1) k record H).
    replace (i + 1 + Z.of_nat k + 1) with (i + Z.of_nat (S k) + 1) by lia.
    reflexivity.
Qed.

(** C2, as the code has it.  When the [try] block of
    [parse_pubmed_record] raises on a record, the function returns
    [None] and [search_pubmed] appends that [None]: the batch has one
    element per record, and [None] at the place of the record that could
    not be parsed. *)
Theorem malformed_record_stays_in_batch records i articles k record e :
  nth_error records k = Some record ->
  parse_pubmed_record_body record (i + Z.of_nat k + 1) = Raise e ->
  let batch := fst (search_pubmed_loop records i articles) in
  List.length batch = (List.length articles + List.length records)%nat
  /\ nth_error batch (List.length articles + k) = Some None.
Proof.
  intros Hk He. cbv zeta. rewrite search_pubmed_loop_parsed. split.
  - rewrite length_app, length_parsed_from. reflexivity.
  - rewrite nth_error_app2 by lia.
    replace (List.length articles + k - List.length articles)%nat with k by lia.
    rewrite (nth_error_parsed_from _ i _ Hk).
    unfold parse_pubmed_record. rewrite He. reflexivity.
Qed.

(** The theorem on three records, the second without
    ['MedlineCitation']. *)
Lemma malformed_record_stays_in_batch_witness :
  let records := [sample_record "First" "1"; malformed_record;
                  sample_record "Third" "3"] in
  nth_error records 1 = Some malformed_record
  /\ parse_pubmed_record_body malformed_record (0 + Z.of_nat 1 + 1)
     = Raise KeyError
  /\ List.length (fst (search_pubmed_loop records 0 [])) = 3%nat
  /\ nth_error (fst (search_pubmed_loop records 0 [])) 1 = Some None.
Proof.
  intro records. split; [reflexivity|split; [reflexivity|]].
  exact (@malformed_record_stays_in_batch records 0 [] 1%nat malformed_record
           KeyError eq_refl eq_refl).
Defined.

(** What the [None] does to the retrieval: the preview subscripts it, the
    search ends with an error dialog, and the batch with the [None] in it
    is what the session holds. *)
Example malformed_record_aborts_search :
  let s' := exec (perform_search
                    (sample_env [sample_record "First" "1"; malformed_record;
                                 sample_record "Third" "3"]) "cancer" 100)
                 init in
  map (option_map Sr_No) (all_articles s') = [Some 1; None; Some 3]
  /\ dialogs s'
     = [mkDialog showerror "Search Error"
                 (TextExn "An error occurred during search" TypeError)]
  /\ console s' = [ErrorParsingBiopythonRecord KeyError]
  /\ progress_var (widgets s') = SearchError TypeError.
Proof. vm_compute. repeat split. Qed.

(** ** Sequence numbers of a batch *)

Lemma batch_positions p c k a :
  tagged_from PubMed 0 p -> tagged_from Cochrane (Py.len p) c ->
  nth_error (p ++ c) k = Some (Some a) ->
  Sr_No a = Z.of_nat k + 1
  /\ ((k < List.length p)%nat -> Source a = PubMed)
  /\ ((List.length p <= k)%nat -> Source a = Cochrane).
Proof.
  intros Hp Hc H.
  destruct (Nat.lt_ge_cases k (List.length p)) as [Hk|Hk].
  - rewrite nth_error_app1 in H by assumption.
    destruct (Hp _ _ H) as [Hs Hn]. repeat split; [lia|auto|lia].
  - rewrite nth_error_app2 in H by assumption.
    destruct (Hc _ _ H) as [Hs Hn]. unfold Py.len in Hn.
    repeat split; [lia|lia|auto].
Qed.

(** C6, as the code has it.  The number of an imported article is the
    number of elements aggregated before the import, plus the label of
    its row, plus 1: [load_cochrane_csv] adds the label [df.iterrows()]
    yields, not the position of the row.  So with the import enabled and
    the file read: every row with an integer label gives an article of
    the batch, after the provider part, with that number; two rows with
    the same label give two articles with the same number; and when
    every label is a text the import adds nothing to the batch. *)
Theorem import_numbers_follow_labels env terms cap s df :
  import_enabled s = true ->
  read_csv env (cochrane_file_var (inputs s)) = Ok df ->
  let batch := all_articles (exec (perform_search env terms cap) s) in
  let p := provider_part env terms cap s in
  (forall before z row after,
      Csv.iterrows df = (before ++ (IntLabel z, row) :: after)%list ->
      exists k a,
        (List.length p <= k)%nat
        /\ nth_error batch k = Some (Some a)
        /\ Source a = Cochrane /\ Sr_No a = Py.len p + z + 1)
  /\ (forall r1 z row1 r2 row2 r3,
        Csv.iterrows df
        = (r1 ++ (IntLabel z, row1) :: r2 ++ (IntLabel z, row2) :: r3)%list ->
        exists i j a b,
          (i < j)%nat
          /\ nth_error batch i = Some (Some a)
          /\ nth_error batch j = Some (Some b)
          /\ Sr_No a = Sr_No b)
  /\ (Forall (fun r => exists t, fst r = TextLabel t) (Csv.iterrows df) ->
      batch = p).
Proof.
  intros Hen Hread. cbv zeta.
  destruct (perform_search_run env terms cap s) as (_ & Ha & _).
  destruct (perform_search_body_run env terms cap s) as (Ba & _).
  cbv zeta in Ba. rewrite Ha, Ba. unfold aggregate.
  rewrite (import_part_read env s _ Hen Hread).
  set (p := provider_part env terms cap s).
  split; [|split].
  - intros before z row after E. rewrite E, cochrane_loop_app.
    rewrite cochrane_loop_cons_int. cbn [fst].
    set (l1 := fst (cochrane_loop df (Py.len p) before)).
    exists (List.length (p ++ l1)), (cochrane_article df (Py.len p) z row).
    split; [rewrite length_app; lia|].
    split; [rewrite app_assoc; apply nth_error_middle|].
    split; reflexivity.
  - intros r1 z row1 r2 row2 r3 E. rewrite E, cochrane_loop_app.
    rewrite cochrane_loop_cons_int. cbn [fst].
    rewrite cochrane_loop_app, cochrane_loop_cons_int. cbn [fst].
    set (l1 := fst (cochrane_loop df (Py.len p) r1)).
    set (l2 := fst (cochrane_loop df (Py.len p) r2)).
    set (l3 := fst (cochrane_loop df (Py.len p) r3)).
    set (a := cochrane_article df (Py.len p) z row1).
    set (b := cochrane_article df (Py.len p) z row2).
    exists (List.length (p ++ l1)),
           (List.length ((p ++ l1) ++ Some a :: l2)), a, b.
    split; [rewrite !length_app; simpl; lia|].
    split; [rewrite app_assoc; apply nth_error_middle|].
    split; [|reflexivity].
    replace (p ++ l1 ++ Some a :: l2 ++ Some b :: l3)%list
      with (((p ++ l1) ++ Some a :: l2) ++ Some b :: l3)%list.
    + apply nth_error_middle.
    + rewrite <- !app_assoc. reflexivity.
  - intros Ht. rewrite (cochrane_loop_text df _ Ht). apply app_nil_r.
Qed.

(** The theorem on one provider record and a frame whose two rows are
    both labelled 7: the batch holds the numbers 1, 9 and 9. *)
Lemma import_numbers_follow_labels_witness :
  let env := mkEnv (sample_provider [sample_record "First" "1"])
                   (fun _ => Ok repeated_labels_frame) (fun _ _ => Ok tt) in
  let s := with_csv_file "cochrane.csv" init in
  let batch := all_articles (exec (perform_search env "cancer" 100) s) in
  import_enabled s = true
  /\ read_csv env (cochrane_file_var (inputs s)) = Ok repeated_labels_frame
  /\ map (option_map Sr_No) batch = [Some 1; Some 9; Some 9]
  /\ exists i j a b,
       (i < j)%nat
       /\ nth_error batch i = Some (Some a)
       /\ nth_error batch j = Some (Some b)
       /\ Sr_No a = Sr_No b.
Proof.
  intros env s batch.
  split; [reflexivity|]. split; [reflexivity|]. split; [reflexivity|].
  destruct (@import_numbers_follow_labels env "cancer" 100 s
              repeated_labels_frame eq_refl eq_refl) as (_ & H & _).
  exact (H [] 7 _ [] _ [] eq_refl).
Defined.

End Retrieval.

(* ===================================================================== *)
(** * Properties of the search form *)
(* ===================================================================== *)

Section SearchForm.




End SearchForm.

(* ===================================================================== *)
(** * Properties of the export *)
(* ===================================================================== *)

Section ExportFiles.

Lemma backfill_items included excluded l : forall d,
  items l = Ok d ->
  snd (backfill included excluded l) = Ok tt
  /\ List.length (fst (backfill included excluded l)) = List.length l.
Proof.
  induction l as [|[a|] t IH]; intros d H; simpl in *; auto; try discriminate.
  destruct (items t) as [d'|e]; [|discriminate].
  destruct (IH d' eq_refl) as [Hr Hl].
  destruct (backfill included excluded t) as [t' r]. simpl in *. auto.
Qed.




End ExportFiles.

(* ===================================================================== *)
(** * Further properties of the review session *)
(* ===================================================================== *)

Section SessionInvariants.

(** ** The four operations, step by step *)

Lemma run_op_cases s o :
  let s' := exec (run_op o) s in
  (all_articles s' = all_articles s
   /\ included_articles s' = included_articles s
   /\ excluded_articles s' = excluded_articles s)
  \/ (exists now live,
        o = Include now
        /\ cursor_on_article s = true
        /\ Py.getitem (all_articles s) (current_index s) = Some (Some live)
        /\ all_articles s'
           = Py.setitem (all_articles s) (Z.to_nat (current_index s))
                        (Some (set_Status Included live))
        /\ included_articles s'
           = (included_articles s ++ [snapshot Included now live])%list
        /\ excluded_articles s' = excluded_articles s)
  \/ (exists now live,
        o = Exclude now
        /\ cursor_on_article s = true
        /\ Py.getitem (all_articles s) (current_index s) = Some (Some live)
        /\ all_articles s'
           = Py.setitem (all_articles s) (Z.to_nat (current_index s))
                        (Some (set_Status Excluded live))
        /\ excluded_articles s'
           = (excluded_articles s ++ [snapshot Excluded now live])%list
        /\ included_articles s' = included_articles s).
Proof.
  destruct o as [now|now| |]; cbn [run_op].
  - destruct (cursor_on_article s) eqn:Hg.
    + pose proof (proj1 (cursor_on_article_iff s) Hg) as Hr.
      destruct (getitem_some_in_range (all_articles s) Hr) as [[live|] Hi].
      * right; left. exists now, live.
        destruct (@include_article_fields s now live Hg Hi) as (Ha & Hi' & He & _).
        auto 10.
      * left. unfold exec. rewrite (@include_article_on_None s now Hg Hi). auto.
    + left. unfold exec. rewrite (@include_article_off s now Hg). auto.
  - destruct (cursor_on_article s) eqn:Hg.
    + pose proof (proj1 (cursor_on_article_iff s) Hg) as Hr.
      destruct (getitem_some_in_range (all_articles s) Hr) as [[live|] Hi].
      * right; right. exists now, live.
        destruct (@exclude_article_fields s now live Hg Hi) as (Ha & He & Hi' & _).
        auto 10.
      * left. unfold exec. rewrite (@exclude_article_on_None s now Hg Hi). auto.
    + left. unfold exec. rewrite (@exclude_article_off s now Hg). auto.
  - left. destruct (next_article_fields s) as (Ha & Hi & He & _). auto.
  - left. destruct (previous_article_fields s) as (Ha & Hi & He & _). auto.
Qed.

(** ** The article list under the operations *)

Lemma same_record_refl a : same_record a a.
Proof. unfold same_record. auto 10. Qed.

Lemma same_record_trans a b c :
  same_record a b -> same_record b c -> same_record a c.
Proof.
  unfold same_record.
  intros (H1 & H2 & H3 & H4 & H5 & H6) (G1 & G2 & G3 & G4 & G5 & G6).
  repeat split; congruence.
Qed.

Lemma same_but_status_refl e : same_but_status e e.
Proof.
  destruct e as [a|]; cbn; auto using same_record_refl.
Qed.

Lemma same_but_status_trans e1 e2 e3 :
  same_but_status e1 e2 -> same_but_status e2 e3 -> same_but_status e1 e3.
Proof.
  destruct e1 as [a|], e2 as [b|], e3 as [c|]; cbn; try tauto.
  intros (R1 & D1 & S1) (R2 & D2 & S2).
  split; [eapply same_record_trans; eassumption|]. split; [congruence|auto].
Qed.

Lemma Forall2_same_refl (l : list entry) : Forall2 same_but_status l l.
Proof. induction l; constructor; auto using same_but_status_refl. Qed.

Lemma Forall2_same_trans (l1 : list entry) : forall l2 l3,
  Forall2 same_but_status l1 l2 -> Forall2 same_but_status l2 l3 ->
  Forall2 same_but_status l1 l3.
Proof.
  induction l1 as [|x l1 IH]; intros l2 l3 H12 H23;
    inversion H12; subst; inversion H23; subst; constructor.
  - eapply same_but_status_trans; eassumption.
  - eapply IH; eassumption.
Qed.

Lemma Forall2_same_setitem (l : list entry) : forall i live st,
  nth_error l i = Some (Some live) -> st <> Pending ->
  Forall2 same_but_status l (Py.setitem l i (Some (set_Status st live))).
Proof.
  induction l as [|x l IH]; intros [|i] live st H Hst; simpl in *;
    try discriminate.
  - inversion H; subst. constructor; [|apply Forall2_same_refl].
    cbn. split; [unfold same_record; cbn; auto 10|].
    split; [reflexivity|auto].
  - constructor; [apply same_but_status_refl|]. apply IH; assumption.
Qed.

Lemma run_op_keeps_articles s o :
  Forall2 same_but_status (all_articles s) (all_articles (exec (run_op o) s)).
Proof.
  destruct (run_op_cases s o)
    as [(Ha & _)|[(now & live & _ & Hg & Hi & Ha & _)
                 |(now & live & _ & Hg & Hi & Ha & _)]];
    cbv zeta in Ha; rewrite Ha.
  - apply Forall2_same_refl.
  - rewrite getitem_in_range in Hi by (apply cursor_on_article_iff; exact Hg).
    apply Forall2_same_setitem; [exact Hi|discriminate].
  - rewrite getitem_in_range in Hi by (apply cursor_on_article_iff; exact Hg).
    apply Forall2_same_setitem; [exact Hi|discriminate].
Qed.

Lemma run_ops_keep_articles_aux ops : forall s,
  Forall2 same_but_status (all_articles s) (all_articles (run_ops ops s)).
Proof.
  induction ops as [|o rest IH]; intro s; cbn [run_ops].
  - apply Forall2_same_refl.
  - eapply Forall2_same_trans; [apply run_op_keeps_articles|apply IH].
Qed.

(** Whatever the reviewer does with the four buttons, the article list
    keeps its length and its order; a [None] in it stays a [None]; an
    article keeps its sequence number, title, identifier, abstract,
    authors and source, and the session operations never give it a
    decision date; and an article that has left ['Pending'] never goes
    back to it. *)
Theorem run_ops_keep_articles ops s :
  List.length (all_articles (run_ops ops s)) = List.length (all_articles s)
  /\ Forall2 same_but_status (all_articles s) (all_articles (run_ops ops s)).
Proof.
  pose proof (run_ops_keep_articles_aux ops s) as H.
  split; [symmetry; eapply Forall2_length; exact H|exact H].
Qed.

(** ** The decision lists under the operations *)

Lemma snapshot_of_earlier st (l l' : list entry) a :
  Forall2 same_but_status l l' -> snapshot_of st l' a -> snapshot_of st l a.
Proof.
  intros HF (Hs & Hd & k & live & Hk & Hr).
  split; [exact Hs|]. split; [exact Hd|].
  revert k Hk. induction HF as [|x y l l' Hxy HF IH]; intros [|k] Hk;
    simpl in Hk; try discriminate.
  - inversion Hk; subst. destruct x as [b|]; [|contradiction].
    exists O, b. split; [reflexivity|].
    destruct Hxy as (Hbl & _). eapply same_record_trans; eassumption.
  - destruct (IH k Hk) as (k' & live' & Hk' & Hr').
    exists (S k'), live'. auto.
Qed.

Lemma snapshot_is_snapshot_of st now live (l : list entry) k :
  nth_error l k = Some (Some live) ->
  snapshot_of st l (snapshot st now live).
Proof.
  intros H. split; [reflexivity|]. split; [discriminate|].
  exists k, live. split; [exact H|]. unfold same_record. cbn. auto 10.
Qed.

Lemma run_op_decisions s o :
  exists inc exc,
    included_articles (exec (run_op o) s) = (included_articles s ++ inc)%list
    /\ excluded_articles (exec (run_op o) s) = (excluded_articles s ++ exc)%list
    /\ (List.length inc + List.length exc <= decisions_in [o])%nat
    /\ Forall (snapshot_of Included (all_articles s)) inc
    /\ Forall (snapshot_of Excluded (all_articles s)) exc.
Proof.
  destruct (run_op_cases s o)
    as [(_ & Hi & He)|[(now & live & Ho & Hg & Hl & _ & Hi & He)
                      |(now & live & Ho & Hg & Hl & _ & He & Hi)]];
    cbv zeta in Hi, He.
  - exists [], []. rewrite Hi, He, !app_nil_r.
    repeat split; auto. simpl. lia.
  - exists [snapshot Included now live], []. rewrite Hi, He, app_nil_r. subst o.
    rewrite getitem_in_range in Hl by (apply cursor_on_article_iff; exact Hg).
    repeat split; auto.
    constructor; [|constructor].
    eapply snapshot_is_snapshot_of; exact Hl.
  - exists [], [snapshot Excluded now live]. rewrite Hi, He, app_nil_r. subst o.
    rewrite getitem_in_range in Hl by (apply cursor_on_article_iff; exact Hg).
    repeat split; auto.
    constructor; [|constructor].
    eapply snapshot_is_snapshot_of; exact Hl.
Qed.

(** The decision lists only grow: after any sequence of operations each
    list is the old one followed by new snapshots, in the order the
    decisions were taken.  There are at most as many new snapshots as
    there were include and exclude operations.  Each new snapshot carries
    the verdict of its list and a decision date, and copies an article
    of the batch (same sequence number, title, identifier, abstract,
    authors and source). *)
Theorem run_ops_decisions ops : forall s,
  exists inc exc,
    included_articles (run_ops ops s) = (included_articles s ++ inc)%list
    /\ excluded_articles (run_ops ops s) = (excluded_articles s ++ exc)%list
    /\ (List.length inc + List.length exc <= decisions_in ops)%nat
    /\ Forall (snapshot_of Included (all_articles s)) inc
    /\ Forall (snapshot_of Excluded (all_articles s)) exc.
Proof.
  induction ops as [|o rest IH]; intro s; cbn [run_ops].
  - exists [], []. rewrite !app_nil_r. repeat split; auto.
  - destruct (run_op_decisions s o) as (i1 & e1 & Hi1 & He1 & Hn1 & Fi1 & Fe1).
    destruct (IH (exec (run_op o) s)) as (i2 & e2 & Hi2 & He2 & Hn2 & Fi2 & Fe2).
    exists (i1 ++ i2)%list, (e1 ++ e2)%list.
    rewrite Hi2, He2, Hi1, He1, <- !app_assoc.
    split; [reflexivity|]. split; [reflexivity|]. split.
    + rewrite !length_app.
      assert (decisions_in (o :: rest)
              = (decisions_in [o] + decisions_in rest)%nat)
        by (destruct o; reflexivity).
      lia.
    + pose proof (run_op_keeps_articles s o) as HF.
      split; apply Forall_app; split; auto;
        eapply Forall_impl; try eassumption;
        intros a Ha; eapply snapshot_of_earlier; eassumption.
Qed.

End SessionInvariants.

(* ===================================================================== *)
(** * Properties of the article display *)
(* ===================================================================== *)

Section ArticleDisplay.

Lemma insert_all_run spans : forall s,
  insert_all spans s
  = (showing (article_display (widgets s) ++ spans) s, Ok tt).
Proof.
  induction spans as [|[x g] l IH]; intro s.
  - cbn [insert_all ret]. rewrite app_nil_r.
    destruct s as [a i inc exc k e inp w d c f]. destruct w. reflexivity.
  - cbn [insert_all]. unfold bind at 1.
    cbn [article_display_insert widget modify]. rewrite IH.
    unfold showing. cbn. rewrite <- app_assoc. reflexivity.
Qed.

Lemma highlight_spans_text keywords text tag :
  String.concat EmptyString (map fst (highlight_spans keywords text tag)) = text.
Proof.
  unfold highlight_spans. destruct keywords as [|k ks]; [reflexivity|].
  cbn [map]. rewrite map_fst_tagged. apply split_from_concat.
Qed.

Lemma concat_empty_app (l1 l2 : list string) :
  String.concat EmptyString (l1 ++ l2)
  = String.concat EmptyString l1 ++ String.concat EmptyString l2.
Proof.
  induction l1 as [|x l1 IH]; [reflexivity|].
  cbn [app]. rewrite !concat_empty_cons, IH.
  generalize (String.concat EmptyString l1) (String.concat EmptyString l2).
  intros u v. induction x as [|c x IHx]; simpl; [|rewrite IHx]; reflexivity.
Qed.

Lemma display_current_article_on s a :
  cursor_on_article s = true ->
  Py.getitem (all_articles s) (current_index s) = Some (Some a) ->
  display_current_article s
  = (showing (article_spans (inclusion_keywords s) a) s, Ok tt).
Proof.
  intros Hg Hi. pose proof (proj1 (cursor_on_article_iff s) Hg) as Hr.
  unfold display_current_article, bind at 1, gets. cbn [fst snd].
  assert (Hc : (is_empty (all_articles s)
                || (current_index s >=? Py.len (all_articles s)))%bool = false).
  { apply orb_false_iff. split.
    - destruct (all_articles s); [unfold Py.len in Hr; simpl in Hr; lia|reflexivity].
    - rewrite Z.geb_leb. apply Z.leb_gt. lia. }
  rewrite Hc. unfold bind at 1, lift, index. rewrite Hi.
  unfold bind at 1. cbn [article_display_delete widget modify].
  unfold bind at 1. cbn [lift item].
  unfold bind at 1. cbn [article_display_insert widget modify].
  unfold bind at 1. cbn [article_display_insert widget modify].
  unfold bind at 1. cbn [article_display_insert widget modify].
  unfold bind at 1, insert_text_with_highlights, bind at 1, gets.
  cbn [fst snd]. rewrite insert_all_run.
  unfold showing, article_spans. cbn. reflexivity.
Qed.

Lemma display_current_article_on_None s :
  cursor_on_article s = true ->
  Py.getitem (all_articles s) (current_index s) = Some None ->
  display_current_article s = (showing [] s, Raise TypeError).
Proof.
  intros Hg Hi. pose proof (proj1 (cursor_on_article_iff s) Hg) as Hr.
  unfold display_current_article, bind at 1, gets. cbn [fst snd].
  assert (Hc : (is_empty (all_articles s)
                || (current_index s >=? Py.len (all_articles s)))%bool = false).
  { apply orb_false_iff. split.
    - destruct (all_articles s); [unfold Py.len in Hr; simpl in Hr; lia|reflexivity].
    - rewrite Z.geb_leb. apply Z.leb_gt. lia. }
  rewrite Hc. unfold bind at 1, lift, index. rewrite Hi.
  unfold bind at 1. cbn [article_display_delete widget modify].
  unfold bind at 1. cbn [lift item]. reflexivity.
Qed.

Lemma display_current_article_off s :
  (is_empty (all_articles s)
   || (current_index s >=? Py.len (all_articles s)))%bool = true ->
  display_current_article s
  = (showing [("No more articles to review", None)] s, Ok tt).
Proof.
  intros Hc. unfold display_current_article, bind at 1, gets. cbn [fst snd].
  rewrite Hc. reflexivity.
Qed.

(** What the reviewer reads does not depend on the keywords.  With the
    cursor on an article, [display_current_article] returns normally and
    the texts of the spans it leaves in the widget, joined in order, are
    the title, authors, identifier, abstract and source lines of that
    article, whatever the inclusion keywords are: the keywords only
    decide where the abstract is cut and which pieces are tagged.  With
    no article or the cursor past the end, the widget holds the single
    line [No more articles to review]. *)
Theorem display_text_ignores_keywords s :
  (forall a,
      cursor_on_article s = true ->
      Py.getitem (all_articles s) (current_index s) = Some (Some a) ->
      outcome display_current_article s = Ok tt
      /\ String.concat EmptyString
           (map fst (article_display (widgets (exec display_current_article s))))
         = article_text a)
  /\ ((is_empty (all_articles s)
       || (current_index s >=? Py.len (all_articles s)))%bool = true ->
      outcome display_current_article s = Ok tt
      /\ article_display (widgets (exec display_current_article s))
         = [("No more articles to review", None)]).
Proof.
  split.
  - intros a Hg Hi. unfold outcome, exec.
    rewrite (@display_current_article_on s a Hg Hi).
    split; [reflexivity|]. cbn [fst showing widgets set_widgets
                                 article_display set_article_display].
    unfold article_spans, article_text. cbn [map fst].
    rewrite !concat_empty_cons, map_app, concat_empty_app.
    rewrite highlight_spans_text. cbn [map fst].
    rewrite concat_empty_cons. cbn [String.concat].
    rewrite append_empty_r. reflexivity.
  - intros Hc. unfold outcome, exec.
    rewrite (@display_current_article_off s Hc). split; reflexivity.
Qed.

(** The theorem on the first of two loaded articles. *)
Lemma display_text_ignores_keywords_witness :
  let a := mkArticle 1 (Some "First") "PMID: 1" "Background. Results."
                     "Doe Jane" PubMed Pending None in
  let s := set_inclusion_keywords ["results"] two_loaded in
  cursor_on_article s = true
  /\ Py.getitem (all_articles s) (current_index s) = Some (Some a)
  /\ String.concat EmptyString
       (map fst (article_display (widgets (exec display_current_article s))))
     = article_text a.
Proof.
  intros a s. split; [reflexivity|split; [reflexivity|]].
  destruct (display_text_ignores_keywords s) as [H _].
  exact (proj2 (H a eq_refl eq_refl)).
Defined.

End ArticleDisplay.

(* ===================================================================== *)
(** * Moving through the list *)
(* ===================================================================== *)

Section Navigation.

Lemma update_results_summary_run s :
  update_results_summary s = (summarised s, Ok tt).
Proof. reflexivity. Qed.

Lemma is_empty_false_on s :
  cursor_on_article s = true -> is_empty (all_articles s) = false.
Proof.
  intros Hg. pose proof (proj1 (cursor_on_article_iff s) Hg) as Hr.
  destruct (all_articles s); [unfold Py.len in Hr; simpl in Hr; lia|reflexivity].
Qed.

Lemma update_screening_display_on s a :
  cursor_on_article s = true ->
  Py.getitem (all_articles s) (current_index s) = Some (Some a) ->
  update_screening_display s
  = (summarised (showing (article_spans (inclusion_keywords s) a)
                         (announcing s)), Ok tt).
Proof.
  intros Hg Hi.
  unfold update_screening_display, bind at 1, gets. cbn [fst snd].
  rewrite (@is_empty_false_on s Hg).
  unfold bind at 1. cbn [widget modify]. fold (announcing s).
  unfold bind at 1.
  rewrite (@display_current_article_on (announcing s) a Hg Hi).
  reflexivity.
Qed.

Lemma update_screening_display_on_None s :
  cursor_on_article s = true ->
  Py.getitem (all_articles s) (current_index s) = Some None ->
  update_screening_display s = (showing [] (announcing s), Raise TypeError).
Proof.
  intros Hg Hi.
  unfold update_screening_display, bind at 1, gets. cbn [fst snd].
  rewrite (@is_empty_false_on s Hg).
  unfold bind at 1. cbn [widget modify]. fold (announcing s).
  unfold bind at 1.
  rewrite (@display_current_article_on_None (announcing s) Hg Hi).
  reflexivity.
Qed.

(** Going forth and back, or back and forth, leaves the session where it
    was: with the cursor on an article that is not the last one,
    [next_article] followed by [previous_article] gives the same article
    list, cursor and decision lists; with the cursor on an article that
    is not the first one, so does [previous_article] followed by
    [next_article]. *)
Theorem navigation_round_trip s :
  cursor_on_article s = true ->
  (current_index s < Py.len (all_articles s) - 1 ->
   session (exec previous_article (exec next_article s)) = session s)
  /\ (0 < current_index s ->
      session (exec next_article (exec previous_article s)) = session s).
Proof.
  intros Hg. pose proof (proj1 (cursor_on_article_iff s) Hg) as Hr.
  split; intros H.
  - destruct (next_article_fields s) as (A1 & I1 & E1 & C1).
    destruct (previous_article_fields (exec next_article s))
      as (A2 & I2 & E2 & C2).
    unfold session. rewrite A2, I2, E2, C2, A1, I1, E1.
    unfold cursor_after_previous. rewrite C1. unfold cursor_after_next.
    apply Z.ltb_lt in H. rewrite H.
    destruct (current_index s + 1 >? 0) eqn:E.
    + repeat f_equal. lia.
    + rewrite Z.gtb_ltb in E. apply Z.ltb_ge in E. lia.
  - destruct (previous_article_fields s) as (A1 & I1 & E1 & C1).
    destruct (next_article_fields (exec previous_article s))
      as (A2 & I2 & E2 & C2).
    unfold session. rewrite A2, I2, E2, C2, A1, I1, E1.
    unfold cursor_after_next. rewrite C1, A1. unfold cursor_after_previous.
    assert (E : (current_index s >? 0) = true)
      by (rewrite Z.gtb_ltb; apply Z.ltb_lt; exact H).
    rewrite E.
    destruct (current_index s - 1 <? Py.len (all_articles s) - 1) eqn:E1'.
    + repeat f_equal. lia.
    + apply Z.ltb_ge in E1'. lia.
Qed.

(** The theorem on the first of two loaded articles. *)
Lemma navigation_round_trip_witness :
  cursor_on_article two_loaded = true
  /\ current_index two_loaded < Py.len (all_articles two_loaded) - 1
  /\ session (exec previous_article (exec next_article two_loaded))
     = session two_loaded.
Proof.
  split; [reflexivity|split; [reflexivity|]].
  exact (proj1 (@navigation_round_trip two_loaded eq_refl) eq_refl).
Defined.

(** A [None] in the article list.  With the cursor on a [None],
    [include_article] and [exclude_article] raise [AttributeError] and
    change nothing.  With a [None] right after the cursor,
    [next_article] moves the cursor onto it, refreshes the progress
    line, empties the article display and raises [TypeError]; the
    summary is not refreshed and the lists are untouched. *)
Theorem operations_on_None s :
  (cursor_on_article s = true ->
   Py.getitem (all_articles s) (current_index s) = Some None ->
   forall now,
     include_article now s = (s, Raise AttributeError)
     /\ exclude_article now s = (s, Raise AttributeError))
  /\ (0 <= current_index s < Py.len (all_articles s) - 1 ->
      Py.getitem (all_articles s) (current_index s + 1) = Some None ->
      next_article s
      = (showing [] (announcing (set_current_index (current_index s + 1) s)),
         Raise TypeError)).
Proof.
  split.
  - intros Hg Hi now.
    rewrite (@include_article_on_None s now Hg Hi),
            (@exclude_article_on_None s now Hg Hi). auto.
  - intros Hr Hi. unfold next_article, bind at 1, gets. cbn [fst snd].
    assert (E : (current_index s <? Py.len (all_articles s) - 1) = true)
      by (apply Z.ltb_lt; lia).
    rewrite E. unfold bind at 1. cbn [modify].
    apply update_screening_display_on_None.
    + apply cursor_on_article_iff. cbn. lia.
    + exact Hi.
Qed.

(** The theorem on a batch of three with a [None] in the middle. *)
Lemma operations_on_None_witness :
  0 <= current_index loaded_with_None
       < Py.len (all_articles loaded_with_None) - 1
  /\ Py.getitem (all_articles loaded_with_None)
                (current_index loaded_with_None + 1) = Some None
  /\ outcome next_article loaded_with_None = Raise TypeError
  /\ current_index (exec next_article loaded_with_None) = 1.
Proof.
  assert (Hr : 0 <= current_index loaded_with_None
                    < Py.len (all_articles loaded_with_None) - 1)
    by (split; [discriminate|reflexivity]).
  split; [exact Hr|]. split; [reflexivity|].
  destruct (operations_on_None loaded_with_None) as [_ H].
  unfold outcome, exec. rewrite (H Hr eq_refl). split; reflexivity.
Defined.

End Navigation.

(* ===================================================================== *)
(** * Further properties of the normalizers *)
(* ===================================================================== *)

Section Normalizers.

Lemma bio_authors_nil l :
  bio_authors l = [] <-> Forall nameless l.
Proof.
  induction l as [|a l IH]; simpl.
  - split; auto.
  - assert (Hcoll :
      match Bio.CollectiveName a with
      | Some cn => cn :: bio_authors l
      | None => bio_authors l
      end = [] <->
      Bio.CollectiveName a = None /\ Forall nameless l).
    { destruct (Bio.CollectiveName a) as [cn|].
      - split; [discriminate|intros [H _]; discriminate].
      - rewrite IH. tauto. }
    assert (Hcons : Forall nameless (a :: l) <->
                    nameless a /\ Forall nameless l).
    { split; [intros H; inversion H; auto|intros [H1 H2]; constructor; auto]. }
    rewrite Hcons. unfold nameless at 1.
    destruct (Bio.LastName a) as [ln|], (Bio.ForeName a) as [fn|].
    + split; [discriminate|]. intros [[[H|H] _] _]; discriminate.
    + rewrite Hcoll. tauto.
    + rewrite Hcoll. tauto.
    + rewrite Hcoll. tauto.
Qed.

(** What [parse_pubmed_record] returns.  It returns [None], and prints
    one line, exactly when the record lacks ['MedlineCitation'] or the
    citation lacks ['Article']; it never raises.  Otherwise it returns a
    dictionary with the number it was given, source PubMed, status
    Pending and no decision date; the title is ['No title'] when the
    article has none, the identifier is [PMID: ] followed by the id
    (nothing when there is none), and the authors are
    ['No authors listed'] when no entry of the author list gives a
    name. *)
Theorem parse_pubmed_record_outcome record sr_no :
  (fst (parse_pubmed_record record sr_no) = None <->
   Bio.MedlineCitation record = None
   \/ exists c, Bio.MedlineCitation record = Some c /\ Bio.Article_ c = None)
  /\ (fst (parse_pubmed_record record sr_no) = None ->
      snd (parse_pubmed_record record sr_no)
      = [ErrorParsingBiopythonRecord KeyError])
  /\ (forall c art,
        Bio.MedlineCitation record = Some c -> Bio.Article_ c = Some art ->
        exists a,
          parse_pubmed_record record sr_no = (Some a, [])
          /\ Sr_No a = sr_no /\ Source a = PubMed /\ Status a = Pending
          /\ Decision_Date a = None
          /\ Title a = Some (match Bio.ArticleTitle art with
                             | Some t => t | None => "No title" end)
          /\ ID_Link a = "PMID: " ++ match Bio.PMID c with
                                     | Some p => p | None => EmptyString end
          /\ (Forall nameless
                     (match Bio.AuthorList art with Some l => l | None => [] end)
              -> Authors a = "No authors listed")).
Proof.
  unfold parse_pubmed_record, parse_pubmed_record_body, subscript.
  destruct (Bio.MedlineCitation record) as [c|].
  - destruct (Bio.Article_ c) as [art|] eqn:Ea.
    + split; [|split].
      * split; [discriminate|].
        intros [H|(c' & Hc & Ha)]; [discriminate|].
        inversion Hc; subst. congruence.
      * discriminate.
      * intros c' art' Hc Ha. inversion Hc; subst c'.
        rewrite Ea in Ha. inversion Ha; subst art'.
        eexists. split; [reflexivity|]. cbn.
        repeat split.
        intros H. apply bio_authors_nil in H. rewrite H. reflexivity.
    + split; [|split].
      * split; [|reflexivity]. intros _. right. exists c. auto.
      * reflexivity.
      * intros c' art' Hc Ha. inversion Hc; subst. congruence.
  - split; [|split].
    + split; [auto|reflexivity].
    + reflexivity.
    + intros c art Hc. discriminate.
Qed.

(** The theorem on a record with a title, an id and one named author. *)
Lemma parse_pubmed_record_outcome_witness :
  exists c art a,
    Bio.MedlineCitation (sample_record "First" "1") = Some c
    /\ Bio.Article_ c = Some art
    /\ parse_pubmed_record (sample_record "First" "1") 4 = (Some a, [])
    /\ Sr_No a = 4 /\ ID_Link a = "PMID: 1".
Proof.
  eexists. eexists.
  destruct (parse_pubmed_record_outcome (sample_record "First" "1") 4)
    as (_ & _ & H).
  destruct (H _ _ eq_refl eq_refl) as (a & Hp & Hn & _ & _ & _ & _ & Hid & _).
  exists a. split; [reflexivity|]. split; [reflexivity|].
  split; [exact Hp|]. split; [exact Hn|exact Hid].
Defined.

Lemma all_str_raises l :
  all_str l = Raise TypeError <-> In None l.
Proof.
  induction l as [|[x|] l IH]; simpl.
  - split; [discriminate|contradiction].
  - destruct (all_str l) as [l'|e].
    + split; [discriminate|].
      intros [H|H]; [discriminate|]. apply IH in H. discriminate.
    + split.
      * intros H. inversion H; subst. right. apply IH. reflexivity.
      * intros [H|H]; [discriminate|]. apply IH in H. exact H.
  - split; auto.
Qed.

Lemma all_str_raises_only_TypeError l e :
  all_str l = Raise e -> e = TypeError.
Proof.
  revert e. induction l as [|[x|] l IH]; simpl; intros e H.
  - discriminate.
  - destruct (all_str l) as [l'|e']; [discriminate|].
    inversion H; subst. apply IH. reflexivity.
  - inversion H. reflexivity.
Qed.

Lemma xml_authors_None l :
  In None (xml_authors l) <-> Exists textless_collective l.
Proof.
  induction l as [|author l IH]; simpl.
  - split; [contradiction|intros H; inversion H].
  - rewrite Exists_cons. unfold textless_collective at 1.
    assert (Hcoll :
      In None
         match Xml.find "CollectiveName" author with
         | Some collective_name =>
             Xml.text collective_name :: xml_authors l
         | None => xml_authors l
         end <->
      (exists cn, Xml.find "CollectiveName" author = Some cn
                  /\ Xml.text cn = None)
      \/ Exists textless_collective l).
    { destruct (Xml.find "CollectiveName" author) as [cn|].
      - simpl. rewrite IH. split.
        + intros [H|H]; [left; exists cn; auto|right; exact H].
        + intros [(cn' & Hc & Ht)|H]; [|right; exact H].
          left. inversion Hc; subst. exact Ht.
      - rewrite IH. split; [auto|].
        intros [(cn' & Hc & _)|H]; [discriminate|exact H]. }
    destruct (Xml.find "LastName" author) as [ln|],
             (Xml.find "ForeName" author) as [fn|].
    + simpl. rewrite IH. split.
      * intros [H|H]; [discriminate|auto].
      * intros [[[H|H] _]|H]; [discriminate|discriminate|auto].
    + rewrite Hcoll. split.
      * intros [H|H]; [left; split; auto|right; exact H].
      * intros [[_ H]|H]; auto.
    + rewrite Hcoll. split.
      * intros [H|H]; [left; split; auto|right; exact H].
      * intros [[_ H]|H]; auto.
    + rewrite Hcoll. split.
      * intros [H|H]; [left; split; auto|right; exact H].
      * intros [[_ H]|H]; auto.
Qed.

(** When [parse_pubmed_xml] gives up.  It returns [None] exactly when
    the element has no [Article] below it, or when one of the author
    elements names its author by a collective-name element that has no
    text (joining the names then fails).  In the first case the line it
    prints reports an [AttributeError], in the second a [TypeError]. *)
Theorem parse_pubmed_xml_fails pubmed_article sr_no :
  (Xml.find_deep "Article" pubmed_article = None ->
   parse_pubmed_xml pubmed_article sr_no
   = (None, [ErrorParsingXML AttributeError]))
  /\ (forall article,
        Xml.find_deep "Article" pubmed_article = Some article ->
        (Exists textless_collective (xml_author_elems article) ->
         parse_pubmed_xml pubmed_article sr_no
         = (None, [ErrorParsingXML TypeError]))
        /\ (~ Exists textless_collective (xml_author_elems article) ->
            exists a, parse_pubmed_xml pubmed_article sr_no = (Some a, [])
                      /\ Sr_No a = sr_no /\ Status a = Pending
                      /\ Decision_Date a = None)).
Proof.
  unfold parse_pubmed_xml, parse_pubmed_xml_body, attr, xml_author_elems.
  split.
  - intros H. rewrite H. reflexivity.
  - intros article H. rewrite H. cbv zeta.
    set (authors := xml_authors
                      match Xml.find_deep "AuthorList" article with
                      | Some author_list => Xml.findall "Author" author_list
                      | None => []
                      end).
    assert (Hn : In None authors <->
                 Exists textless_collective
                   match Xml.find_deep "AuthorList" article with
                   | Some author_list => Xml.findall "Author" author_list
                   | None => []
                   end) by apply xml_authors_None.
    change (match Xml.find_deep "AuthorList" article with
            | Some author_list => xml_authors (Xml.findall "Author" author_list)
            | None => []
            end) with
      (match Xml.find_deep "AuthorList" article with
       | Some author_list => xml_authors (Xml.findall "Author" author_list)
       | None => xml_authors []
       end).
    replace (match Xml.find_deep "AuthorList" article with
             | Some author_list => xml_authors (Xml.findall "Author" author_list)
             | None => xml_authors []
             end) with authors
      by (unfold authors; destruct (Xml.find_deep "AuthorList" article);
          reflexivity).
    split.
    + intros He. apply Hn in He.
      destruct authors as [|o l]; [contradiction|].
      apply all_str_raises in He. rewrite He. reflexivity.
    + intros He.
      destruct authors as [|o l]; [eexists; split; [reflexivity|cbn; auto]|].
      destruct (all_str (o :: l)) as [l'|e] eqn:Ea.
      * eexists. split; [reflexivity|cbn; auto].
      * exfalso. apply He, Hn, all_str_raises.
        rewrite Ea. f_equal. eapply all_str_raises_only_TypeError. exact Ea.
Qed.

End Normalizers.

(* ===================================================================== *)
(** * Properties of the raw search *)
(* ===================================================================== *)

Section DirectSearch.

Lemma batches_nonempty n l : forall room cur,
  cur <> [] -> batches n room cur l <> [].
Proof.
  induction l as [|x t IH]; intros room cur Hc; simpl.
  - destruct cur; [congruence|discriminate].
  - destruct room; [discriminate|]. apply IH. discriminate.
Qed.

Lemma batches_spec n l : forall room cur,
  (1 <= n)%nat -> (List.length cur + room = n)%nat ->
  List.concat (batches n room cur l) = (rev cur ++ l)%list
  /\ Forall (fun b => (1 <= List.length b <= n)%nat) (batches n room cur l)
  /\ Forall (fun b => List.length b = n) (removelast (batches n room cur l)).
Proof.
  induction l as [|x t IH]; intros room cur Hn Hc; simpl.
  - destruct cur as [|c cur].
    + simpl. auto.
    + cbn [List.concat removelast]. rewrite !app_nil_r.
      split; [reflexivity|]. split; [|constructor].
      constructor; [|constructor]. rewrite length_rev. simpl in *. lia.
  - destruct room as [|r].
    + destruct (IH (n - 1)%nat [x] Hn) as (H1 & H2 & H3); [simpl; lia|].
      cbn [List.concat]. rewrite H1. simpl. split; [reflexivity|].
      split.
      * constructor; [rewrite length_rev; lia|exact H2].
      * pose proof (@batches_nonempty n t (n - 1)%nat [x]) as Hne.
        destruct (batches n (n - 1) [x] t) as [|b bs] eqn:Eb.
        -- exfalso. apply Hne; [discriminate|reflexivity].
        -- cbn [removelast]. constructor; [rewrite length_rev; lia|exact H3].
    + destruct (IH r (x :: cur) Hn) as (H1 & H2 & H3); [simpl; lia|].
      rewrite H1. simpl. rewrite <- app_assoc. auto.
Qed.

Lemma xml_parsed_from_app l1 : forall l2 n,
  xml_parsed_from n (l1 ++ l2)
  = (xml_parsed_from n l1 ++ xml_parsed_from (n + Py.len l1) l2)%list.
Proof.
  induction l1 as [|e l1 IH]; intros l2 n.
  - simpl. replace (n + Py.len []) with n by (unfold Py.len; simpl; lia).
    reflexivity.
  - cbn [app xml_parsed_from]. rewrite IH. f_equal. f_equal. f_equal.
    unfold Py.len. cbn [List.length]. lia.
Qed.

Lemma length_xml_parsed_from l : forall n,
  List.length (xml_parsed_from n l) = List.length l.
Proof. induction l as [|e l IH]; intro n; simpl; auto. Qed.

Lemma direct_batch_loop_fetched pv email groups roots :
  Forall2 (fun b root => efetch pv email b = Ok root) groups roots ->
  forall articles,
    fst (direct_batch_loop pv email groups articles)
    = (articles
       ++ xml_parsed_from (Py.len articles)
            (flat_map (Xml.findall_deep "PubmedArticle") roots))%list.
Proof.
  induction 1 as [|b root groups roots Hb _ IH]; intros articles.
  - simpl. rewrite app_nil_r. reflexivity.
  - cbn [direct_batch_loop flat_map]. rewrite Hb.
    pose proof (direct_inner_loop_parsed
                  (Xml.findall_deep "PubmedArticle" root) articles) as Hp.
    destruct (direct_inner_loop (Xml.findall_deep "PubmedArticle" root)
                                articles) as [articles1 out1].
    specialize (IH articles1).
    destruct (direct_batch_loop pv email groups articles1) as [articles2 out2].
    cbn [fst] in *. rewrite IH, Hp, xml_parsed_from_app, <- app_assoc.
    f_equal. f_equal. f_equal.
    unfold Py.len. rewrite length_app, length_xml_parsed_from. lia.
Qed.

(** The ids go to the provider in order, in groups of 100.  When the
    search request answers with the ids [pmids], the fetch loop of
    [search_pubmed_direct] runs over groups that, put end to end, are
    [pmids]; no group is empty or longer than 100, and every group but
    the last holds exactly 100 ids.  When the fetch of each of these
    groups succeeds, the articles returned are what the normalizer
    makes of the [PubmedArticle] elements of the answers, in the order
    of the groups, numbered from 1. *)
Theorem fetch_batches pv email terms cap pmids :
  esearch pv (mkQuery terms cap email) = Ok pmids ->
  exists groups,
    List.concat groups = pmids
    /\ Forall (fun b => (1 <= List.length b <= 100)%nat) groups
    /\ Forall (fun b => List.length b = 100%nat) (removelast groups)
    /\ search_pubmed_direct pv email terms cap
       = direct_batch_loop pv email groups []
    /\ forall roots,
         Forall2 (fun b root => efetch pv email b = Ok root) groups roots ->
         fst (search_pubmed_direct pv email terms cap)
         = xml_parsed_from 0
             (flat_map (Xml.findall_deep "PubmedArticle") roots).
Proof.
  intros He. exists (batches 100 100 [] pmids).
  destruct (@batches_spec 100 pmids 100 []) as (H1 & H2 & H3);
    [lia|reflexivity|].
  assert (Hs : search_pubmed_direct pv email terms cap
               = direct_batch_loop pv email (batches 100 100 [] pmids) []).
  { unfold search_pubmed_direct. rewrite He. reflexivity. }
  split; [exact H1|]. split; [exact H2|]. split; [exact H3|].
  split; [exact Hs|].
  intros roots Hr. rewrite Hs.
  rewrite (@direct_batch_loop_fetched pv email _ roots Hr []). reflexivity.
Qed.

(** The theorem on a provider that finds two ids and answers the fetch
    of the one group they make. *)
Lemma fetch_batches_witness :
  esearch flaky_provider (mkQuery "cancer" 100 "me") = Ok ["11"; "12"]
  /\ exists groups,
       List.concat groups = ["11"; "12"]
       /\ search_pubmed_direct flaky_provider "me" "cancer" 100
          = direct_batch_loop flaky_provider "me" groups [].
Proof.
  split; [reflexivity|].
  destruct (@fetch_batches flaky_provider "me" "cancer" 100 ["11"; "12"]
              eq_refl) as (groups & Hc & _ & _ & Hs & _).
  exists groups. split; [exact Hc|exact Hs].
Defined.

Lemma direct_batch_loop_extends pv email bs : forall articles,
  exists tail,
    fst (direct_batch_loop pv email bs articles) = (articles ++ tail)%list.
Proof.
  induction bs as [|b t IH]; intros articles; simpl.
  - exists []. rewrite app_nil_r. reflexivity.
  - destruct (efetch pv email b) as [root|e].
    + pose proof (direct_inner_loop_parsed
                    (Xml.findall_deep "PubmedArticle" root) articles) as Hp.
      destruct (direct_inner_loop (Xml.findall_deep "PubmedArticle" root)
                                  articles) as [articles1 out1].
      destruct (IH articles1) as [tail Ht].
      destruct (direct_batch_loop pv email t articles1) as [articles2 out2].
      simpl in *. subst. eexists. rewrite <- app_assoc. reflexivity.
    + exists []. rewrite app_nil_r. reflexivity.
Qed.

(** A fetch that fails ends the raw search but not what it has found:
    when the fetches of the groups [bs1] succeed and the fetch of the
    next group raises, [search_pubmed_direct]'s loop returns exactly
    what it returns for [bs1] alone, which still starts with the
    articles collected before; the groups after the failing one are
    never fetched. *)
Theorem failed_fetch_keeps_earlier pv email bs1 b bs2 e : forall articles,
  Forall (fun b' => exists root, efetch pv email b' = Ok root) bs1 ->
  efetch pv email b = Raise e ->
  fst (direct_batch_loop pv email (bs1 ++ b :: bs2) articles)
  = fst (direct_batch_loop pv email bs1 articles)
  /\ exists tail,
       fst (direct_batch_loop pv email (bs1 ++ b :: bs2) articles)
       = (articles ++ tail)%list.
Proof.
  intros articles Hok He.
  assert (Heq : fst (direct_batch_loop pv email (bs1 ++ b :: bs2) articles)
                = fst (direct_batch_loop pv email bs1 articles)).
  { revert articles. induction Hok as [|b' bs1 [root Hr] Hok IH];
      intros articles; simpl.
    - rewrite He. reflexivity.
    - rewrite Hr.
      destruct (direct_inner_loop (Xml.findall_deep "PubmedArticle" root)
                                  articles) as [articles1 out1].
      specialize (IH articles1).
      destruct (direct_batch_loop pv email (bs1 ++ b :: bs2) articles1).
      destruct (direct_batch_loop pv email bs1 articles1).
      simpl in *. exact IH. }
  split; [exact Heq|]. rewrite Heq. apply direct_batch_loop_extends.
Qed.

(** The theorem on a provider whose second fetch fails. *)
Lemma failed_fetch_keeps_earlier_witness :
  Forall (fun b' => exists root, efetch flaky_provider "me" b' = Ok root)
         [["11"]]
  /\ efetch flaky_provider "me" ["12"] = Raise OSError
  /\ fst (direct_batch_loop flaky_provider "me" [["11"]; ["12"]; ["11"]] [])
     = fst (direct_batch_loop flaky_provider "me" [["11"]] []).
Proof.
  assert (H : Forall (fun b' => exists root,
                          efetch flaky_provider "me" b' = Ok root) [["11"]])
    by (constructor; [eexists; reflexivity|constructor]).
  split; [exact H|]. split; [reflexivity|].
  exact (proj1 (@failed_fetch_keeps_earlier flaky_provider "me" [["11"]]
                  ["12"] [["11"]] OSError [] H eq_refl)).
Defined.

(** The theorem of the XML normalizer on a record without [Article]. *)
Lemma parse_pubmed_xml_fails_witness :
  Xml.find_deep "Article" xml_without_article = None
  /\ parse_pubmed_xml xml_without_article 1
     = (None, [ErrorParsingXML AttributeError]).
Proof.
  split; [reflexivity|].
  exact (proj1 (parse_pubmed_xml_fails xml_without_article 1) eq_refl).
Defined.

End DirectSearch.

(* ===================================================================== *)
(** * Properties of the manual import *)
(* ===================================================================== *)

Section ManualImport.

Lemma cochrane_loop_rows df already rows :
  (List.length (fst (cochrane_loop df already rows))
   + List.length (snd (cochrane_loop df already rows))
   = List.length rows)%nat
  /\ (forall e, In e (fst (cochrane_loop df already rows)) ->
        exists z row,
          In (IntLabel z, row) rows
          /\ e = Some (cochrane_article df already z row))
  /\ (forall line, In line (snd (cochrane_loop df already rows)) ->
        exists t row,
          In (TextLabel t, row) rows
          /\ line = ErrorProcessingCochraneRow (TextLabel t) TypeError).
Proof.
  induction rows as [|[[z|t] row] rows (IHl & IHa & IHo)].
  - simpl. split; [reflexivity|]. split; intros x [].
  - rewrite cochrane_loop_cons_int. cbn [fst snd List.length].
    split; [lia|]. split.
    + intros e [He|He].
      * exists z, row. split; [left; reflexivity|auto].
      * destruct (IHa e He) as (z' & row' & Hin & Hx).
        exists z', row'. split; [right; exact Hin|exact Hx].
    + intros line Hl. destruct (IHo line Hl) as (t & row' & Hin & Hx).
      exists t, row'. split; [right; exact Hin|exact Hx].
  - rewrite cochrane_loop_cons_text. cbn [fst snd List.length].
    split; [lia|]. split.
    + intros e He. destruct (IHa e He) as (z & row' & Hin & Hx).
      exists z, row'. split; [right; exact Hin|exact Hx].
    + intros line [Hl|Hl].
      * exists t, row. split; [left; reflexivity|auto].
      * destruct (IHo line Hl) as (t' & row' & Hin & Hx).
        exists t', row'. split; [right; exact Hin|exact Hx].
Qed.

(** What the manual import returns.  A file that cannot be read gives
    one error dialog and no article, and the call returns normally.  A
    file that is read never makes the call raise and changes nothing but
    the console.  Every row gives either one article or one printed
    line: a row with an integer label gives an article, never [None],
    whose number is the number of articles already in the session, plus
    the label, plus 1, with source Cochrane, status Pending, no decision
    date and a title; a row whose label is a text is skipped and
    reported with a [TypeError].  With the default index nothing is
    printed, there is one article per row, and the article of row [k]
    has the number of articles already in the session plus [k + 1]. *)
Theorem load_cochrane_csv_outcome env file s :
  (forall e, read_csv env file = Raise e ->
     load_cochrane_csv env file s
     = (set_dialogs (dialogs s ++ [import_error_dialog e]) s, Ok []))
  /\ (forall df, read_csv env file = Ok df ->
        exists l out,
          load_cochrane_csv env file s
          = (set_console (console s ++ out) s, Ok l)
          /\ (List.length l + List.length out
              = List.length (Csv.iterrows df))%nat
          /\ (forall e, In e l ->
                exists z row a,
                  In (IntLabel z, row) (Csv.iterrows df)
                  /\ e = Some a
                  /\ Sr_No a = Py.len (all_articles s) + z + 1
                  /\ Source a = Cochrane /\ Status a = Pending
                  /\ Decision_Date a = None /\ Title a <> None)
          /\ (forall line, In line out ->
                exists t row,
                  In (TextLabel t, row) (Csv.iterrows df)
                  /\ line = ErrorProcessingCochraneRow (TextLabel t) TypeError)
          /\ (default_index df ->
              out = []
              /\ List.length l = List.length (Csv.iterrows df)
              /\ forall k a, nth_error l k = Some (Some a) ->
                   Sr_No a = Py.len (all_articles s) + Z.of_nat k + 1)).
Proof.
  unfold load_cochrane_csv. split.
  - intros e H. rewrite H. reflexivity.
  - intros df H. rewrite H. unfold bind, gets. cbn [fst snd].
    destruct (cochrane_loop_rows df (Py.len (all_articles s)) (Csv.iterrows df))
      as (Hl & Ha & Ho).
    pose proof (@cochrane_loop_labelled df (Py.len (all_articles s))
                  (Csv.iterrows df) 0) as Hd.
    destruct (cochrane_loop df (Py.len (all_articles s)) (Csv.iterrows df))
      as [l out].
    cbn [fst snd] in *. exists l, out.
    split; [reflexivity|]. split; [exact Hl|]. split; [|split].
    + intros e He. destruct (Ha e He) as (z & row & Hin & Hx).
      exists z, row, (cochrane_article df (Py.len (all_articles s)) z row).
      split; [exact Hin|]. split; [exact Hx|]. cbn.
      repeat split. discriminate.
    + exact Ho.
    + intros Hdef. destruct (Hd Hdef) as (T & L & O).
      split; [exact O|]. split; [exact L|].
      intros k a Hk. destruct (T k a Hk) as [_ Hn]. lia.
Qed.

(** The theorem with the sample frame of two rows, which has the default
    index, and with a frame whose rows are labelled by their titles. *)
Lemma load_cochrane_csv_outcome_witness :
  read_csv (sample_env_both []) "cochrane.csv" = Ok sample_frame
  /\ default_index sample_frame
  /\ (exists l,
        load_cochrane_csv (sample_env_both []) "cochrane.csv" two_loaded
        = (set_console (console two_loaded ++ []) two_loaded, Ok l)
        /\ List.length l = 2%nat)
  /\ fst (cochrane_loop text_labels_frame 2 (Csv.iterrows text_labels_frame))
     = [].
Proof.
  assert (Hd : default_index sample_frame).
  { intros [|[|[|k]]] l row H; simpl in H; try discriminate;
      inversion H; reflexivity. }
  split; [reflexivity|]. split; [exact Hd|]. split; [|reflexivity].
  destruct (load_cochrane_csv_outcome (sample_env_both []) "cochrane.csv"
                                      two_loaded) as [_ H].
  destruct (H sample_frame eq_refl) as (l & out & Hl & _ & _ & _ & Hdef).
  destruct (Hdef Hd) as (Ho & Hn & _). subst out.
  exists l. split; [exact Hl|exact Hn].
Defined.

Lemma lookup_missing cols : forall row key,
  existsb (String.eqb key) cols = false -> Csv.lookup cols row key = None.
Proof.
  induction cols as [|c cols IH]; intros [|v row] key H; simpl in *;
    try reflexivity.
  apply orb_false_iff in H. destruct H as [H1 H2].
  rewrite String.eqb_sym, H1. apply IH. exact H2.
Qed.

Lemma get_missing df row key default :
  Csv.has_column df key = false -> Csv.get df row key default = default.
Proof.
  intros H. unfold Csv.get. rewrite lookup_missing; [reflexivity|exact H].
Qed.

Lemma actual_column_none df names :
  Forall (fun n => Csv.has_column df n = false) names ->
  actual_column df names = EmptyString.
Proof.
  intros H. unfold actual_column, resolve_column.
  induction H as [|n names Hn H IH]; simpl; [reflexivity|].
  rewrite Hn. exact IH.
Qed.

Lemma actual_column_first df name names :
  Csv.has_column df name = true -> actual_column df (name :: names) = name.
Proof.
  intros H. unfold actual_column, resolve_column. simpl. rewrite H. reflexivity.
Qed.

(** Columns the import does not find.  In a frame that has no column
    with an empty label: when none of [Title], [title], [TITLE] is a
    column every article gets the title ['No title']; when none of
    [Authors], [authors], [AUTHORS], [Author] is a column the authors
    are ['No authors listed']; without [Abstract], [abstract],
    [ABSTRACT] the abstract is empty; without [DOI], [doi], [ID], [id]
    the identifier is ['No ID']. *)
Theorem cochrane_missing_columns df already i row :
  Csv.has_column df EmptyString = false ->
  let a := cochrane_article df already i row in
  (Forall (fun n => Csv.has_column df n = false) ["Title"; "title"; "TITLE"]
   -> Title a = Some "No title")
  /\ (Forall (fun n => Csv.has_column df n = false)
             ["Authors"; "authors"; "AUTHORS"; "Author"]
      -> Authors a = "No authors listed")
  /\ (Forall (fun n => Csv.has_column df n = false)
             ["Abstract"; "abstract"; "ABSTRACT"]
      -> Abstract a = EmptyString)
  /\ (Forall (fun n => Csv.has_column df n = false) ["DOI"; "doi"; "ID"; "id"]
      -> ID_Link a = "No ID").
Proof.
  intros He. cbv zeta. unfold cochrane_article. cbn [Title Authors Abstract ID_Link].
  repeat split; intros H; rewrite (@actual_column_none df _ H),
    (@get_missing df row _ _ He); reflexivity.
Qed.

(** The theorem on a frame with foreign column labels. *)
Lemma cochrane_missing_columns_witness :
  Csv.has_column foreign_frame EmptyString = false
  /\ Forall (fun n => Csv.has_column foreign_frame n = false)
            ["Title"; "title"; "TITLE"]
  /\ Title (cochrane_article foreign_frame 0 0
              [Csv.Str "A study"; Csv.Other "2020" true])
     = Some "No title".
Proof.
  assert (H : Forall (fun n => Csv.has_column foreign_frame n = false)
                     ["Title"; "title"; "TITLE"])
    by (repeat constructor).
  split; [reflexivity|]. split; [exact H|].
  exact (proj1 (@cochrane_missing_columns foreign_frame 0 0
                  [Csv.Str "A study"; Csv.Other "2020" true] eq_refl) H).
Defined.

(** The identifier of an imported row.  When the frame has a column
    [DOI] and the row is as long as the frame is wide, the identifier is
    ['No ID'] when the value under [DOI] is falsy (an empty string), and
    [DOI: ] followed by what [str] prints for the value otherwise; a
    missing value, which is truthy and prints as [nan], gives
    [DOI: nan].  The columns [doi], [ID] and [id] are not consulted
    then. *)
Theorem cochrane_identifier df already i row v :
  Csv.lookup (Csv.columns df) row "DOI" = Some v ->
  ID_Link (cochrane_article df already i row)
  = if Csv.truthy v then "DOI: " ++ Csv.str v else "No ID".
Proof.
  intros H. unfold cochrane_article. cbn [ID_Link].
  assert (Hc : Csv.has_column df "DOI" = true).
  { unfold Csv.has_column. revert row H.
    induction (Csv.columns df) as [|c cols IH]; intros [|x row] H;
      cbn [Csv.lookup existsb] in *; try discriminate.
    destruct (String.eqb c "DOI") eqn:E.
    - apply String.eqb_eq in E. subst. rewrite String.eqb_refl. reflexivity.
    - rewrite (String.eqb_sym "DOI" c), E. cbn [orb]. eapply IH. exact H. }
  rewrite (@actual_column_first df _ _ Hc). unfold Csv.get. rewrite H.
  reflexivity.
Qed.

(** The theorem on a row whose DOI is missing. *)
Lemma cochrane_identifier_witness :
  let df := Csv.mkDataFrame ["Title"; "DOI"; "doi"] [] in
  let row := [Csv.Str "T"; Csv.Other "nan" true; Csv.Str "10.1/x"] in
  Csv.lookup (Csv.columns df) row "DOI" = Some (Csv.Other "nan" true)
  /\ ID_Link (cochrane_article df 0 0 row) = "DOI: nan".
Proof.
  intros df row. split; [reflexivity|].
  exact (@cochrane_identifier df 0 0 row (Csv.Other "nan" true) eq_refl).
Defined.

End ManualImport.

(* ===================================================================== *)
(** * Further properties of the export *)
(* ===================================================================== *)

Section ExportEffects.

Lemma dated_backfill_one inc exc a :
  dated (Some a) (Some (backfill_one inc exc a)).
Proof.
  unfold backfill_one, dated, same_record.
  destruct (Status a) eqn:E;
    [|destruct (find_date (Sr_No a) inc)|destruct (find_date (Sr_No a) exc)];
    cbn; rewrite ?E; auto 10.
Qed.

Lemma backfill_dated inc exc l :
  Forall2 dated l (fst (backfill inc exc l)).
Proof.
  induction l as [|[a|] t IH]; cbn [backfill].
  - constructor.
  - destruct (backfill inc exc t) as [t' r]. cbn [fst] in *.
    constructor; [apply dated_backfill_one|exact IH].
  - cbn [fst]. constructor; [exact I|].
    clear IH. induction t as [|[b|] t IHt]; constructor; auto.
    + split; [apply same_record_refl|reflexivity].
    + exact I.
Qed.

Lemma backfill_raises inc exc l :
  (exists d, items l = Ok d) \/ snd (backfill inc exc l) = Raise TypeError.
Proof.
  induction l as [|[a|] t IH]; cbn [backfill items item].
  - left. eauto.
  - destruct (backfill inc exc t) as [t' r]. cbn [snd] in *.
    destruct IH as [[d Hd]|Hr]; [left; rewrite Hd; eauto|right; exact Hr].
  - right. reflexivity.
Qed.

Lemma export_all_results_run env stamp s :
  export_all_results env stamp s
  = if is_empty (all_articles s) then
      (set_dialogs
         (dialogs s ++ [mkDialog showwarning "No Data"
                                 (Text "No articles to export")]) s, Ok tt)
    else
      let '(l, r) := backfill (included_articles s) (excluded_articles s)
                              (all_articles s) in
      let name := "all_results_" ++ stamp ++ ".csv" in
      match r with
      | Raise x =>
          (set_dialogs
             (dialogs s ++ [export_error_dialog "Error exporting results" x])
             (set_all_articles l s), Ok tt)
      | Ok _ =>
          match to_csv env name l with
          | Raise e =>
              (set_dialogs
                 (dialogs s ++ [export_error_dialog "Error exporting results" e])
                 (set_all_articles l s), Ok tt)
          | Ok _ =>
              (set_dialogs
                 (dialogs s ++ [mkDialog showinfo "Export Successful"
                                  (TextFile "All results exported to" name)])
                 (set_files (files s ++ [mkCsvFile name l])
                            (set_all_articles l s)), Ok tt)
          end
      end.
Proof.
  unfold export_all_results, bind at 1, gets. cbn [fst snd].
  destruct (is_empty (all_articles s)); [reflexivity|].
  unfold try_except, bind, lift.
  destruct (backfill (included_articles s) (excluded_articles s)
                     (all_articles s)) as [l [[]|x]]; cbn [modify].
  - destruct (to_csv env _ l) as [[]|e]; reflexivity.
  - reflexivity.
Qed.

(** What [export_all_results] does to the object, whatever the sink
    does.  It never raises.  The cursor and the two decision lists are
    as before.  The article list keeps its length and order, a [None]
    stays a [None], and an article keeps every key but the decision
    date.  At most one file is added.  When the batch has no [None] and
    the sink refuses the write, no file is added and one
    ['Export Error'] dialog is shown, but the decision dates are filled
    in all the same. *)
Theorem export_all_results_effects env stamp s :
  let s' := exec (export_all_results env stamp) s in
  let filled :=
    fst (backfill (included_articles s) (excluded_articles s)
                  (all_articles s)) in
  outcome (export_all_results env stamp) s = Ok tt
  /\ current_index s' = current_index s
  /\ included_articles s' = included_articles s
  /\ excluded_articles s' = excluded_articles s
  /\ Forall2 dated (all_articles s) (all_articles s')
  /\ (files s' = files s \/ exists f, files s' = (files s ++ [f])%list)
  /\ (forall d e,
        all_articles s <> [] -> items (all_articles s) = Ok d ->
        to_csv env ("all_results_" ++ stamp ++ ".csv") filled = Raise e ->
        files s' = files s
        /\ all_articles s' = filled
        /\ dialogs s'
           = (dialogs s
              ++ [export_error_dialog "Error exporting results" e])%list).
Proof.
  cbv zeta. unfold exec, outcome. rewrite export_all_results_run.
  pose proof (backfill_dated (included_articles s) (excluded_articles s)
                             (all_articles s)) as Hd.
  destruct (is_empty (all_articles s)) eqn:Ee.
  - cbn [fst snd all_articles current_index included_articles
         excluded_articles files set_dialogs].
    split; [reflexivity|]. split; [reflexivity|]. split; [reflexivity|].
    split; [reflexivity|]. split.
    { destruct (all_articles s); [constructor|discriminate]. }
    split; [left; reflexivity|].
    intros d e Hne. destruct (all_articles s); [congruence|discriminate].
  - destruct (backfill (included_articles s) (excluded_articles s)
                       (all_articles s)) as [l r] eqn:Eb.
    cbn [fst] in Hd. cbv zeta.
    destruct r as [[]|x].
    + destruct (to_csv env ("all_results_" ++ stamp ++ ".csv") l) as [[]|e'] eqn:Es.
      * cbn [fst snd all_articles current_index included_articles
             excluded_articles files dialogs set_dialogs set_files
             set_all_articles].
        split; [reflexivity|]. split; [reflexivity|].
        split; [reflexivity|]. split; [reflexivity|]. split; [exact Hd|].
        split; [right; eexists; reflexivity|].
        intros d e _ _ H. rewrite Es in H. discriminate.
      * cbn [fst snd all_articles current_index included_articles
             excluded_articles files dialogs set_dialogs set_files
             set_all_articles].
        split; [reflexivity|]. split; [reflexivity|].
        split; [reflexivity|]. split; [reflexivity|]. split; [exact Hd|].
        split; [left; reflexivity|].
        intros d e _ _ H. rewrite Es in H. inversion H; subst. auto.
    + cbn [fst snd all_articles current_index included_articles
           excluded_articles files dialogs set_dialogs set_files
           set_all_articles].
      split; [reflexivity|]. split; [reflexivity|].
      split; [reflexivity|]. split; [reflexivity|]. split; [exact Hd|].
      split; [left; reflexivity|].
      intros d e _ Hi _.
      pose proof (backfill_items (included_articles s)
                    (excluded_articles s) _ Hi) as [Hok _].
      rewrite Eb in Hok. discriminate.
Qed.

(** The theorem with a sink that refuses every write. *)
Lemma export_all_results_effects_witness :
  let s := twice_included in
  let s' := exec (export_all_results read_only_env "20240502_100000") s in
  all_articles s <> []
  /\ files s' = files s
  /\ option_map (option_map Decision_Date) (nth_error (all_articles s') 0)
     = Some (Some (Some "2024-05-01 10:00:00")).
Proof.
  intros s s'.
  assert (Hne : all_articles s <> []) by (vm_compute; discriminate).
  assert (Hi : exists d, items (all_articles s) = Ok d)
    by (vm_compute; eexists; reflexivity).
  destruct Hi as [d Hi].
  split; [exact Hne|].
  destruct (export_all_results_effects read_only_env "20240502_100000" s)
    as (_ & _ & _ & _ & _ & _ & H).
  destruct (H d OSError Hne Hi eq_refl) as (Hf & Ha & _).
  split; [exact Hf|]. subst s'. rewrite Ha. vm_compute. reflexivity.
Defined.

Lemma find_date_first n pre snap post :
  Forall (fun x => Sr_No x <> n) pre -> Sr_No snap = n ->
  find_date n (pre ++ snap :: post)
  = Some (match Decision_Date snap with
          | Some x => x | None => EmptyString end).
Proof.
  intros Hp Hs. induction Hp as [|x pre Hx Hp IH]; simpl.
  - rewrite Hs, Z.eqb_refl. reflexivity.
  - apply Z.eqb_neq in Hx. rewrite Hx. exact IH.
Qed.

Lemma backfill_nth inc exc l : forall d k a,
  items l = Ok d -> nth_error l k = Some (Some a) ->
  nth_error (fst (backfill inc exc l)) k
  = Some (Some (backfill_one inc exc a)).
Proof.
  induction l as [|[b|] t IH]; intros d [|k] a Hi Hk; simpl in *;
    try discriminate.
  - inversion Hk; subst. destruct (backfill inc exc t). reflexivity.
  - destruct (items t) as [d'|] eqn:Et; [|discriminate].
    specialize (IH d' k a eq_refl Hk).
    destruct (backfill inc exc t). exact IH.
Qed.

(** Which date an export writes.  In a batch without [None], an article
    whose status is Included gets, in the article list and so in the
    exported file, the decision date of the first snapshot of the
    included list that carries its sequence number: after two inclusions
    of the same article this is the date of the first one, not of the
    last.  The same holds for Excluded and the excluded list.  An
    article that is Pending keeps the date it had. *)
Theorem exported_decision_date env stamp s d k a :
  items (all_articles s) = Ok d ->
  nth_error (all_articles s) k = Some (Some a) ->
  let s' := exec (export_all_results env stamp) s in
  exists b,
    nth_error (all_articles s') k = Some (Some b)
    /\ Status b = Status a /\ Sr_No b = Sr_No a
    /\ (Status a = Pending -> Decision_Date b = Decision_Date a)
    /\ (forall pre snap post date,
          Status a = Included ->
          included_articles s = (pre ++ snap :: post)%list ->
          Forall (fun x => Sr_No x <> Sr_No a) pre ->
          Sr_No snap = Sr_No a -> Decision_Date snap = Some date ->
          Decision_Date b = Some date)
    /\ (forall pre snap post date,
          Status a = Excluded ->
          excluded_articles s = (pre ++ snap :: post)%list ->
          Forall (fun x => Sr_No x <> Sr_No a) pre ->
          Sr_No snap = Sr_No a -> Decision_Date snap = Some date ->
          Decision_Date b = Some date).
Proof.
  intros Hi Hk. cbv zeta.
  assert (Ha : all_articles (exec (export_all_results env stamp) s)
               = fst (backfill (included_articles s) (excluded_articles s)
                               (all_articles s))).
  { unfold exec. rewrite export_all_results_run.
    destruct (is_empty (all_articles s)) eqn:Ee.
    { destruct (all_articles s); [destruct k; discriminate|discriminate]. }
    destruct (backfill (included_articles s) (excluded_articles s)
                       (all_articles s)) as [l r].
    cbv zeta. destruct r as [[]|x]; [|reflexivity].
    destruct (to_csv env _ l) as [[]|e]; reflexivity. }
  rewrite Ha.
  rewrite (@backfill_nth (included_articles s) (excluded_articles s)
             (all_articles s) d k a Hi Hk).
  exists (backfill_one (included_articles s) (excluded_articles s) a).
  split; [reflexivity|].
  pose proof (dated_backfill_one (included_articles s) (excluded_articles s) a)
    as (Hr & Hs).
  split; [symmetry; exact Hs|]. split; [symmetry; apply Hr|].
  unfold backfill_one. split; [|split].
  - intros Hp. rewrite Hp. reflexivity.
  - intros pre snap post date Hst Hl Hpre Hn Hd.
    rewrite Hst, Hl, (@find_date_first (Sr_No a) pre snap post Hpre Hn), Hd.
    reflexivity.
  - intros pre snap post date Hst Hl Hpre Hn Hd.
    rewrite Hst, Hl, (@find_date_first (Sr_No a) pre snap post Hpre Hn), Hd.
    reflexivity.
Qed.

(** The theorem on an article included twice. *)
Lemma exported_decision_date_witness :
  let s := twice_included in
  let s' := exec (export_all_results (sample_env []) "20240502_100000") s in
  let first := mkArticle 1 (Some "First") "PMID: 1" "Background. Results."
                         "Doe Jane" PubMed Included None in
  List.length (included_articles s) = 2%nat
  /\ nth_error (all_articles s) 0 = Some (Some first)
  /\ exists b, nth_error (all_articles s') 0 = Some (Some b)
               /\ Decision_Date b = Some "2024-05-01 10:00:00".
Proof.
  intros s s' first.
  assert (Ha : nth_error (all_articles s) 0 = Some (Some first))
    by (vm_compute; reflexivity).
  assert (Hi : exists d, items (all_articles s) = Ok d)
    by (vm_compute; eexists; reflexivity).
  destruct Hi as [d Hi].
  split; [vm_compute; reflexivity|]. split; [exact Ha|].
  destruct (@exported_decision_date (sample_env []) "20240502_100000" s d 0%nat
              first Hi Ha) as (b & Hb & _ & _ & _ & Hinc & _).
  exists b. split; [exact Hb|].
  apply (Hinc [] (snapshot Included "2024-05-01 10:00:00"
                    (mkArticle 1 (Some "First") "PMID: 1"
                       "Background. Results." "Doe Jane" PubMed Pending None))
              [snapshot Included "2024-05-02 09:00:00" first]).
  - reflexivity.
  - vm_compute. reflexivity.
  - constructor.
  - reflexivity.
  - reflexivity.
Defined.

Lemma export_included_run env stamp s :
  export_included env stamp s
  = if is_empty (included_articles s) then
      (set_dialogs (dialogs s ++ [no_included_warning]) s, Ok tt)
    else
      let name := "included_" ++ stamp ++ ".csv" in
      let l := map Some (included_articles s) in
      match to_csv env name l with
      | Raise e =>
          (set_dialogs
             (dialogs s
              ++ [export_error_dialog "Error exporting included articles" e])
             s, Ok tt)
      | Ok _ =>
          (set_dialogs
             (dialogs s ++ [mkDialog showinfo "Export Successful"
                              (TextFile "Included articles exported to" name)])
             (set_files (files s ++ [mkCsvFile name l]) s), Ok tt)
      end.
Proof.
  unfold export_included, bind at 1, gets. cbn [fst snd].
  destruct (is_empty (included_articles s)); [reflexivity|].
  unfold try_except, bind, lift. cbv zeta.
  destruct (to_csv env _ _) as [[]|e]; reflexivity.
Qed.

Lemma export_excluded_run env stamp s :
  export_excluded env stamp s
  = if is_empty (excluded_articles s) then
      (set_dialogs
         (dialogs s ++ [mkDialog showwarning "No Data"
                          (Text "No excluded articles to export")]) s, Ok tt)
    else
      let name := "excluded_" ++ stamp ++ ".csv" in
      let l := map Some (excluded_articles s) in
      match to_csv env name l with
      | Raise e =>
          (set_dialogs
             (dialogs s
              ++ [export_error_dialog "Error exporting excluded articles" e])
             s, Ok tt)
      | Ok _ =>
          (set_dialogs
             (dialogs s ++ [mkDialog showinfo "Export Successful"
                              (TextFile "Excluded articles exported to" name)])
             (set_files (files s ++ [mkCsvFile name l]) s), Ok tt)
      end.
Proof.
  unfold export_excluded, bind at 1, gets. cbn [fst snd].
  destruct (is_empty (excluded_articles s)); [reflexivity|].
  unfold try_except, bind, lift. cbv zeta.
  destruct (to_csv env _ _) as [[]|e]; reflexivity.
Qed.

(** The exports of the decision lists.  [export_included] and
    [export_excluded] never raise and never change the session.  With a
    list that is not empty they write one file, named after the kind
    and the time stamp, whose rows are the snapshots of the list in the
    order of the decisions, when the sink accepts it; when the sink
    refuses, no file is added and one ['Export Error'] dialog carries
    the sink's error. *)
Theorem export_decision_lists env stamp s :
  (outcome (export_included env stamp) s = Ok tt
   /\ session (exec (export_included env stamp) s) = session s
   /\ outcome (export_excluded env stamp) s = Ok tt
   /\ session (exec (export_excluded env stamp) s) = session s)
  /\ (included_articles s <> [] ->
      let name := "included_" ++ stamp ++ ".csv" in
      let rows := map Some (included_articles s) in
      (to_csv env name rows = Ok tt ->
       files (exec (export_included env stamp) s)
       = (files s ++ [mkCsvFile name rows])%list)
      /\ (forall e,
            to_csv env name rows = Raise e ->
            files (exec (export_included env stamp) s) = files s
            /\ dialogs (exec (export_included env stamp) s)
               = (dialogs s
                  ++ [export_error_dialog
                        "Error exporting included articles" e])%list))
  /\ (excluded_articles s <> [] ->
      let name := "excluded_" ++ stamp ++ ".csv" in
      let rows := map Some (excluded_articles s) in
      (to_csv env name rows = Ok tt ->
       files (exec (export_excluded env stamp) s)
       = (files s ++ [mkCsvFile name rows])%list)
      /\ (forall e,
            to_csv env name rows = Raise e ->
            files (exec (export_excluded env stamp) s) = files s
            /\ dialogs (exec (export_excluded env stamp) s)
               = (dialogs s
                  ++ [export_error_dialog
                        "Error exporting excluded articles" e])%list)).
Proof.
  unfold exec, outcome. rewrite export_included_run, export_excluded_run.
  split; [|split].
  - destruct (is_empty (included_articles s)),
             (is_empty (excluded_articles s)); cbv zeta;
      repeat match goal with
             | |- context [to_csv ?e ?n ?l] => destruct (to_csv e n l) as [[]|?]
             end; repeat split.
  - intros Hne. cbv zeta.
    assert (E : is_empty (included_articles s) = false)
      by (destruct (included_articles s); [congruence|reflexivity]).
    rewrite E. split.
    + intros Hs. rewrite Hs. reflexivity.
    + intros e Hs. rewrite Hs. split; reflexivity.
  - intros Hne. cbv zeta.
    assert (E : is_empty (excluded_articles s) = false)
      by (destruct (excluded_articles s); [congruence|reflexivity]).
    rewrite E. split.
    + intros Hs. rewrite Hs. reflexivity.
    + intros e Hs. rewrite Hs. split; reflexivity.
Qed.

(** The theorem on a session with one included article. *)
Lemma export_decision_lists_witness :
  let rows := map Some (included_articles one_decided) in
  included_articles one_decided <> []
  /\ to_csv (sample_env []) "included_20240502_100000.csv" rows = Ok tt
  /\ files (exec (export_included (sample_env []) "20240502_100000")
                 one_decided)
     = (files one_decided
        ++ [mkCsvFile "included_20240502_100000.csv" rows])%list.
Proof.
  intro rows.
  assert (Hne : included_articles one_decided <> [])
    by (vm_compute; discriminate).
  split; [exact Hne|]. split; [reflexivity|].
  destruct (export_decision_lists (sample_env []) "20240502_100000" one_decided)
    as (_ & H & _).
  exact (proj1 (H Hne) eq_refl).
Defined.

End ExportEffects.

(* ===================================================================== *)
(** * What a retrieval reports *)
(* ===================================================================== *)

Section RetrievalReport.

Lemma items_length l : forall d, items l = Ok d -> List.length d = List.length l.
Proof.
  induction l as [|[a|] t IH]; intros d H; simpl in H; try discriminate.
  - inversion H. reflexivity.
  - destruct (items t) as [d'|]; [|discriminate].
    inversion H; subst. simpl. rewrite (IH d' eq_refl). reflexivity.
Qed.

Lemma items_raises_only_TypeError l e : items l = Raise e -> e = TypeError.
Proof.
  revert e. induction l as [|[a|] t IH]; intros e H; simpl in H.
  - discriminate.
  - destruct (items t) as [d'|e']; [discriminate|].
    inversion H; subst. apply IH. reflexivity.
  - inversion H. reflexivity.
Qed.

Lemma count_source_total l :
  count_source PubMed l + count_source Cochrane l = Py.len l.
Proof.
  unfold count_source, Py.len.
  induction l as [|a l IH]; [reflexivity|].
  cbn [filter]. destruct (Source a); cbn [List.length]; lia.
Qed.

Lemma display_search_results_run s :
  (forall l, items (all_articles s) = Ok l ->
     exists p,
       display_search_results s
       = (set_widgets (set_results_text (Some p) (widgets s)) s, Ok tt))
  /\ ((forall l, items (all_articles s) <> Ok l) ->
      display_search_results s
      = (set_widgets (set_results_text None (widgets s)) s, Raise TypeError)).
Proof.
  unfold display_search_results, bind, gets, lift, widget, modify.
  cbn [fst snd all_articles set_widgets]. split.
  - intros l Hl. rewrite Hl. eexists. reflexivity.
  - intros Hn. destruct (items (all_articles s)) as [l|e] eqn:E.
    + exfalso. apply (Hn l). reflexivity.
    + rewrite (items_raises_only_TypeError _ E). reflexivity.
Qed.

(** The preview of the search results.  On a batch without [None],
    [display_search_results] returns normally; the two counts it shows,
    PubMed and Cochrane, add up to the total, which is the size of the
    batch; it lists the first five articles, or all of them when there
    are fewer, and mentions how many more there are exactly when there
    are more than five.  On a batch with a [None] it empties the widget
    and raises [TypeError]. *)
Theorem display_search_results_counts s :
  (forall l, items (all_articles s) = Ok l ->
     exists p,
       display_search_results s
       = (set_widgets (set_results_text (Some p) (widgets s)) s, Ok tt)
       /\ sp_total p = Py.len (all_articles s)
       /\ sp_pubmed p + sp_cochrane p = sp_total p
       /\ sp_first p = firstn 5 l
       /\ List.length (sp_first p) = Nat.min 5 (List.length (all_articles s))
       /\ sp_more p = if sp_total p >? 5 then Some (sp_total p - 5) else None)
  /\ ((forall l, items (all_articles s) <> Ok l) ->
      display_search_results s
      = (set_widgets (set_results_text None (widgets s)) s, Raise TypeError)).
Proof.
  unfold display_search_results, bind, gets, lift, widget, modify.
  cbn [fst snd all_articles set_widgets]. split.
  - intros l Hl. rewrite Hl. eexists. split; [reflexivity|].
    cbn [sp_total sp_pubmed sp_cochrane sp_first sp_more].
    split; [reflexivity|]. split.
    + rewrite count_source_total. unfold Py.len.
      rewrite (items_length _ Hl). reflexivity.
    + split; [reflexivity|]. split; [|reflexivity].
      rewrite length_firstn, (items_length _ Hl). reflexivity.
  - intros Hn. destruct (items (all_articles s)) as [l|e] eqn:E.
    + exfalso. apply (Hn l). reflexivity.
    + rewrite (items_raises_only_TypeError _ E). reflexivity.
Qed.

(** The theorem on two loaded articles. *)
Lemma display_search_results_counts_witness :
  exists l p,
    items (all_articles two_loaded) = Ok l
    /\ display_search_results two_loaded
       = (set_widgets (set_results_text (Some p) (widgets two_loaded))
                      two_loaded, Ok tt)
    /\ sp_pubmed p + sp_cochrane p = 2.
Proof.
  destruct (items (all_articles two_loaded)) as [l|] eqn:E;
    [|vm_compute in E; discriminate].
  destruct (proj1 (display_search_results_counts two_loaded) l E)
    as (p & Hp & Ht & Hs & _).
  exists l, p. split; [reflexivity|]. split; [exact Hp|].
  rewrite Hs, Ht. reflexivity.
Defined.

Lemma finish_search_empty env s :
  all_articles s = [] ->
  finish_search env s
  = (set_widgets (set_progress_var NoArticlesFound (widgets s)) s, Ok tt).
Proof.
  intros H. unfold finish_search, bind, gets. cbn [fst snd]. rewrite H.
  reflexivity.
Qed.

Lemma finish_search_sink_fails env s e :
  all_articles s <> [] ->
  to_csv env "search_results.csv" (all_articles s) = Raise e ->
  finish_search env s = (s, Raise e).
Proof.
  intros Hne He. unfold finish_search, bind at 1, gets. cbn [fst snd].
  assert (Ee : is_empty (all_articles s) = false)
    by (destruct (all_articles s); [congruence|reflexivity]).
  rewrite Ee. unfold bind at 1, save_search_results, bind at 1, gets.
  cbn [fst snd]. rewrite Ee. unfold bind, lift. rewrite He. reflexivity.
Qed.

Lemma finish_search_saved env s :
  all_articles s <> [] ->
  to_csv env "search_results.csv" (all_articles s) = Ok tt ->
  let saved := set_files (files s ++ [snapshot_file (all_articles s)]) s in
  (forall l, items (all_articles s) = Ok l ->
     exists w,
       finish_search env s = (set_widgets w (set_current_index 0 saved), Ok tt)
       /\ progress_var w = SearchCompleted (Py.len (all_articles s))
       /\ screening_progress_var w
          = ArticleOf 1 (Py.len (all_articles s))
                      (Py.len (included_articles s))
                      (Py.len (excluded_articles s))
       /\ stats_var w
          = Summary (Py.len (all_articles s)) (Py.len (included_articles s))
                    (Py.len (excluded_articles s)) (pending_count s)
       /\ search_button_enabled w = search_button_enabled (widgets s))
  /\ ((forall l, items (all_articles s) <> Ok l) ->
      finish_search env s
      = (set_widgets (set_results_text None (widgets s)) saved,
         Raise TypeError)).
Proof.
  intros Hne Hs. cbv zeta.
  assert (Ee : is_empty (all_articles s) = false)
    by (destruct (all_articles s); [congruence|reflexivity]).
  assert (Hsave : save_search_results env s
                  = (set_files (files s ++ [snapshot_file (all_articles s)]) s,
                     Ok tt)).
  { unfold save_search_results, bind, gets, lift. cbn [fst snd].
    rewrite Ee, Hs. reflexivity. }
  set (saved := set_files (files s ++ [snapshot_file (all_articles s)]) s) in *.
  assert (Hfin : finish_search env s
                 = (display_search_results ;;
                    progress_set (SearchCompleted (Py.len (all_articles s))) ;;
                    modify (set_current_index 0) ;;
                    update_screening_display) saved).
  { unfold finish_search, bind at 1, gets. cbn [fst snd]. rewrite Ee.
    unfold bind at 1. rewrite Hsave. reflexivity. }
  rewrite Hfin.
  destruct (display_search_results_run saved) as [Hok Hbad].
  split.
  - intros l Hl. destruct (Hok l Hl) as (p & Hp).
    set (x0 := set_current_index 0
                 (set_widgets
                    (set_progress_var
                       (SearchCompleted (Py.len (all_articles s)))
                       (set_results_text (Some p) (widgets saved)))
                    saved)).
    assert (Hg : cursor_on_article x0 = true).
    { apply cursor_on_article_iff. cbn. unfold Py.len.
      destruct (all_articles s); [congruence|simpl; lia]. }
    assert (Hi : exists a, Py.getitem (all_articles x0) (current_index x0)
                           = Some (Some a)).
    { cbn. destruct (all_articles s) as [|[a|] t]; [congruence| |discriminate].
      exists a. reflexivity. }
    destruct Hi as [a Hi].
    assert (Hrun : (display_search_results ;;
                    progress_set (SearchCompleted (Py.len (all_articles s))) ;;
                    modify (set_current_index 0) ;;
                    update_screening_display) saved
                   = update_screening_display x0).
    { unfold bind at 1. cbv beta. rewrite Hp. reflexivity. }
    rewrite Hrun, (@update_screening_display_on x0 a Hg Hi).
    eexists. split; [reflexivity|]. cbn. auto.
  - intros Hn. unfold bind at 1. cbv beta. rewrite (Hbad Hn). reflexivity.
Qed.

Lemma perform_search_body_finish env terms cap s :
  exists s2,
    perform_search_body env terms cap s = finish_search env s2
    /\ all_articles s2 = aggregate env terms cap s
    /\ files s2 = files s
    /\ included_articles s2 = included_articles s
    /\ excluded_articles s2 = excluded_articles s.
Proof.
  destruct (search_provider_run env terms cap (set_all_articles [] s))
    as (s1 & R1 & A1 & C1 & K1 & F1 & _).
  destruct (load_import_run env s1) as (s2 & R2 & A2 & C2 & K2 & F2).
  exists s2.
  destruct (kept_fields K1) as (I1 & E1 & P1 & _).
  destruct (kept_fields K2) as (I2 & E2 & _).
  split.
  - unfold perform_search_body, bind at 1. cbn [modify].
    unfold bind at 1. rewrite R1. unfold bind at 1. rewrite R2. reflexivity.
  - split.
    + rewrite A2, A1. cbn [all_articles set_all_articles app].
      unfold aggregate, import_part, provider_part. rewrite P1. reflexivity.
    + split; [rewrite F2, F1; reflexivity|].
      split; [rewrite I2, I1|rewrite E2, E1]; reflexivity.
Qed.

(** What a retrieval reports.  Whatever happens the search button is
    enabled again at the end.  An empty batch is reported as
    ['No articles found'] and writes no file.  For a batch that is not
    empty the snapshot file is written first: when the sink refuses it,
    the search ends with the sink's error in the progress line and in a
    ['Search Error'] dialog, and no file is added.  When the snapshot is
    written, it holds the whole batch; if the batch has no [None] the
    progress line reports the size of the batch, the screening line
    reads article 1 of that many, and the summary shows the pending
    count computed with the decision lists of before the retrieval; if
    the batch has a [None], the snapshot stays written but the search
    ends with a [TypeError] in the progress line and in a
    ['Search Error'] dialog. *)
Theorem perform_search_report env terms cap s :
  let batch := aggregate env terms cap s in
  let s' := exec (perform_search env terms cap) s in
  search_button_enabled (widgets s') = true
  /\ (batch = [] ->
      progress_var (widgets s') = NoArticlesFound /\ files s' = files s)
  /\ (forall e,
        batch <> [] -> to_csv env "search_results.csv" batch = Raise e ->
        progress_var (widgets s') = SearchError e
        /\ files s' = files s
        /\ exists d, dialogs s' = (d ++ [search_error_dialog e])%list)
  /\ (batch <> [] -> to_csv env "search_results.csv" batch = Ok tt ->
      files s' = (files s ++ [snapshot_file batch])%list
      /\ (forall l, items batch = Ok l ->
            progress_var (widgets s') = SearchCompleted (Py.len batch)
            /\ screening_progress_var (widgets s')
               = ArticleOf 1 (Py.len batch) (Py.len (included_articles s))
                           (Py.len (excluded_articles s))
            /\ stats_var (widgets s')
               = Summary (Py.len batch) (Py.len (included_articles s))
                         (Py.len (excluded_articles s))
                         (Py.len batch - Py.len (included_articles s)
                          - Py.len (excluded_articles s)))
      /\ ((forall l, items batch <> Ok l) ->
          progress_var (widgets s') = SearchError TypeError
          /\ exists d, dialogs s' = (d ++ [search_error_dialog TypeError])%list)).
Proof.
  cbv zeta.
  destruct (perform_search_body_finish env terms cap s)
    as (s2 & Hbody & Hb & Hf & Hi & He).
  unfold exec, perform_search, try_finally, try_except. rewrite Hbody.
  rewrite <- Hb, <- Hf, <- Hi, <- He.
  split; [|split; [|split]].
  - destruct (finish_search env s2) as [x [[]|e]]; reflexivity.
  - intros H. rewrite (@finish_search_empty env s2 H). split; reflexivity.
  - intros e Hne Hs. rewrite (@finish_search_sink_fails env s2 e Hne Hs).
    cbn. split; [reflexivity|]. split; [reflexivity|].
    eexists. reflexivity.
  - intros Hne Hs.
    destruct (@finish_search_saved env s2 Hne Hs) as [Hok Hbad].
    split; [|split].
    + destruct (items (all_articles s2)) as [l|e] eqn:El.
      * destruct (Hok l eq_refl) as (w & Hw & _). rewrite Hw. reflexivity.
      * rewrite Hbad; [reflexivity|]. intros l. discriminate.
    + intros l Hl. destruct (Hok l Hl) as (w & Hw & Hp & Hsc & Hst & _).
      rewrite Hw. cbn. rewrite Hp, Hsc, Hst. unfold pending_count. auto.
    + intros Hn. rewrite (Hbad Hn). cbn. split; [reflexivity|].
      eexists. reflexivity.
Qed.

(** The theorem on a batch with a [None] and a sink that accepts. *)
Lemma perform_search_report_witness :
  let env := sample_env [sample_record "First" "1"; malformed_record] in
  let batch := aggregate env "cancer" 100 init in
  batch <> []
  /\ to_csv env "search_results.csv" batch = Ok tt
  /\ (forall l, items batch <> Ok l)
  /\ files loaded_with_None <> []
  /\ progress_var (widgets (exec (perform_search env "cancer" 100) init))
     = SearchError TypeError.
Proof.
  intros env batch.
  assert (Hne : batch <> []) by (vm_compute; discriminate).
  assert (Hn : forall l, items batch <> Ok l)
    by (intro l; vm_compute; discriminate).
  split; [exact Hne|]. split; [reflexivity|]. split; [exact Hn|].
  split; [vm_compute; discriminate|].
  destruct (perform_search_report env "cancer" 100 init) as (_ & _ & _ & H).
  destruct (H Hne eq_refl) as (_ & _ & Hbad).
  exact (proj1 (Hbad Hn)).
Defined.

End RetrievalReport.

(* ===================================================================== *)
(** * Properties of the keyword field *)
(* ===================================================================== *)

Section Keywords.

Lemma lower_char_idem c : Py.lower_char (Py.lower_char c) = Py.lower_char c.
Proof. destruct c as [[] [] [] [] [] [] [] []]; reflexivity. Qed.

Lemma is_space_lower_char c : Py.is_space (Py.lower_char c) = Py.is_space c.
Proof. destruct c as [[] [] [] [] [] [] [] []]; reflexivity. Qed.

Lemma comma_lower_char c :
  Ascii.eqb (Py.lower_char c) "," = Ascii.eqb c ",".
Proof. destruct c as [[] [] [] [] [] [] [] []]; reflexivity. Qed.

Lemma lower_idem s : Py.lower (Py.lower s) = Py.lower s.
Proof.
  induction s as [|c s IH]; simpl; [|rewrite lower_char_idem, IH]; reflexivity.
Qed.

Lemma lstrip_lower s : Py.lstrip (Py.lower s) = Py.lower (Py.lstrip s).
Proof.
  induction s as [|c s IH]; simpl; [reflexivity|].
  rewrite is_space_lower_char. destruct (Py.is_space c); [exact IH|reflexivity].
Qed.

Lemma rstrip_lower s : Py.rstrip (Py.lower s) = Py.lower (Py.rstrip s).
Proof.
  induction s as [|c s IH]; simpl; [reflexivity|].
  rewrite IH, is_space_lower_char.
  destruct (Py.rstrip s); simpl; [destruct (Py.is_space c)|]; reflexivity.
Qed.

Lemma strip_lower s : Py.strip (Py.lower s) = Py.lower (Py.strip s).
Proof. unfold Py.strip. rewrite lstrip_lower, rstrip_lower. reflexivity. Qed.

Lemma rstrip_idem s : Py.rstrip (Py.rstrip s) = Py.rstrip s.
Proof.
  induction s as [|c s IH]; simpl; [reflexivity|].
  destruct (Py.rstrip s) as [|c' s'] eqn:E.
  - destruct (Py.is_space c) eqn:Ec; simpl; [|rewrite Ec]; reflexivity.
  - change (Py.rstrip (String c (String c' s')))
      with (match Py.rstrip (String c' s') with
            | EmptyString =>
                if Py.is_space c then EmptyString else String c EmptyString
            | String a b => String c (String a b)
            end).
    rewrite IH. reflexivity.
Qed.

Lemma lstrip_clean s : clean (Py.lstrip s).
Proof.
  induction s as [|c s IH]; simpl; [exact I|].
  destruct (Py.is_space c) eqn:E; [exact IH|exact E].
Qed.

Lemma rstrip_clean s : clean s -> clean (Py.rstrip s).
Proof.
  destruct s as [|c s]; simpl; [auto|]. intros H.
  destruct (Py.rstrip s); [rewrite H|]; exact H.
Qed.

Lemma lstrip_of_clean s : clean s -> Py.lstrip s = s.
Proof. destruct s as [|c s]; simpl; [auto|]. intros H. rewrite H. reflexivity. Qed.

Lemma strip_idem s : Py.strip (Py.strip s) = Py.strip s.
Proof.
  unfold Py.strip.
  rewrite (lstrip_of_clean _ (rstrip_clean _ (lstrip_clean s))).
  apply rstrip_idem.
Qed.

Lemma contains_lower s : contains "," (Py.lower s) = contains "," s.
Proof.
  induction s as [|c s IH]; simpl; [|rewrite comma_lower_char, IH]; reflexivity.
Qed.

Lemma contains_lstrip c s :
  contains c s = false -> contains c (Py.lstrip s) = false.
Proof.
  induction s as [|x s IH]; simpl; [auto|]. intros H.
  apply orb_false_iff in H. destruct H as [H1 H2].
  destruct (Py.is_space x); [auto|]. simpl. rewrite H1, H2. reflexivity.
Qed.

Lemma contains_rstrip c s :
  contains c s = false -> contains c (Py.rstrip s) = false.
Proof.
  induction s as [|x s IH]; simpl; [auto|]. intros H.
  apply orb_false_iff in H. destruct H as [H1 H2]. specialize (IH H2).
  destruct (Py.rstrip s) as [|y t].
  - destruct (Py.is_space x); simpl; [|rewrite H1]; reflexivity.
  - cbn [contains] in *. rewrite H1. exact IH.
Qed.

Lemma contains_app c s x :
  contains c (s ++ String x EmptyString)
  = (contains c s || Ascii.eqb x c)%bool.
Proof.
  induction s as [|y s IH]; simpl.
  - rewrite orb_false_r. reflexivity.
  - rewrite IH, orb_assoc. reflexivity.
Qed.

Lemma split_on_pieces sep s : forall cur,
  contains sep cur = false ->
  Forall (fun piece => contains sep piece = false) (Py.split_on sep cur s).
Proof.
  induction s as [|c s IH]; intros cur H; simpl.
  - constructor; [exact H|constructor].
  - destruct (Ascii.eqb c sep) eqn:E.
    + constructor; [exact H|]. apply IH. reflexivity.
    + apply IH. rewrite contains_app, H, E. reflexivity.
Qed.

Lemma string_app_assoc (a b c : string) : (a ++ b) ++ c = a ++ (b ++ c).
Proof. induction a as [|x a IH]; simpl; [|rewrite IH]; reflexivity. Qed.

Lemma lower_nonempty s : s <> EmptyString -> Py.lower s <> EmptyString.
Proof. destruct s; [congruence|discriminate]. Qed.

Lemma normalised_keyword kw :
  contains "," kw = false -> Py.truthy (Py.strip kw) = true ->
  normal_keyword (Py.lower (Py.strip kw)).
Proof.
  intros Hc Ht. unfold normal_keyword. split; [|split; [|split]].
  - apply lower_nonempty. destruct (Py.strip kw); [discriminate|discriminate].
  - apply lower_idem.
  - rewrite strip_lower, strip_idem. reflexivity.
  - rewrite contains_lower. unfold Py.strip.
    apply contains_rstrip, contains_lstrip. exact Hc.
Qed.

Lemma update_keywords_list s :
  inclusion_keywords (exec update_keywords s)
  = if Py.truthy (Py.strip (keywords_var (inputs s))) then
      map (fun kw => Py.lower (Py.strip kw))
          (filter (fun kw => Py.truthy (Py.strip kw))
                  (Py.split "," (Py.strip (keywords_var (inputs s)))))
    else [].
Proof.
  unfold update_keywords, exec, bind at 1, gets. cbn [fst snd].
  destruct (Py.truthy (Py.strip (keywords_var (inputs s)))).
  - unfold bind at 1 2. cbn [modify messagebox].
    unfold bind at 1, gets. cbn [fst snd].
    match goal with |- context [if ?g then _ else _] => destruct g end.
    + match goal with |- context [display_current_article ?x] =>
        destruct (wo_display_current_article x) as [w Hw];
        unfold exec in Hw; rewrite Hw end.
      reflexivity.
    + reflexivity.
  - unfold bind at 1. cbn [modify].
    unfold bind at 1, gets. cbn [fst snd].
    match goal with |- context [if ?g then _ else _] => destruct g end.
    + match goal with |- context [display_current_article ?x] =>
        destruct (wo_display_current_article x) as [w Hw];
        unfold exec in Hw; rewrite Hw end.
      reflexivity.
    + reflexivity.
Qed.

(** What [update_keywords] stores.  Every keyword it stores is not
    empty, is in lower case, has no white space at either end and holds
    no comma; a keyword field that is blank empties the list.  The
    keywords are kept in the order they were typed, and a keyword typed
    twice is stored twice. *)
Theorem update_keywords_normal s :
  Py.isascii (keywords_var (inputs s)) = true ->
  Forall normal_keyword (inclusion_keywords (exec update_keywords s))
  /\ (Py.strip (keywords_var (inputs s)) = EmptyString ->
      inclusion_keywords (exec update_keywords s) = [])
  /\ (forall a b,
        keywords_var (inputs s) = a ++ "," ++ b ->
        normal_keyword a -> normal_keyword b ->
        inclusion_keywords (exec update_keywords s) = [a; b]).
Proof.
  intros _. rewrite update_keywords_list. split; [|split].
  - destruct (Py.truthy (Py.strip (keywords_var (inputs s)))); [|constructor].
    pose proof (@split_on_pieces "," (Py.strip (keywords_var (inputs s)))
                  EmptyString eq_refl) as Hp.
    fold (Py.split "," (Py.strip (keywords_var (inputs s)))) in Hp.
    induction Hp as [|kw l Hkw Hp IH]; cbn [filter map]; [constructor|].
    destruct (Py.truthy (Py.strip kw)) eqn:Et; [|exact IH].
    cbn [map]. constructor; [|exact IH].
    apply normalised_keyword; assumption.
  - intros H. rewrite H. reflexivity.
  - intros a b Hk (Ha1 & Ha2 & Ha3 & Ha4) (Hb1 & Hb2 & Hb3 & Hb4).
    rewrite Hk.
    assert (Hstrip : Py.strip (a ++ "," ++ b) = a ++ "," ++ b).
    { unfold Py.strip.
      assert (Hl : Py.lstrip (a ++ "," ++ b) = a ++ "," ++ b).
      { assert (Hca : clean a).
        { rewrite <- Ha3. unfold Py.strip. apply rstrip_clean, lstrip_clean. }
        destruct a as [|c a]; [congruence|].
        simpl in Hca. simpl. rewrite Hca. reflexivity. }
      rewrite Hl.
      assert (Hr : forall u v, v <> EmptyString -> Py.rstrip v = v ->
                   Py.rstrip (u ++ v) = u ++ v).
      { intros u v Hv Hrv. induction u as [|x u IHu]; simpl; [exact Hrv|].
        rewrite IHu. destruct (u ++ v) eqn:E; [|reflexivity].
        destruct u; simpl in E; [congruence|discriminate]. }
      assert (Hrb : Py.rstrip b = b).
      { unfold Py.strip in Hb3.
        rewrite <- Hb3 at 2. rewrite <- Hb3 at 1. rewrite rstrip_idem.
        reflexivity. }
      rewrite <- string_app_assoc. apply Hr; assumption. }
    rewrite Hstrip.
    assert (Ht : Py.truthy (a ++ "," ++ b) = true)
      by (destruct a; [congruence|reflexivity]).
    rewrite Ht.
    assert (Hsplit : forall cur u, contains "," u = false ->
               Py.split_on "," cur (u ++ "," ++ b)
               = (cur ++ u) :: Py.split_on "," EmptyString b).
    { intros cur u. revert cur. induction u as [|x u IHu]; intros cur Hu.
      - simpl. rewrite append_empty_r. reflexivity.
      - simpl in Hu. apply orb_false_iff in Hu. destruct Hu as [Hx Hu].
        simpl. rewrite Hx, (IHu _ Hu). f_equal.
        rewrite string_app_assoc. reflexivity. }
    assert (Hsplit_b : forall cur u, contains "," u = false ->
               Py.split_on "," cur u = [cur ++ u]).
    { intros cur u. revert cur. induction u as [|x u IHu]; intros cur Hu.
      - simpl. rewrite append_empty_r. reflexivity.
      - simpl in Hu. apply orb_false_iff in Hu. destruct Hu as [Hx Hu].
        simpl. rewrite Hx, (IHu _ Hu). f_equal.
        rewrite string_app_assoc. reflexivity. }
    unfold Py.split. rewrite (Hsplit EmptyString a Ha4),
      (Hsplit_b EmptyString b Hb4).
    cbn [append filter map]. rewrite Ha3, Hb3.
    assert (Hta : Py.truthy a = true) by (destruct a; [congruence|reflexivity]).
    assert (Htb : Py.truthy b = true) by (destruct b; [congruence|reflexivity]).
    rewrite Hta, Htb. cbn [map]. rewrite Ha3, Hb3, Ha2, Hb2. reflexivity.
Qed.

(** The theorem on a field with two keywords. *)
Lemma update_keywords_normal_witness :
  let s := with_keywords_field "cancer,cancer" init in
  Py.isascii (keywords_var (inputs s)) = true
  /\ normal_keyword "cancer"
  /\ inclusion_keywords (exec update_keywords s) = ["cancer"; "cancer"].
Proof.
  intro s.
  assert (Hn : normal_keyword "cancer").
  { unfold normal_keyword. split; [discriminate|]. repeat split. }
  split; [reflexivity|]. split; [exact Hn|].
  destruct (update_keywords_normal s eq_refl) as (_ & _ & H).
  exact (H "cancer" "cancer" eq_refl Hn Hn).
Defined.

End Keywords.

(* ===================================================================== *)
(** * Further properties of the highlighter *)
(* ===================================================================== *)

Section HighlighterMatches.

Variable keywords : list string.
Hypothesis keywords_nonempty : Forall (fun k => k <> EmptyString) keywords.

Lemma match_literal_lower k : forall t m r,
  Re.match_literal k t = Some (m, r) -> Py.lower m = Py.lower k.
Proof.
  induction k as [|a k IH]; intros t m r H; simpl in H.
  - inversion H; reflexivity.
  - destruct t as [|b t]; [discriminate|].
    destruct (Ascii.eqb _ _) eqn:E; [|discriminate].
    destruct (Re.match_literal k t) as [[m1 r1]|] eqn:E1; [|discriminate].
    inversion H; subst. simpl. apply Ascii.eqb_eq in E.
    rewrite E, (IH _ _ _ E1). reflexivity.
Qed.

Lemma match_literal_complete k : forall b rest,
  Py.lower b = Py.lower k ->
  Re.match_literal k (b ++ rest) = Some (b, rest).
Proof.
  induction k as [|a k IH]; intros b rest H.
  - destruct b; [reflexivity|discriminate].
  - destruct b as [|x b]; [discriminate|].
    simpl in H. inversion H as [[Hc Hl]].
    simpl. rewrite Hc, Ascii.eqb_refl, (IH _ _ Hl). reflexivity.
Qed.

Lemma is_keyword_iff part :
  is_keyword keywords part = true <->
  exists k, In k keywords /\ Py.lower part = Py.lower k.
Proof.
  unfold is_keyword. rewrite existsb_exists. split.
  - intros (x & Hx & He). apply in_map_iff in Hx. destruct Hx as (k & <- & Hk).
    apply String.eqb_eq in He. eauto.
  - intros (k & Hk & He). exists (Py.lower k). split.
    + apply in_map. exact Hk.
    + apply String.eqb_eq. exact He.
Qed.

Lemma is_keyword_empty : is_keyword keywords EmptyString = false.
Proof.
  destruct (is_keyword keywords EmptyString) eqn:E; [|reflexivity].
  apply is_keyword_iff in E. destruct E as (k & Hk & He).
  rewrite Forall_forall in keywords_nonempty.
  specialize (keywords_nonempty k Hk).
  destruct k; [congruence|discriminate].
Qed.

Lemma match_here_keyword : forall (l : list string) ma t m r,
  (forall k, In k l -> In k keywords) ->
  Re.match_here (map Re.escape l) ma t = Some (m, r) ->
  m <> EmptyString /\ is_keyword keywords m = true.
Proof.
  induction l as [|k l IH]; intros ma t m r Hl H; simpl in H; [discriminate|].
  assert (Hk : In k keywords) by (apply Hl; left; reflexivity).
  assert (Hl' : forall k', In k' l -> In k' keywords)
    by (intros k' Hk'; apply Hl; right; exact Hk').
  destruct (Re.match_literal k t) as [[m1 r1]|] eqn:E; [|eauto].
  pose proof (match_literal_lower _ _ E) as Hlow.
  assert (Hm1 : m1 <> EmptyString).
  { rewrite Forall_forall in keywords_nonempty.
    specialize (keywords_nonempty k Hk).
    destruct m1; [|discriminate]. destruct k; [congruence|discriminate]. }
  destruct m1 as [|c m1]; [congruence|].
  inversion H; subst. split; [discriminate|].
  apply is_keyword_iff. eauto.
Qed.

Lemma match_here_none : forall (l : list string) t k m r,
  Re.match_here (map Re.escape l) false t = None ->
  In k l -> Re.match_literal k t = Some (m, r) -> False.
Proof.
  induction l as [|k0 l IH]; intros t k m r H Hk Hm; simpl in *; [contradiction|].
  destruct (Re.match_literal k0 t) as [[m1 r1]|] eqn:E.
  - destruct m1; discriminate.
  - destruct Hk as [->|Hk]; [congruence|]. eapply IH; eassumption.
Qed.

Lemma not_keyword_when_no_match t rest :
  Re.match_here (map Re.escape keywords) false (t ++ rest) = None ->
  is_keyword keywords t = false.
Proof.
  intros H. destruct (is_keyword keywords t) eqn:E; [|reflexivity].
  apply is_keyword_iff in E. destruct E as (k & Hk & He).
  exfalso. eapply match_here_none; [exact H|exact Hk|].
  apply match_literal_complete. exact He.
Qed.

Lemma search_pieces : forall t b m r,
  Re.search (map Re.escape keywords) false t = Some (b, m, r) ->
  is_keyword keywords b = false
  /\ m <> EmptyString /\ is_keyword keywords m = true.
Proof.
  induction t as [|c t IH]; intros b m r H; simpl in H.
  - destruct (Re.match_here (map Re.escape keywords) false EmptyString)
      as [[m1 r1]|] eqn:E; [|discriminate].
    inversion H; subst. split; [apply is_keyword_empty|].
    eapply match_here_keyword; [|exact E]. auto.
  - destruct (Re.match_here (map Re.escape keywords) false (String c t))
      as [[m1 r1]|] eqn:E.
    + inversion H; subst. split; [apply is_keyword_empty|].
      eapply match_here_keyword; [|exact E]. auto.
    + destruct (Re.search (map Re.escape keywords) false t)
        as [[[b1 m1] r1]|] eqn:E1; [|discriminate].
      inversion H; subst. destruct (IH _ _ _ eq_refl) as (_ & Hm).
      split; [|exact Hm].
      apply (not_keyword_when_no_match (String c b1) (m ++ r)).
      cbn [append].
      rewrite <- (@search_app (map Re.escape keywords) t false b1 m r E1).
      exact E.
Qed.

Lemma search_none t :
  Re.search (map Re.escape keywords) false t = None ->
  is_keyword keywords t = false.
Proof.
  intros H. apply (not_keyword_when_no_match t EmptyString).
  rewrite append_empty_r.
  destruct t as [|c t]; simpl in H;
    destruct (Re.match_here (map Re.escape keywords) false _) as [[m1 r1]|];
    [discriminate H|reflexivity|discriminate H|reflexivity].
Qed.

Lemma split_alternating tag p ma t :
  p = map Re.escape keywords -> ma = false ->
  alternating keywords tag
    (map (fun part =>
            if is_keyword keywords part then (part, Some "highlight")
            else (part, Some tag)) (Re.split_from p ma t)).
Proof.
  funelim (Re.split_from p ma t); intros Hp Hma; subst.
  - match goal with E : Re.search _ _ _ = Some _ |- _ =>
      destruct (@search_pieces _ _ _ _ E) as (Hb & Hm & Hk) end.
    cbn [map]. rewrite Hb, Hk.
    assert (Hneg : negb (Py.truthy m) = false)
      by (destruct m; [congruence|reflexivity]).
    match goal with IH : forall _, _ -> _ -> alternating _ _ _ |- _ =>
      specialize (IH tag eq_refl Hneg) end.
    cbn [alternating]. auto 10.
  - match goal with E : Re.search _ _ _ = None |- _ =>
      pose proof (@search_none _ E) as Hb end.
    cbn [map]. rewrite Hb. cbn. auto.
Qed.

End HighlighterMatches.

Section HighlighterAlternation.

(** Matches and gaps.  With at least one keyword and no empty keyword,
    the spans of the highlighter alternate: a gap, a match, a gap, and
    so on, beginning and ending with a gap.  Every gap carries the
    caller's tag and is not a keyword; every match carries the tag
    [highlight], is not empty and is one of the keywords up to case.  So
    the pieces the pattern matches are exactly the pieces that are
    highlighted. *)
Theorem highlight_spans_alternate keywords text tag :
  Py.isascii text = true ->
  Forall (fun k => Py.isascii k = true) keywords ->
  keywords <> [] -> Forall (fun k => k <> EmptyString) keywords ->
  alternating keywords tag (highlight_spans keywords text tag).
Proof.
  intros _ _ Hne Hk. unfold highlight_spans.
  destruct keywords as [|k ks] eqn:E; [congruence|].
  cbn [map]. rewrite <- E in *.
  change (Re.escape k :: map Re.escape ks) with (map Re.escape (k :: ks)).
  rewrite <- E. unfold Re.split.
  apply split_alternating; [exact Hk|reflexivity|reflexivity].
Qed.

(** The theorem on the keyword [cancer]. *)
Lemma highlight_spans_alternate_witness :
  Py.isascii "Lung cancer and CANCER care" = true
  /\ Forall (fun k => Py.isascii k = true) ["cancer"]
  /\ ["cancer"] <> []
  /\ Forall (fun k => k <> EmptyString) ["cancer"]
  /\ alternating ["cancer"] "abstract"
       (highlight_spans ["cancer"] "Lung cancer and CANCER care" "abstract").
Proof.
  assert (H0 : Forall (fun k => Py.isascii k = true) ["cancer"])
    by (constructor; [reflexivity|constructor]).
  assert (H1 : ["cancer"] <> []) by discriminate.
  assert (H2 : Forall (fun k => k <> EmptyString) ["cancer"])
    by (constructor; [discriminate|constructor]).
  split; [reflexivity|]. split; [exact H0|].
  split; [exact H1|]. split; [exact H2|].
  exact (@highlight_spans_alternate ["cancer"] "Lung cancer and CANCER care"
           "abstract" eq_refl H0 H1 H2).
Defined.

End HighlighterAlternation.

(* ===================================================================== *)
(** * A decision anywhere in the list, and a fresh batch *)
(* ===================================================================== *)

Section Decisions.

Lemma nth_error_setitem_other {A} (l : list A) : forall i k v,
  k <> i -> nth_error (Py.setitem l i v) k = nth_error l k.
Proof.
  induction l as [|x l IH]; intros [|i] [|k] v H; simpl; try reflexivity;
    try congruence.
  apply IH. congruence.
Qed.

(** A decision touches one article and moves on.  With the cursor on an
    article, [include_article] sets the status of that article to
    Included whatever it was, leaves every other element of the list
    alone, appends the snapshot to the included list, leaves the
    excluded list alone, and moves the cursor one step forward unless it
    is on the last article.  [exclude_article] does the same with
    Excluded and the excluded list. *)
Theorem decision_touches_one_article s now live :
  cursor_on_article s = true ->
  Py.getitem (all_articles s) (current_index s) = Some (Some live) ->
  let i := Z.to_nat (current_index s) in
  (let s' := exec (include_article now) s in
   nth_error (all_articles s') i = Some (Some (set_Status Included live))
   /\ (forall k, k <> i ->
                 nth_error (all_articles s') k = nth_error (all_articles s) k)
   /\ included_articles s'
      = (included_articles s ++ [snapshot Included now live])%list
   /\ excluded_articles s' = excluded_articles s
   /\ current_index s'
      = if current_index s <? Py.len (all_articles s) - 1
        then current_index s + 1 else current_index s)
  /\ (let s' := exec (exclude_article now) s in
      nth_error (all_articles s') i = Some (Some (set_Status Excluded live))
      /\ (forall k, k <> i ->
                    nth_error (all_articles s') k = nth_error (all_articles s) k)
      /\ excluded_articles s'
         = (excluded_articles s ++ [snapshot Excluded now live])%list
      /\ included_articles s' = included_articles s
      /\ current_index s'
         = if current_index s <? Py.len (all_articles s) - 1
           then current_index s + 1 else current_index s).
Proof.
  intros Hg Hi. cbv zeta.
  pose proof (proj1 (cursor_on_article_iff s) Hg) as Hr.
  assert (Hn : (Z.to_nat (current_index s) < List.length (all_articles s))%nat)
    by (unfold Py.len in Hr; lia).
  split.
  - destruct (@include_article_fields s now live Hg Hi) as (Ha & Hinc & Hexc & Hc).
    rewrite Ha, Hinc, Hexc, Hc.
    split; [apply nth_error_setitem_same; exact Hn|].
    split; [intros k Hk; apply nth_error_setitem_other; exact Hk|].
    auto.
  - destruct (@exclude_article_fields s now live Hg Hi) as (Ha & Hexc & Hinc & Hc).
    rewrite Ha, Hinc, Hexc, Hc.
    split; [apply nth_error_setitem_same; exact Hn|].
    split; [intros k Hk; apply nth_error_setitem_other; exact Hk|].
    auto.
Qed.

(** The theorem on the first of two loaded articles. *)
Lemma decision_touches_one_article_witness :
  let live := mkArticle 1 (Some "First") "PMID: 1" "Background. Results."
                        "Doe Jane" PubMed Pending None in
  cursor_on_article two_loaded = true
  /\ Py.getitem (all_articles two_loaded) (current_index two_loaded)
     = Some (Some live)
  /\ current_index (exec (exclude_article "2024-05-01 10:00:00") two_loaded)
     = 1.
Proof.
  intro live. split; [reflexivity|]. split; [reflexivity|].
  destruct (@decision_touches_one_article two_loaded "2024-05-01 10:00:00"
              live eq_refl eq_refl) as [_ (_ & _ & _ & _ & H)].
  rewrite H. reflexivity.
Defined.

Lemma undecided_nil : undecided [].
Proof. intros a H. contradiction. Qed.

Lemma undecided_app l1 l2 : undecided l1 -> undecided l2 -> undecided (l1 ++ l2).
Proof.
  intros H1 H2 a H. apply in_app_or in H. destruct H; [apply H1|apply H2]; auto.
Qed.

Lemma undecided_cons e l :
  (forall a, e = Some a -> Status a = Pending /\ Decision_Date a = None) ->
  undecided l -> undecided (e :: l).
Proof.
  intros He Hl a [H|H]; [apply He; exact H|apply Hl; exact H].
Qed.

Lemma parse_pubmed_record_undecided record sr_no a :
  fst (parse_pubmed_record record sr_no) = Some a ->
  Status a = Pending /\ Decision_Date a = None.
Proof.
  unfold parse_pubmed_record, parse_pubmed_record_body.
  destruct (subscript (Bio.MedlineCitation record)) as [c|e]; [|discriminate].
  destruct (subscript (Bio.Article_ c)) as [x|e]; [|discriminate].
  cbn. intros H. inversion H. auto.
Qed.

Lemma parse_pubmed_xml_undecided elem sr_no a :
  fst (parse_pubmed_xml elem sr_no) = Some a ->
  Status a = Pending /\ Decision_Date a = None.
Proof.
  unfold parse_pubmed_xml, parse_pubmed_xml_body.
  destruct (attr (Xml.find_deep "Article" elem)) as [x|e]; [|discriminate].
  cbv zeta.
  destruct (match Xml.find_deep "AuthorList" x with
            | Some author_list => xml_authors (Xml.findall "Author" author_list)
            | None => []
            end) as [|o l].
  - cbn. intros H. inversion H. auto.
  - destruct (all_str (o :: l)); [|discriminate].
    cbn. intros H. inversion H. auto.
Qed.

Lemma parsed_from_undecided records : forall i,
  undecided (parsed_from i records).
Proof.
  induction records as [|r t IH]; intro i; simpl.
  - apply undecided_nil.
  - apply undecided_cons; [|apply IH].
    intros a H. eapply parse_pubmed_record_undecided. exact H.
Qed.

Lemma xml_parsed_from_undecided elems : forall n,
  undecided (xml_parsed_from n elems).
Proof.
  induction elems as [|e t IH]; intro n; simpl.
  - apply undecided_nil.
  - apply undecided_cons; [|apply IH].
    intros a H. eapply parse_pubmed_xml_undecided. exact H.
Qed.

Lemma direct_batch_loop_undecided pv email bs : forall articles,
  undecided articles ->
  undecided (fst (direct_batch_loop pv email bs articles)).
Proof.
  induction bs as [|b t IH]; intros articles H; simpl; [assumption|].
  destruct (efetch pv email b) as [root|e]; [|assumption].
  pose proof (direct_inner_loop_parsed
                (Xml.findall_deep "PubmedArticle" root) articles) as Hp.
  destruct (direct_inner_loop (Xml.findall_deep "PubmedArticle" root) articles)
    as [articles1 out1].
  specialize (IH articles1).
  destruct (direct_batch_loop pv email t articles1) as [articles2 out2].
  simpl in *. apply IH. rewrite Hp.
  apply undecided_app; [assumption|apply xml_parsed_from_undecided].
Qed.

Lemma search_pubmed_undecided pv email terms cap :
  undecided (fst (search_pubmed pv email terms cap)).
Proof.
  assert (Hd : undecided (fst (search_pubmed_direct pv email terms cap))).
  { unfold search_pubmed_direct.
    destruct (esearch pv _); [|apply undecided_nil].
    apply direct_batch_loop_undecided, undecided_nil. }
  unfold search_pubmed.
  destruct (BIOPYTHON_AVAILABLE pv); [|exact Hd].
  destruct (entrez pv _).
  - rewrite search_pubmed_loop_parsed. apply parsed_from_undecided.
  - destruct (search_pubmed_direct pv email terms cap). exact Hd.
Qed.

Lemma cochrane_loop_undecided df already rows :
  undecided (fst (cochrane_loop df already rows)).
Proof.
  induction rows as [|[[z|t] row] rows IH].
  - apply undecided_nil.
  - rewrite cochrane_loop_cons_int. cbn [fst].
    apply undecided_cons; [|exact IH].
    intros a H. inversion H; subst. cbn. auto.
  - rewrite cochrane_loop_cons_text. exact IH.
Qed.

(** A fresh batch is undecided.  Every article a retrieval puts in the
    session, from the provider or from the import, has the status
    Pending and no decision date, whatever decisions the session held
    before. *)
Theorem perform_search_batch_undecided env terms cap s :
  undecided (all_articles (exec (perform_search env terms cap) s)).
Proof.
  destruct (perform_search_run env terms cap s) as (_ & Ha & _).
  destruct (perform_search_body_run env terms cap s) as (Ba & _).
  cbv zeta in Ba. rewrite Ha, Ba. unfold aggregate.
  apply undecided_app.
  - unfold provider_part. destruct (pubmed_var (inputs s));
      [apply search_pubmed_undecided|apply undecided_nil].
  - unfold import_part.
    destruct (_ && _)%bool; [|apply undecided_nil].
    destruct (read_csv env _); [|apply undecided_nil].
    apply cochrane_loop_undecided.
Qed.

End Decisions.

(* ===================================================================== *)
(** * Sequence numbers of a batch imported with the default index *)
(* ===================================================================== *)

Section ImportNumbers.

(** When the frame the import reads has the default index, the batch a
    retrieval leaves in the session is the provider part followed by
    the import part, and among its articles the sequence numbers grow
    strictly with the position, so no two are equal, and no provider
    article comes after an import article.  The provider article at
    position [k] has number [k + 1]; the import article of row [k] has
    the number of elements aggregated before the import, plus [k],
    plus 1. *)
Theorem batch_sequence_numbers env terms cap s :
  default_import env s ->
  let batch := all_articles (exec (perform_search env terms cap) s) in
  let p := provider_part env terms cap s in
  let c := import_part env s (Py.len p) in
  batch = (p ++ c)%list
  /\ (forall i j a b,
        (i < j)%nat ->
        nth_error batch i = Some (Some a) ->
        nth_error batch j = Some (Some b) ->
        Sr_No a < Sr_No b /\ (Source b = PubMed -> Source a = PubMed))
  /\ (forall i j a b,
        i <> j ->
        nth_error batch i = Some (Some a) ->
        nth_error batch j = Some (Some b) ->
        Sr_No a <> Sr_No b)
  /\ (forall k a, nth_error p k = Some (Some a) ->
                  Source a = PubMed /\ Sr_No a = Z.of_nat k + 1)
  /\ (forall k a, nth_error c k = Some (Some a) ->
                  Source a = Cochrane /\ Sr_No a = Py.len p + Z.of_nat k + 1).
Proof.
  intros Hdef. cbv zeta.
  destruct (perform_search_run env terms cap s) as (_ & Ha & _).
  destruct (perform_search_body_run env terms cap s) as (Ba & _).
  cbv zeta in Ba. rewrite Ha, Ba. unfold aggregate.
  pose proof (provider_part_tagged env terms cap s) as Hp.
  pose proof (@import_part_tagged env s
                (Py.len (provider_part env terms cap s)) Hdef) as Hc.
  split; [reflexivity|]. split; [|split; [|split]].
  - intros i j a b Hij Hi Hj.
    destruct (@batch_positions _ _ i a Hp Hc Hi) as (Ni & Pi & Ci).
    destruct (@batch_positions _ _ j b Hp Hc Hj) as (Nj & Pj & Cj).
    split; [lia|]. intros Hb.
    destruct (Nat.lt_ge_cases j (List.length (provider_part env terms cap s)))
      as [Hl|Hl].
    + apply Pi. lia.
    + rewrite (Cj Hl) in Hb. discriminate.
  - intros i j a b Hij Hi Hj.
    destruct (@batch_positions _ _ i a Hp Hc Hi) as (Ni & _).
    destruct (@batch_positions _ _ j b Hp Hc Hj) as (Nj & _).
    lia.
  - intros k a H. destruct (Hp _ _ H). split; [assumption|lia].
  - exact Hc.
Qed.

(** The theorem on a batch of two provider records and two import
    rows. *)
Lemma batch_sequence_numbers_witness :
  let env := sample_env_both [sample_record "First" "1";
                              sample_record "Second" "2"] in
  let s := with_csv_file "cochrane.csv" init in
  let batch := all_articles (exec (perform_search env "cancer" 100) s) in
  default_import env s
  /\ List.length batch = 4%nat
  /\ (exists a b,
        (1 < 2)%nat
        /\ nth_error batch 1 = Some (Some a)
        /\ nth_error batch 2 = Some (Some b)
        /\ Source a = PubMed /\ Source b = Cochrane
        /\ Sr_No a < Sr_No b).
Proof.
  intros env s batch.
  assert (Hdef : default_import env s).
  { intros df Hdf. inversion Hdf; subst df.
    intros [|[|[|k]]] l row H; simpl in H; try discriminate;
      inversion H; reflexivity. }
  split; [exact Hdef|]. split; [reflexivity|].
  destruct (@batch_sequence_numbers env "cancer" 100 s Hdef) as (_ & H & _).
  destruct (nth_error batch 1) as [[a|]|] eqn:Ea; try discriminate.
  destruct (nth_error batch 2) as [[b|]|] eqn:Eb; try discriminate.
  exists a, b.
  assert (Hlt : (1 < 2)%nat) by lia.
  destruct (H 1%nat 2%nat a b Hlt Ea Eb) as [Hn _].
  split; [exact Hlt|]. split; [reflexivity|]. split; [reflexivity|].
  split; [injection Ea as <-; reflexivity|].
  split; [injection Eb as <-; reflexivity|exact Hn].
Defined.

End ImportNumbers.
